(** * DataFast MCP servers: tool handlers over a scripted network

    A shallow embedding of the tool handlers of the two [DataFastMCP]
    agents of this repository:

    - [Analytics]: the agent of [src/index.ts] and of its longer version
      (create_payment, create_goal, get_visitor_data, batch_create_goals,
      validate_visitor, create_revenue_goal, get_analytics_summary);
    - [Setup]: the onboarding agent (create_goal, track_payment,
      get_visitor_data).

    A handler is a computation in a small monad that threads the log of
    outbound [fetch] calls and propagates JavaScript exceptions.  JSON
    documents are trees, numbers are binary64 floats, and the text of an
    envelope is built with the language's own conversions
    (template-literal [ToString], [Number.prototype.toFixed],
    [Math.round]). *)

From Stdlib Require Import ZArith QArith Qround Qpower Bool List String Ascii Lia Floats.
Import ListNotations.

#[local] Set Warnings "-inexact-float,-register-all".
#[local] Open Scope string_scope.
#[local] Open Scope Z_scope.

(** ** Strings *)

Module Text.

(** The two characters a Rocq literal cannot hold conveniently. *)
Definition nl : string := String (ascii_of_nat 10) EmptyString.
Definition dq : string := String (ascii_of_nat 34) EmptyString.

(** [contains needle hay]: [needle] occurs in [hay] as a contiguous run. *)
Definition contains (needle hay : string) : Prop :=
  exists pre post, hay = pre ++ needle ++ post.

Fixpoint starts_with (needle hay : string) : bool :=
  match needle, hay with
  | EmptyString, _ => true
  | String a needle', String b hay' => Ascii.eqb a b && starts_with needle' hay'
  | String _ _, EmptyString => false
  end.

Fixpoint containsb (needle hay : string) : bool :=
  if starts_with needle hay then true
  else match hay with
       | EmptyString => false
       | String _ rest => containsb needle rest
       end.

Fixpoint all_chars (p : ascii -> bool) (s : string) : bool :=
  match s with
  | EmptyString => true
  | String c rest => p c && all_chars p rest
  end.


Fixpoint repeat_string (s : string) (n : nat) : string :=
  match n with
  | O => EmptyString
  | S k => s ++ repeat_string s k
  end.

(** Decimal digits of a natural number, most significant first. *)
Definition digit_char (d : Z) : ascii := ascii_of_nat (48 + Z.to_nat d).

Fixpoint digits_fuel (fuel : nat) (n : Z) (acc : string) : string :=
  match fuel with
  | O => acc
  | S f =>
      let acc' := String (digit_char (n mod 10)) acc in
      if n <? 10 then acc' else digits_fuel f (n / 10) acc'
  end.

Definition digits (n : Z) : string :=
  digits_fuel (S (Z.to_nat (Z.log2 n))) n EmptyString.

(** An integer in decimal, as a template literal prints an integral
    number below 10^21. *)
Definition string_of_Z (z : Z) : string :=
  if z <? 0 then "-" ++ digits (- z) else digits z.

(** Code units of the UTF-16 form of a UTF-8 string: one per code point,
    two for a code point outside the basic plane. *)
Fixpoint utf16_length (s : string) : Z :=
  match s with
  | EmptyString => 0
  | String c rest =>
      let n := Z.of_nat (nat_of_ascii c) in
      (if (128 <=? n) && (n <? 192) then 0 else if 240 <=? n then 2 else 1)
      + utf16_length rest
  end.

End Text.
Import Text.

(** ** Numbers

    A JavaScript number is a binary64 float.  Printing works on the exact
    rational value of the float, as ECMAScript specifies it. *)

Module Number.

#[local] Open Scope Q_scope.

Definition ten_pow (p : Z) : Q := Qpower (10 # 1) p.
Definition two_pow (p : Z) : Q := Qpower (2 # 1) p.

(** The value of a finite float with mantissa [m] and exponent [e]. *)
Definition SF2Q (m : positive) (e : Z) : Q := Qred (inject_Z (Zpos m) * two_pow e).

(** [decade x] for [x > 0]: the [n] with [10^(n-1) <= x < 10^n], found
    by stepping from [n0]. *)
Fixpoint decade_from (fuel : nat) (x : Q) (n0 : Z) : Z :=
  match fuel with
  | O => n0
  | S f =>
      if negb (Qle_bool (ten_pow (n0 - 1)) x) then decade_from f x (n0 - 1)%Z
      else if Qle_bool (ten_pow n0) x then decade_from f x (n0 + 1)%Z
      else n0
  end.

Definition decade (x : Q) : Z := decade_from 700 x 1.

Definition Qabs_diff (a b : Q) : Q := if Qle_bool a b then b - a else a - b.
Definition Qlt_bool (a b : Q) : bool := negb (Qle_bool b a).

(** The decimals that read back as the float [m * 2^e]: those within
    half a unit in the last place, the bounds included when [m] is even. *)
Definition reads_back (m : positive) (e : Z) (v : Q) : bool :=
  let x := SF2Q m e in
  let up := two_pow (e - 1) in
  let down := if (Zpos m =? 2 ^ 52)%Z && (-1074 <? e)%Z then two_pow (e - 2) else up in
  if Z.even (Zpos m)
  then Qle_bool (x - down) v && Qle_bool v (x + up)
  else Qlt_bool (x - down) v && Qlt_bool v (x + up).

(** Candidates with [k] digits in decade [n]: the multiples of
    [10^(n-k)] just below and just above the value. *)
Definition candidates (m : positive) (e : Z) (k n : Z) : list (Z * Z) :=
  let x := SF2Q m e in
  let t := x / ten_pow (n - k) in
  let ok (s : Z) :=
    (10 ^ (k - 1) <=? s)%Z && (s <? 10 ^ k)%Z
    && reads_back m e (inject_Z s * ten_pow (n - k)) in
  map (fun s => (s, n))
      (filter ok (if (Qfloor t =? Qceiling t)%Z then [Qfloor t] else [Qfloor t; Qceiling t])).

(** Of two candidates the closer to the value; on a tie the even one. *)
Definition better (x : Q) (k : Z) (a b : Z * Z) : Z * Z :=
  let dist (c : Z * Z) := Qabs_diff (inject_Z (fst c) * ten_pow (snd c - k)) x in
  if Qlt_bool (dist b) (dist a) then b
  else if Qlt_bool (dist a) (dist b) then a
  else if Z.even (fst a) then a else b.

(** The shortest digit string [s] (with [k] digits, in decade [n]) that
    reads back as the float. *)
Fixpoint shortest_from (fuel : nat) (m : positive) (e : Z) (k : Z) : Z * Z * Z :=
  let x := SF2Q m e in
  let n := decade x in
  match (candidates m e k n ++ candidates m e k (n + 1))%list with
  | c :: cs => let (s, n') := fold_left (better x k) cs c in (s, k, n')
  | [] =>
      match fuel with
      | O => (0, k, n)%Z
      | S f => shortest_from f m e (k + 1)
      end
  end.

Definition shortest (m : positive) (e : Z) : Z * Z * Z := shortest_from 17 m e 1.

(** Number::toString on a positive finite value, from its digits. *)
Definition layout (s k n : Z) : string :=
  let ds := digits s in
  if (k <=? n)%Z && (n <=? 21)%Z then
    ds ++ repeat_string "0" (Z.to_nat (n - k))
  else if (0 <? n)%Z && (n <=? 21)%Z then
    substring 0 (Z.to_nat n) ds ++ "." ++ substring (Z.to_nat n) (Z.to_nat (k - n)) ds
  else if (-6 <? n)%Z && (n <=? 0)%Z then
    "0." ++ repeat_string "0" (Z.to_nat (- n)) ++ ds
  else
    let ex := (if (n - 1 <? 0)%Z then "-" else "+") ++ digits (Z.abs (n - 1)) in
    if (k =? 1)%Z then ds ++ "e" ++ ex
    else substring 0 1 ds ++ "." ++ substring 1 (Z.to_nat (k - 1)) ds ++ "e" ++ ex.

(** Number::toString(x), radix 10. *)
Definition toString (x : float) : string :=
  match Prim2SF x with
  | S754_nan => "NaN"
  | S754_zero _ => "0"
  | S754_infinity sign => if sign then "-Infinity" else "Infinity"
  | S754_finite sign m e =>
      let '(s, k, n) := shortest m e in
      (if sign then "-" else "") ++ layout s k n
  end.

(** Number.prototype.toFixed(d) for [0 <= d <= 100]: the integer [n]
    nearest to [x * 10^d] (the larger one on a tie), written with the
    point [d] digits from the right. *)
Definition fixed_digits (n : Z) (d : nat) : string :=
  let ds := digits n in
  let ds := repeat_string "0" (S d - String.length ds) ++ ds in
  match d with
  | O => ds
  | _ =>
      let k := String.length ds in
      substring 0 (k - d) ds ++ "." ++ substring (k - d) d ds
  end.

Definition toFixed (x : float) (d : nat) : string :=
  match Prim2SF x with
  | S754_finite sign m e =>
      let v := SF2Q m e in
      if Qle_bool (ten_pow 21) v then toString x
      else
        let n := Qfloor (v * ten_pow (Z.of_nat d) + (1 # 2)) in
        (if sign then "-" else "") ++ fixed_digits n d
  | S754_zero _ => fixed_digits 0 d
  | _ => toString x
  end.

(** Math.round: the nearest integer, the larger one on a tie. *)
Definition of_Z (z : Z) : float :=
  if (z <? 0)%Z then PrimFloat.opp (PrimFloat.of_uint63 (Uint63.of_Z (- z)))
  else PrimFloat.of_uint63 (Uint63.of_Z z).

Definition round (x : float) : float :=
  match Prim2SF x with
  | S754_finite sign m e =>
      if (0 <=? e)%Z then x
      else
        let v := SF2Q m e in
        if sign then
          let n := Qceiling (v - (1 # 2)) in
          if (n =? 0)%Z then (-0)%float else of_Z (- n)
        else of_Z (Qfloor (v + (1 # 2)))
  | _ => x
  end.

Definition is_finite (x : float) : bool :=
  match Prim2SF x with
  | S754_finite _ _ _ | S754_zero _ => true
  | _ => false
  end.

End Number.

(** ** JavaScript values *)

Module JS.

(** What [response.json()] may produce, and what a handler builds before
    [JSON.stringify].  An object is a plain one: its keys are taken not
    to include [toString] or [valueOf], so that it converts to a
    primitive as [Object.prototype] has it. *)
Inductive value : Type :=
| VUndefined
| VNull
| VBool (b : bool)
| VNum (x : float)
| VStr (s : string)
| VArr (items : list value)
| VObj (fields : list (string * value)).

Definition object : Type := list (string * value).

(** A thrown value: an [Error] instance with its message, or anything else. *)
Inductive thrown : Type :=
| ThrownError (message : string)
| ThrownOther (v : value).

Inductive completion (A : Type) : Type :=
| Normal (a : A)
| Abrupt (t : thrown).
Arguments Normal {A} a.
Arguments Abrupt {A} t.

(** The messages of the engine's TypeErrors (V8's wording). *)
Definition cannot_read (base : string) (prop : string) : thrown :=
  ThrownError ("Cannot read properties of " ++ base ++ " (reading '" ++ prop ++ "')").
Definition not_a_function (expr : string) : thrown :=
  ThrownError (expr ++ " is not a function").

Fixpoint lookup (k : string) (o : object) : option value :=
  match o with
  | [] => None
  | (k', v) :: rest => if (k' =? k)%string then Some v else lookup k rest
  end.

(** [o[k] = v] on an object under construction: an existing key keeps
    its place, a new one goes last. *)
Fixpoint put (k : string) (v : value) (o : object) : object :=
  match o with
  | [] => [(k, v)]
  | (k', v') :: rest =>
      if (k' =? k)%string then (k, v) :: rest else (k', v') :: put k v rest
  end.

Definition keys (o : object) : list string := map fst o.

(** ToBoolean. *)
Definition truthy (v : value) : bool :=
  match v with
  | VUndefined | VNull => false
  | VBool b => b
  | VNum x => negb (PrimFloat.is_zero x || PrimFloat.is_nan x)
  | VStr s => negb (s =? "")%string
  | VArr _ | VObj _ => true
  end.

(** [a || b] and [a && b] on values (both operands are pure here). *)
Definition or_else (a b : value) : value := if truthy a then a else b.
Definition and_then (a b : value) : value := if truthy a then b else a.

Definition undefined_or {A : Type} (inj : A -> value) (o : option A) : value :=
  match o with
  | Some a => inj a
  | None => VUndefined
  end.

(** ToString, as a template literal applies it.  An array joins its
    items with a comma, [null] and [undefined] items being empty. *)
Fixpoint ToString (v : value) : string :=
  match v with
  | VUndefined => "undefined"
  | VNull => "null"
  | VBool b => if b then "true" else "false"
  | VNum x => Number.toString x
  | VStr s => s
  | VArr items =>
      String.concat ","
        (map (fun i => match i with
                       | VUndefined | VNull => EmptyString
                       | _ => ToString i
                       end) items)
  | VObj _ => "[object Object]"
  end.

(** Array.prototype.join with a separator. *)
Definition join (sep : string) (items : list value) : string :=
  String.concat sep
    (map (fun i => match i with
                   | VUndefined | VNull => EmptyString
                   | _ => ToString i
                   end) items).

(** ToNumber; [parse] is the host's StringToNumber. *)
Definition ToNumber (parse : string -> float) (v : value) : float :=
  match v with
  | VUndefined => nan
  | VNull => 0%float
  | VBool b => if b then 1%float else 0%float
  | VNum x => x
  | VStr s => parse s
  | VArr _ => parse (ToString v)
  | VObj _ => nan
  end.

(** The own enumerable properties [{...v}] copies: those of an object,
    the indices of an array or of a string (one per character, for a
    string of ASCII characters); another primitive has none. *)
Fixpoint indexed (i : Z) (items : list value) : object :=
  match items with
  | [] => []
  | x :: rest => (string_of_Z i, x) :: indexed (i + 1) rest
  end.

Fixpoint chars (s : string) : list value :=
  match s with
  | EmptyString => []
  | String c rest => VStr (String c EmptyString) :: chars rest
  end.

Definition own_properties (v : value) : object :=
  match v with
  | VObj fields => fields
  | VArr items => indexed 0 items
  | VStr s => indexed 0 (chars s)
  | _ => []
  end.

(** An object literal is read left to right: [prop k v] for [k: v],
    [spread v] for [...v]. *)
Definition prop (k : string) (v : value) (o : object) : object := put k v o.
Definition spread (v : value) (o : object) : object :=
  fold_left (fun acc kv => put (fst kv) (snd kv) acc) (own_properties v) o.

Definition literal (steps : list (object -> object)) : value :=
  VObj (fold_left (fun acc step => step acc) steps []).

(** The document [JSON.stringify] writes, kept as a tree: a property
    whose value is [undefined] is left out, an [undefined] array item
    and a number that is not finite become [null], and a zero is
    written without its sign. *)
Definition stringify_number (x : float) : value :=
  if Number.is_finite x then
    if PrimFloat.is_zero x then VNum 0%float else VNum x
  else VNull.

Fixpoint stringify_fields (f : value -> value) (o : object) : object :=
  match o with
  | [] => []
  | (k, VUndefined) :: rest => stringify_fields f rest
  | (k, x) :: rest => (k, f x) :: stringify_fields f rest
  end.

Fixpoint JSON_stringify (v : value) : value :=
  match v with
  | VNum x => stringify_number x
  | VArr items =>
      VArr (map (fun i => match i with
                          | VUndefined => VNull
                          | _ => JSON_stringify i
                          end) items)
  | VObj fields => VObj (stringify_fields JSON_stringify fields)
  | _ => v
  end.

Definition record_of (m : list (string * string)) : value :=
  VObj (map (fun kv => (fst kv, VStr (snd kv))) m).

(** [String.prototype.replace] with a string for a pattern: the first
    occurrence of the pattern is replaced, and the replacement is read
    for the patterns [$$], [$&], [$`] and [$'] (there are no captures, so
    a [$] before anything else stands for itself).  The texts are
    sequences of UTF-8 bytes here and of UTF-16 units in the engine; for
    a pattern of ASCII characters the occurrences are the same. *)
Fixpoint drop (n : nat) (s : string) : string :=
  match n, s with
  | O, _ => s
  | S n', String _ rest => drop n' rest
  | S _, EmptyString => EmptyString
  end.

(** The text before the first occurrence of [pattern] and the text after it. *)
Fixpoint split_at (pattern s : string) : option (string * string) :=
  if starts_with pattern s then Some (EmptyString, drop (String.length pattern) s)
  else
    match s with
    | EmptyString => None
    | String c rest =>
        match split_at pattern rest with
        | Some (before, after) => Some (String c before, after)
        | None => None
        end
    end.

Fixpoint GetSubstitution (matched before after replacement : string) : string :=
  match replacement with
  | EmptyString => EmptyString
  | String "$" rest =>
      match rest with
      | String "$" rest' => String "$" (GetSubstitution matched before after rest')
      | String "&" rest' => matched ++ GetSubstitution matched before after rest'
      | String "`" rest' => before ++ GetSubstitution matched before after rest'
      | String "'" rest' => after ++ GetSubstitution matched before after rest'
      | _ => String "$" (GetSubstitution matched before after rest)
      end
  | String c rest => String c (GetSubstitution matched before after rest)
  end.

Definition replace (s pattern replacement : string) : string :=
  match split_at pattern s with
  | Some (before, after) =>
      before ++ GetSubstitution pattern before after replacement ++ after
  | None => s
  end.

End JS.
Import JS.

(** ** The handlers' environment *)

Module Runtime.

Class Monad (F : Type -> Type) : Type := {
  ret : forall {A : Type}, A -> F A;
  bind : forall {A B : Type}, F A -> (A -> F B) -> F B
}.

Notation "x <- c ;; k" := (bind c (fun x => k))
  (at level 61, c at next level, right associativity).

(** Evaluation that may throw. *)
#[export] Instance Monad_completion : Monad completion := {|
  ret := fun A a => Normal a;
  bind := fun A B c k =>
            match c with
            | Normal a => k a
            | Abrupt t => Abrupt t
            end
|}.

Record RequestInit : Type := {
  method : string;
  headers : list (string * string);
  body : option value
}.

Record Request : Type := { url : string; init : RequestInit }.

(** A response: its status line and what [response.json()] settles to. *)
Record Response : Type := {
  status : Z;
  statusText : string;
  json : completion value
}.

(** [response.ok]. *)
Definition ok (r : Response) : bool := (200 <=? status r) && (status r <=? 299).

(** What the engine supplies and this development leaves open: the
    string-to-number conversion and the locale's date formats
    ([new Date(v).toLocaleString()], [new Date(v).toLocaleDateString()]). *)
Record Host : Type := {
  StringToNumber : string -> float;
  toLocaleString : value -> string;
  toLocaleDateString : value -> string
}.

(** What an invocation finds around it: the network (the outcome of a
    [fetch] may depend on the calls made before it), the clock and the
    host. *)
Record World : Type := {
  network : list Request -> Request -> completion Response;
  Date_now : Z;
  host : Host
}.

Record Props : Type := { apiKey : string }.

(** A handler reads the world, appends to the log of outbound calls,
    and completes normally or abruptly. *)
Definition M (A : Type) : Type := World -> list Request -> completion A * list Request.

#[export] Instance Monad_M : Monad M := {|
  ret := fun A a _ log => (Normal a, log);
  bind := fun A B c k w log =>
            match c w log with
            | (Normal a, log') => k a w log'
            | (Abrupt t, log') => (Abrupt t, log')
            end
|}.

Definition try_catch {A : Type} (c : M A) (handler : thrown -> M A) : M A :=
  fun w log =>
    match c w log with
    | (Normal a, log') => (Normal a, log')
    | (Abrupt t, log') => handler t w log'
    end.

(** An expression evaluated inside a handler. *)
Definition eval {A : Type} (c : completion A) : M A := fun _ log => (c, log).

Definition ask {A : Type} (f : World -> A) : M A := fun w log => (Normal (f w), log).

Definition fetch (u : string) (i : RequestInit) : M Response :=
  fun w log =>
    let request := {| url := u; init := i |} in
    (network w log request, log ++ [request])%list.

(** [v.p].  The handlers read no property that a prototype supplies,
    apart from [length]. *)
Definition get (v : value) (p : string) : completion value :=
  match v with
  | VUndefined => Abrupt (cannot_read "undefined" p)
  | VNull => Abrupt (cannot_read "null" p)
  | VObj fields =>
      Normal (match lookup p fields with Some x => x | None => VUndefined end)
  | VArr items =>
      Normal (if (p =? "length")%string
              then VNum (Number.of_Z (Z.of_nat (List.length items)))
              else VUndefined)
  | VStr s =>
      Normal (if (p =? "length")%string then VNum (Number.of_Z (utf16_length s))
              else VUndefined)
  | _ => Normal VUndefined
  end.

(** [v?.p]. *)
Definition get_opt (v : value) (p : string) : completion value :=
  match v with
  | VUndefined | VNull => Normal VUndefined
  | _ => get v p
  end.

(** [v === "s"]. *)
Definition is_string (v : value) (s : string) : bool :=
  match v with
  | VStr s' => (s' =? s)%string
  | _ => false
  end.

(** [v.toFixed(d)]; [expr] is the callee as the source writes it. *)
Definition toFixed (expr : string) (v : value) (d : nat) : completion string :=
  match v with
  | VNum x => Normal (Number.toFixed x d)
  | VUndefined => Abrupt (cannot_read "undefined" "toFixed")
  | VNull => Abrupt (cannot_read "null" "toFixed")
  | _ => Abrupt (not_a_function (expr ++ ".toFixed"))
  end.

Fixpoint mapM {A B : Type} (f : A -> completion B) (l : list A) : completion (list B) :=
  match l with
  | [] => Normal []
  | a :: rest => b <- f a ;; bs <- mapM f rest ;; ret (b :: bs)
  end.

(** [v.map((g) => g.name).join(sep)]. *)
Definition names_joined (expr : string) (v : value) (sep : string) : completion string :=
  match v with
  | VArr items => names <- mapM (fun g => get g "name") items ;; ret (join sep names)
  | VUndefined => Abrupt (cannot_read "undefined" "map")
  | VNull => Abrupt (cannot_read "null" "map")
  | _ => Abrupt (not_a_function (expr ++ ".map"))
  end.

Definition number_of (h : Host) (v : value) : float := ToNumber (StringToNumber h) v.

(** [await response.json().catch(() => ({}))]. *)
Definition json_or_empty (r : Response) : value :=
  match json r with
  | Normal v => v
  | Abrupt _ => VObj []
  end.

(** The tool result. *)
Record TextContent : Type := { type : string; text : string }.
Record Envelope : Type := { content : list TextContent; isError : option bool }.

Definition text_of (e : Envelope) : string := String.concat EmptyString (map text (content e)).

(** The headers every outbound call carries. *)
Definition bearer_json (key : string) : list (string * string) :=
  [("Authorization", "Bearer " ++ key); ("Content-Type", "application/json")].

(** [error instanceof Error ? error.message : fallback]. *)
Definition message_or (error : thrown) (fallback : string) : string :=
  match error with
  | ThrownError m => m
  | ThrownOther _ => fallback
  end.

End Runtime.
Import Runtime.

(** ** The analytics agent *)

Module Analytics.

Definition network_error (error : thrown) : Envelope :=
  {| content :=
       [{| type := "text";
           text := "Network error: " ++ message_or error "Unknown error occurred" |}];
     isError := Some true |}.

(** [errorData.error?.message || response.statusText]. *)
Definition error_message (response : Response) : completion value :=
  let errorData := json_or_empty response in
  error <- get errorData "error" ;;
  message <- get_opt error "message" ;;
  ret (or_else message (VStr (statusText response))).

Module create_payment.

Record Params : Type := {
  amount : float;
  currency : string;
  transaction_id : string;
  datafast_visitor_id : string;
  email : option string;
  name : option string;
  customer_id : option string;
  renewal : option bool;
  refunded : option bool;
  timestamp : option string
}.

(** The schema's defaults: [renewal] and [refunded] are
    [z.boolean().optional().default(false)]. *)
Definition schema (args : Params) : Params :=
  {| amount := amount args;
     currency := currency args;
     transaction_id := transaction_id args;
     datafast_visitor_id := datafast_visitor_id args;
     email := email args;
     name := name args;
     customer_id := customer_id args;
     renewal := Some (match renewal args with Some b => b | None => false end);
     refunded := Some (match refunded args with Some b => b | None => false end);
     timestamp := timestamp args |}.

Definition is_defined {A : Type} (o : option A) : value :=
  VBool (match o with Some _ => true | None => false end).

(** The object handed to [JSON.stringify]. *)
Definition request_object (params : Params) : value :=
  literal
    [ prop "amount" (VNum (amount params));
      prop "currency" (VStr (currency params));
      prop "transaction_id" (VStr (transaction_id params));
      prop "datafast_visitor_id" (VStr (datafast_visitor_id params));
      spread (and_then (undefined_or VStr (email params))
                (literal [prop "email" (undefined_or VStr (email params))]));
      spread (and_then (undefined_or VStr (name params))
                (literal [prop "name" (undefined_or VStr (name params))]));
      spread (and_then (undefined_or VStr (customer_id params))
                (literal [prop "customer_id" (undefined_or VStr (customer_id params))]));
      spread (and_then (is_defined (renewal params))
                (literal [prop "renewal" (undefined_or VBool (renewal params))]));
      spread (and_then (is_defined (refunded params))
                (literal [prop "refunded" (undefined_or VBool (refunded params))]));
      spread (and_then (undefined_or VStr (timestamp params))
                (literal [prop "timestamp" (undefined_or VStr (timestamp params))])) ].

Definition handler (props : Props) (params : Params) : M Envelope :=
  try_catch
    (response <- fetch "https://datafa.st/api/v1/payments"
                   {| method := "POST";
                      headers := bearer_json (apiKey props);
                      body := Some (JSON_stringify (request_object params)) |} ;;
     if negb (ok response) then
       message <- eval (error_message response) ;;
       ret {| content :=
                [{| type := "text";
                    text := "Error " ++ string_of_Z (status response) ++ ": "
                            ++ ToString message |}];
              isError := Some true |}
     else
       result <- eval (json response) ;;
       message <- eval (get result "message") ;;
       transaction_id <- eval (get result "transaction_id") ;;
       ret {| content :=
                [{| type := "text";
                    text := "✅ Payment recorded successfully!" ++ nl
                            ++ "Message: " ++ ToString message ++ nl
                            ++ "Transaction ID: " ++ ToString transaction_id |}];
              isError := None |})
    (fun error => ret (network_error error)).

(** The tool as the session layer invokes it: the schema, then the handler. *)
Definition tool (props : Props) (args : Params) : M Envelope :=
  handler props (schema args).

End create_payment.

(** The body of a goal creation: [{datafast_visitor_id, name,
    ...(metadata && { metadata })}]. *)
Definition goal_object (datafast_visitor_id name : string)
    (metadata : option (list (string * string))) : value :=
  literal
    [ prop "datafast_visitor_id" (VStr datafast_visitor_id);
      prop "name" (VStr name);
      spread (and_then (undefined_or record_of metadata)
                (literal [prop "metadata" (undefined_or record_of metadata)])) ].

(** The note a failed goal creation adds for two statuses. *)
Definition goal_note (st : Z) : string :=
  if st =? 400 then
    " (Note: This might be because the visitor is detected as a bot or has no prior pageviews)"
  else if st =? 404 then
    " (Note: This might be because the visitor has no prior pageviews)"
  else EmptyString.

Module create_goal.

Record Params : Type := {
  datafast_visitor_id : string;
  name : string;
  metadata : option (list (string * string))
}.

Definition handler (props : Props) (params : Params) : M Envelope :=
  try_catch
    (response <- fetch "https://datafa.st/api/v1/goals"
                   {| method := "POST";
                      headers := bearer_json (apiKey props);
                      body := Some (JSON_stringify
                                      (goal_object (datafast_visitor_id params)
                                         (name params) (metadata params))) |} ;;
     if negb (ok response) then
       message <- eval (error_message response) ;;
       let errorMessage :=
         "Error " ++ string_of_Z (status response) ++ ": " ++ ToString message in
       let errorMessage := errorMessage ++ goal_note (status response) in
       ret {| content := [{| type := "text"; text := errorMessage |}];
              isError := Some true |}
     else
       result <- eval (json response) ;;
       message <- eval (get result "message") ;;
       event_id <- eval (get result "event_id") ;;
       ret {| content :=
                [{| type := "text";
                    text := "✅ Goal created successfully!" ++ nl
                            ++ "Message: " ++ ToString message ++ nl
                            ++ "Event ID: " ++ ToString (or_else event_id (VStr "N/A")) |}];
              isError := None |})
    (fun error => ret (network_error error)).

End create_goal.

(** [result.status === "success" && result.data], as a condition. *)
Definition has_data (result : value) : completion (bool * value) :=
  st <- get result "status" ;;
  data <- (if is_string st "success" then get result "data" else ret (VBool false)) ;;
  ret (truthy data, data).

(** [params.ref || params.utm_source || "Direct"]. *)
Definition traffic_source (params : value) : completion value :=
  ref <- get params "ref" ;;
  utm_source <- get params "utm_source" ;;
  ret (or_else (or_else ref utm_source) (VStr "Direct")).

Definition ms_per_day : float := 86400000%float.

(** [Math.round(v / (1000 * 60 * 60 * 24))]. *)
Definition days_of (h : Host) (v : value) : float :=
  Number.round (PrimFloat.div (number_of h v) ms_per_day).

(** [(v * 100).toFixed(d)]. *)
Definition percent (h : Host) (v : value) (d : nat) : string :=
  Number.toFixed (PrimFloat.mul (number_of h v) 100%float) d.

(** [goals && goals.length > 0]. *)
Definition non_empty (h : Host) (goals : value) : completion bool :=
  if truthy goals then
    len <- get goals "length" ;;
    ret (PrimFloat.ltb 0%float (number_of h len))
  else ret false.

Module get_visitor_data.

Record Params : Type := { datafast_visitor_id : string }.

Definition identity_info (identity : value) : completion string :=
  city <- get identity "city" ;;
  country <- get identity "country" ;;
  countryCode <- get identity "countryCode" ;;
  device <- get identity "device" ;;
  device_type <- get device "type" ;;
  browser <- get identity "browser" ;;
  browser_name <- get browser "name" ;;
  browser_version <- get browser "version" ;;
  os <- get identity "os" ;;
  os_name <- get os "name" ;;
  viewport <- get identity "viewport" ;;
  width <- get viewport "width" ;;
  height <- get viewport "height" ;;
  let info :=
    "🌍 Location: " ++ ToString city ++ ", " ++ ToString country
    ++ " (" ++ ToString countryCode ++ ")" ++ nl
    ++ "🖥️ Device: " ++ ToString device_type ++ " - " ++ ToString browser_name
    ++ " " ++ ToString browser_version ++ " on " ++ ToString os_name ++ nl
    ++ "📐 Viewport: " ++ ToString width ++ "x" ++ ToString height ++ nl in
  params <- get identity "params" ;;
  if truthy params then
    trafficSource <- traffic_source params ;;
    ret (info ++ "🔗 Traffic Source: " ++ ToString trafficSource ++ nl)
  else ret info.

Definition activity_info (h : Host) (activity : value) : completion string :=
  visitCount <- get activity "visitCount" ;;
  pageViewCount <- get activity "pageViewCount" ;;
  firstVisitAt <- get activity "firstVisitAt" ;;
  let first_visit := toLocaleString h firstVisitAt in
  timeSinceFirstVisit <- get activity "timeSinceFirstVisit" ;;
  let days := days_of h timeSinceFirstVisit in
  currentUrl <- get activity "currentUrl" ;;
  let info :=
    nl ++ "📈 Activity:" ++ nl
    ++ "   • Visits: " ++ ToString visitCount ++ nl
    ++ "   • Pageviews: " ++ ToString pageViewCount ++ nl
    ++ "   • First visit: " ++ first_visit ++ nl
    ++ "   • Time since first visit: " ++ Number.toString days ++ " days" ++ nl
    ++ "   • Current URL: " ++ ToString currentUrl ++ nl in
  completedCustomGoals <- get activity "completedCustomGoals" ;;
  some <- non_empty h completedCustomGoals ;;
  if (some : bool) then
    names <- names_joined "activity.completedCustomGoals" completedCustomGoals ", " ;;
    ret (info ++ "   • Completed goals: " ++ names ++ nl)
  else ret info.

Definition prediction_info (h : Host) (prediction : value) : completion string :=
  if truthy prediction then
    score <- get prediction "score" ;;
    conversionRate <- get prediction "conversionRate" ;;
    let rate := percent h conversionRate 2 in
    expectedValue <- get prediction "expectedValue" ;;
    expected <- toFixed "prediction.expectedValue" expectedValue 2 ;;
    confidence <- get prediction "confidence" ;;
    let conf := percent h confidence 1 in
    ret (nl ++ "🎯 Prediction:" ++ nl
         ++ "   • Conversion score: " ++ ToString score ++ "/100" ++ nl
         ++ "   • Conversion rate: " ++ rate ++ "%" ++ nl
         ++ "   • Expected value: $" ++ expected ++ nl
         ++ "   • Confidence: " ++ conf ++ "%" ++ nl)
  else
    ret (nl ++ "🎯 Prediction: Not available (visitor might be a customer or revenue attribution isn't set up)" ++ nl).

Definition visitor_info (h : Host) (visitor : value) : completion string :=
  visitorId <- get visitor "visitorId" ;;
  let visitorInfo := "📊 Visitor Data for ID: " ++ ToString visitorId ++ nl ++ nl in
  identity <- get visitor "identity" ;;
  identity_part <- (if truthy identity then identity_info identity else ret EmptyString) ;;
  activity <- get visitor "activity" ;;
  activity_part <- (if truthy activity then activity_info h activity else ret EmptyString) ;;
  prediction <- get visitor "prediction" ;;
  prediction_part <- prediction_info h prediction ;;
  ret (visitorInfo ++ identity_part ++ activity_part ++ prediction_part).

Definition handler (props : Props) (params : Params) : M Envelope :=
  try_catch
    (response <- fetch ("https://datafa.st/api/v1/visitors/" ++ datafast_visitor_id params)
                   {| method := "GET";
                      headers := bearer_json (apiKey props);
                      body := None |} ;;
     if negb (ok response) then
       message <- eval (error_message response) ;;
       let errorMessage :=
         "Error " ++ string_of_Z (status response) ++ ": " ++ ToString message in
       let errorMessage :=
         if status response =? 400
         then errorMessage ++ " (Note: This might be because the visitor is detected as a bot)"
         else errorMessage in
       ret {| content := [{| type := "text"; text := errorMessage |}];
              isError := Some true |}
     else
       result <- eval (json response) ;;
       found <- eval (has_data result) ;;
       if fst found then
         h <- ask host ;;
         visitorInfo <- eval (visitor_info h (snd found)) ;;
         ret {| content := [{| type := "text"; text := visitorInfo |}];
                isError := None |}
       else
         ret {| content :=
                  [{| type := "text";
                      text := "Unexpected response format from DataFast API" |}];
                isError := None |})
    (fun error => ret (network_error error)).

End get_visitor_data.

Module batch_create_goals.

Record Goal : Type := {
  datafast_visitor_id : string;
  name : string;
  metadata : option (list (string * string))
}.

Record Params : Type := { goals : list Goal }.

(** One entry of [results]; a field the source leaves out is [undefined]. *)
Record Result : Type := {
  goal : string;
  visitor : string;
  success : bool;
  message : value;
  event_id : value;
  error : value
}.

(** The body of the loop: the outcome pushed for one goal. *)
Definition attempt (props : Props) (goal : Goal) : M Result :=
  try_catch
    (response <- fetch "https://datafa.st/api/v1/goals"
                   {| method := "POST";
                      headers := bearer_json (apiKey props);
                      body := Some (JSON_stringify
                                      (goal_object (datafast_visitor_id goal)
                                         (name goal) (metadata goal))) |} ;;
     if ok response then
       result <- eval (json response) ;;
       message <- eval (get result "message") ;;
       event_id <- eval (get result "event_id") ;;
       ret {| goal := name goal;
              visitor := datafast_visitor_id goal;
              success := true;
              message := message;
              event_id := event_id;
              error := VUndefined |}
     else
       message <- eval (error_message response) ;;
       ret {| goal := name goal;
              visitor := datafast_visitor_id goal;
              success := false;
              message := VUndefined;
              event_id := VUndefined;
              error := message |})
    (fun error =>
       ret {| goal := name goal;
              visitor := datafast_visitor_id goal;
              success := false;
              message := VUndefined;
              event_id := VUndefined;
              error := VStr (message_or error "Unknown error") |}).

(** [for (const goal of goals) { ... results.push(...) }]. *)
Fixpoint loop (props : Props) (goals : list Goal) (results : list Result) : M (list Result) :=
  match goals with
  | [] => ret results
  | goal :: rest =>
      r <- attempt props goal ;;
      loop props rest (results ++ [r])%list
  end.

Definition result_line (result : Result) : string :=
  if success result then
    "   ✅ " ++ goal result ++ " for " ++ visitor result ++ ": "
    ++ ToString (message result) ++ nl
  else
    "   ❌ " ++ goal result ++ " for " ++ visitor result ++ ": "
    ++ ToString (error result) ++ nl.

Definition count (p : Result -> bool) (results : list Result) : Z :=
  Z.of_nat (List.length (filter p results)).

Definition summary_of (results : list Result) : string :=
  let successCount := count success results in
  let failureCount := count (fun r => negb (success r)) results in
  "✅ Batch goal creation completed!" ++ nl
  ++ "   • Successful: " ++ string_of_Z successCount ++ nl
  ++ "   • Failed: " ++ string_of_Z failureCount ++ nl ++ nl
  ++ "📋 Results:" ++ nl
  ++ String.concat EmptyString (map result_line results).

Definition handler (props : Props) (params : Params) : M Envelope :=
  try_catch
    (results <- loop props (goals params) [] ;;
     ret {| content := [{| type := "text"; text := summary_of results |}];
            isError := None |})
    (fun error => ret (network_error error)).

End batch_create_goals.

Module validate_visitor.

Record Params : Type := { datafast_visitor_id : string }.

Definition handler (props : Props) (params : Params) : M Envelope :=
  let id := datafast_visitor_id params in
  try_catch
    (response <- fetch ("https://datafa.st/api/v1/visitors/" ++ id)
                   {| method := "GET";
                      headers := bearer_json (apiKey props);
                      body := None |} ;;
     if ok response then
       result <- eval (json response) ;;
       found <- eval (has_data result) ;;
       if fst found then
         ret {| content :=
                  [{| type := "text";
                      text := "✅ Visitor ID " ++ dq ++ id ++ dq
                              ++ " is valid and has data available." |}];
                isError := None |}
       else
         ret {| content :=
                  [{| type := "text";
                      text := "❌ Visitor ID " ++ dq ++ id ++ dq
                              ++ " returned unexpected response format." |}];
                isError := Some true |}
     else
       let errorMessage := "❌ Visitor ID " ++ dq ++ id ++ dq ++ " is invalid: " in
       errorMessage <-
         (if status response =? 400 then
            ret (errorMessage ++ "Detected as bot or invalid format")
          else if status response =? 404 then
            ret (errorMessage
                 ++ "No pageviews found - visitor needs to visit your site first")
          else
            message <- eval (error_message response) ;;
            ret (errorMessage ++ ToString message)) ;;
       ret {| content := [{| type := "text"; text := errorMessage |}];
              isError := Some true |})
    (fun error =>
       ret {| content :=
                [{| type := "text";
                    text := "Network error validating visitor " ++ dq ++ id ++ dq ++ ": "
                            ++ message_or error "Unknown error occurred" |}];
              isError := Some true |}).

End validate_visitor.

Module create_revenue_goal.

(** The parameters as the handler receives them: [currency] has the
    schema's default, "USD", when the caller gave none. *)
Record Params : Type := {
  datafast_visitor_id : string;
  goal_name : string;
  revenue_amount : float;
  currency : string;
  metadata : option (list (string * string))
}.

Definition goal_request (params : Params) : value :=
  literal
    [ prop "datafast_visitor_id" (VStr (datafast_visitor_id params));
      prop "name" (VStr (goal_name params));
      prop "metadata"
        (literal
           [ prop "revenue_amount" (VStr (Number.toString (revenue_amount params)));
             prop "currency" (VStr (currency params));
             spread (undefined_or record_of (metadata params)) ]) ].

Definition payment_request (params : Params) (now : Z) : value :=
  literal
    [ prop "amount" (VNum (revenue_amount params));
      prop "currency" (VStr (currency params));
      prop "transaction_id" (VStr ("goal_" ++ goal_name params ++ "_" ++ string_of_Z now));
      prop "datafast_visitor_id" (VStr (datafast_visitor_id params));
      prop "renewal" (VBool false);
      prop "refunded" (VBool false) ].

Definition handler (props : Props) (params : Params) : M Envelope :=
  try_catch
    (goalResponse <- fetch "https://datafa.st/api/v1/goals"
                       {| method := "POST";
                          headers := bearer_json (apiKey props);
                          body := Some (JSON_stringify (goal_request params)) |} ;;
     if negb (ok goalResponse) then
       message <- eval (error_message goalResponse) ;;
       let errorMessage :=
         "Error " ++ string_of_Z (status goalResponse) ++ ": " ++ ToString message in
       let errorMessage := errorMessage ++ goal_note (status goalResponse) in
       ret {| content := [{| type := "text"; text := errorMessage |}];
              isError := Some true |}
     else
       goalResult <- eval (json goalResponse) ;;
       now <- ask Date_now ;;
       paymentResponse <- fetch "https://datafa.st/api/v1/payments"
                            {| method := "POST";
                               headers := bearer_json (apiKey props);
                               body := Some (JSON_stringify (payment_request params now)) |} ;;
       paymentMessage <-
         (if ok paymentResponse then
            paymentResult <- eval (json paymentResponse) ;;
            message <- eval (get paymentResult "message") ;;
            ret (nl ++ "💰 Revenue tracked: " ++ ToString message)
          else
            ret (nl ++ "⚠️ Goal created but revenue tracking failed")) ;;
       goal_message <- eval (get goalResult "message") ;;
       ret {| content :=
                [{| type := "text";
                    text := "✅ Revenue goal created successfully!" ++ nl
                            ++ "🎯 Goal: " ++ ToString goal_message ++ nl
                            ++ paymentMessage |}];
              isError := None |})
    (fun error => ret (network_error error)).

End create_revenue_goal.

Module get_analytics_summary.

(** [include_prediction] has the schema's default, [true], when the
    caller gave none. *)
Record Params : Type := {
  datafast_visitor_id : string;
  include_prediction : bool
}.

Definition activity_summary (h : Host) (activity : value) : completion string :=
  visitCount <- get activity "visitCount" ;;
  pageViewCount <- get activity "pageViewCount" ;;
  firstVisitAt <- get activity "firstVisitAt" ;;
  let first_visit := toLocaleDateString h firstVisitAt in
  let summary :=
    "📈 Activity Summary:" ++ nl
    ++ "   • Total visits: " ++ ToString visitCount ++ nl
    ++ "   • Pageviews: " ++ ToString pageViewCount ++ nl
    ++ "   • First visit: " ++ first_visit ++ nl in
  timeSinceFirstVisit <- get activity "timeSinceFirstVisit" ;;
  let age :=
    if truthy timeSinceFirstVisit then
      let days := days_of h timeSinceFirstVisit in
      "   • Customer age: " ++ Number.toString days ++ " days" ++ nl
    else EmptyString in
  completedCustomGoals <- get activity "completedCustomGoals" ;;
  some <- non_empty h completedCustomGoals ;;
  if (some : bool) then
    len <- get completedCustomGoals "length" ;;
    ret (summary ++ age ++ "   • Completed goals: " ++ ToString len ++ nl)
  else ret (summary ++ age).

Definition prediction_summary (h : Host) (prediction : value) : completion string :=
  score <- get prediction "score" ;;
  let score_number := number_of h score in
  let summary :=
    nl ++ "🎯 Conversion Prediction:" ++ nl
    ++ "   • Score: " ++ ToString score ++ "/100 ("
    ++ (if PrimFloat.leb 50%float score_number then "High" else "Low")
    ++ " potential)" ++ nl in
  expectedValue <- get prediction "expectedValue" ;;
  expected <- (if truthy expectedValue then
                 fixed <- toFixed "prediction.expectedValue" expectedValue 2 ;;
                 ret ("   • Expected value: $" ++ fixed ++ nl)
               else ret EmptyString) ;;
  confidence <- get prediction "confidence" ;;
  let conf :=
    if truthy confidence then
      "   • Confidence: " ++ percent h confidence 1 ++ "%" ++ nl
    else EmptyString in
  ret (summary ++ expected ++ conf).

Definition source_summary (identity : value) : completion string :=
  if truthy identity then
    params <- get identity "params" ;;
    if truthy params then
      source <- traffic_source params ;;
      ret (nl ++ "🔗 Traffic Source: " ++ ToString source ++ nl)
    else ret EmptyString
  else ret EmptyString.

Definition location_summary (identity : value) : completion string :=
  if truthy identity then
    city <- get identity "city" ;;
    country <- get identity "country" ;;
    if truthy (and_then city country) then
      ret (nl ++ "🌍 Location: " ++ ToString city ++ ", " ++ ToString country ++ nl)
    else ret EmptyString
  else ret EmptyString.

Definition summary_of (h : Host) (include_prediction : bool) (visitor : value) : completion string :=
  visitorId <- get visitor "visitorId" ;;
  let summary := "📊 Quick Analytics for Visitor " ++ ToString visitorId ++ nl ++ nl in
  activity <- get visitor "activity" ;;
  activity_part <- (if truthy activity then activity_summary h activity else ret EmptyString) ;;
  prediction <- get visitor "prediction" ;;
  prediction_part <-
    (if truthy (and_then (VBool include_prediction) prediction)
     then prediction_summary h prediction else ret EmptyString) ;;
  identity <- get visitor "identity" ;;
  source_part <- source_summary identity ;;
  location_part <- location_summary identity ;;
  ret (summary ++ activity_part ++ prediction_part ++ source_part ++ location_part).

Definition handler (props : Props) (params : Params) : M Envelope :=
  try_catch
    (response <- fetch ("https://datafa.st/api/v1/visitors/" ++ datafast_visitor_id params)
                   {| method := "GET";
                      headers := bearer_json (apiKey props);
                      body := None |} ;;
     if negb (ok response) then
       message <- eval (error_message response) ;;
       ret {| content :=
                [{| type := "text";
                    text := "Error " ++ string_of_Z (status response) ++ ": "
                            ++ ToString message |}];
              isError := Some true |}
     else
       result <- eval (json response) ;;
       found <- eval (has_data result) ;;
       if fst found then
         h <- ask host ;;
         summary <- eval (summary_of h (include_prediction params) (snd found)) ;;
         ret {| content := [{| type := "text"; text := summary |}];
                isError := None |}
       else
         ret {| content :=
                  [{| type := "text";
                      text := "Unexpected response format from DataFast API" |}];
                isError := None |})
    (fun error => ret (network_error error)).

End get_analytics_summary.

(** *** The tools that write code

    Their parameters are as the handler receives them, after the
    schema's defaults. *)

(** A boolean in a template literal. *)
Definition string_of_bool (b : bool) : string := if b then "true" else "false".

Module generate_tracking_code.

Inductive Framework : Type :=
| vanilla | react | vue | angular | nextjs | nuxt.

Definition key (x : Framework) : string :=
  match x with
  | vanilla => "vanilla"
  | react => "react"
  | vue => "vue"
  | angular => "angular"
  | nextjs => "nextjs"
  | nuxt => "nuxt"
  end.

Inductive Feature : Type :=
| visitor_id | goals | payments | events.

(** [features] defaults to [["visitor_id"]] and [include_comments] to [true]. *)
Record Params : Type := {
  framework : Framework;
  features : list Feature;
  include_comments : bool
}.

Definition handler (params : Params) : Envelope :=
  let framework := framework params in
  let comments := include_comments params in
  let code :=
    match framework with
    | vanilla =>
        "// DataFast Browser Tracking Code" ++ nl
        ++ (if comments then "// 1. Include the DataFast script in your HTML head" else EmptyString) ++ nl
        ++ "<script src=" ++ dq ++ "https://datafa.st/js/script.js" ++ dq ++ " data-website-id=" ++ dq ++ "YOUR_WEBSITE_ID" ++ dq ++ "></script>" ++ nl
        ++ nl
        ++ (if comments then "// 2. Get visitor ID and track events" else EmptyString) ++ nl
        ++ "<script>" ++ nl
        ++ "  // Get visitor ID after DataFast loads" ++ nl
        ++ "  window.addEventListener('datafast:ready', function() {" ++ nl
        ++ "    const visitorId = window.datafast?.getVisitorId();" ++ nl
        ++ "    console.log('DataFast Visitor ID:', visitorId);" ++ nl
        ++ nl
        ++ "    // Store for later use (e.g., in forms, purchases)" ++ nl
        ++ "    window.datafastVisitorId = visitorId;" ++ nl
        ++ "  });" ++ nl
        ++ nl
        ++ "  // Track custom goals" ++ nl
        ++ "  function trackGoal(goalName, metadata = {}) {" ++ nl
        ++ "    if (window.datafast?.trackGoal) {" ++ nl
        ++ "      window.datafast.trackGoal(goalName, metadata);" ++ nl
        ++ "    }" ++ nl
        ++ "  }" ++ nl
        ++ nl
        ++ "  // Track payments" ++ nl
        ++ "  function trackPayment(amount, currency, transactionId, metadata = {}) {" ++ nl
        ++ "    // Send to your server for processing" ++ nl
        ++ "    fetch('/api/track-payment', {" ++ nl
        ++ "      method: 'POST'," ++ nl
        ++ "      headers: { 'Content-Type': 'application/json' }," ++ nl
        ++ "      body: JSON.stringify({" ++ nl
        ++ "        amount," ++ nl
        ++ "        currency," ++ nl
        ++ "        transaction_id: transactionId," ++ nl
        ++ "        datafast_visitor_id: window.datafastVisitorId," ++ nl
        ++ "        ...metadata" ++ nl
        ++ "      })" ++ nl
        ++ "    });" ++ nl
        ++ "  }" ++ nl
        ++ "</script>"
    | react =>
        "// DataFast React Integration" ++ nl
        ++ "import { useEffect, useState } from 'react';" ++ nl
        ++ nl
        ++ (if comments then "// 1. DataFast Hook" else EmptyString) ++ nl
        ++ "export const useDataFast = () => {" ++ nl
        ++ "  const [visitorId, setVisitorId] = useState(null);" ++ nl
        ++ "  const [isLoaded, setIsLoaded] = useState(false);" ++ nl
        ++ nl
        ++ "  useEffect(() => {" ++ nl
        ++ "    const handleReady = () => {" ++ nl
        ++ "      const id = window.datafast?.getVisitorId();" ++ nl
        ++ "      setVisitorId(id);" ++ nl
        ++ "      setIsLoaded(true);" ++ nl
        ++ "    };" ++ nl
        ++ nl
        ++ "    // Check if already loaded" ++ nl
        ++ "    if (window.datafast) {" ++ nl
        ++ "      handleReady();" ++ nl
        ++ "    } else {" ++ nl
        ++ "      window.addEventListener('datafast:ready', handleReady);" ++ nl
        ++ "    }" ++ nl
        ++ nl
        ++ "    return () => window.removeEventListener('datafast:ready', handleReady);" ++ nl
        ++ "  }, []);" ++ nl
        ++ nl
        ++ "  const trackGoal = (name, metadata = {}) => {" ++ nl
        ++ "    if (window.datafast?.trackGoal) {" ++ nl
        ++ "      window.datafast.trackGoal(name, metadata);" ++ nl
        ++ "    }" ++ nl
        ++ "  };" ++ nl
        ++ nl
        ++ "  const trackPayment = async (amount, currency, transactionId, metadata = {}) => {" ++ nl
        ++ "    try {" ++ nl
        ++ "      const response = await fetch('/api/track-payment', {" ++ nl
        ++ "        method: 'POST'," ++ nl
        ++ "        headers: { 'Content-Type': 'application/json' }," ++ nl
        ++ "        body: JSON.stringify({" ++ nl
        ++ "          amount," ++ nl
        ++ "          currency," ++ nl
        ++ "          transaction_id: transactionId," ++ nl
        ++ "          datafast_visitor_id: visitorId," ++ nl
        ++ "          ...metadata" ++ nl
        ++ "        })" ++ nl
        ++ "      });" ++ nl
        ++ "      return response.json();" ++ nl
        ++ "    } catch (error) {" ++ nl
        ++ "      console.error('Payment tracking failed:', error);" ++ nl
        ++ "    }" ++ nl
        ++ "  };" ++ nl
        ++ nl
        ++ "  return { visitorId, isLoaded, trackGoal, trackPayment };" ++ nl
        ++ "};" ++ nl
        ++ nl
        ++ (if comments then "// 2. Usage in components" else EmptyString) ++ nl
        ++ "// Example usage in a purchase component" ++ nl
        ++ "const PurchaseComponent = () => {" ++ nl
        ++ "  const { visitorId, trackPayment } = useDataFast();" ++ nl
        ++ nl
        ++ "  const handlePurchase = async (product) => {" ++ nl
        ++ "    // Track the payment" ++ nl
        ++ "    await trackPayment(product.price, 'USD', product.id, {" ++ nl
        ++ "      product_name: product.name," ++ nl
        ++ "      category: product.category" ++ nl
        ++ "    });" ++ nl
        ++ nl
        ++ "    // Track goal" ++ nl
        ++ "    window.datafast?.trackGoal('purchase_completed', {" ++ nl
        ++ "      product_id: product.id," ++ nl
        ++ "      amount: product.price" ++ nl
        ++ "    });" ++ nl
        ++ "  };" ++ nl
        ++ nl
        ++ "  return (" ++ nl
        ++ "    <div>" ++ nl
        ++ "      <button onClick={() => handlePurchase({ id: 'prod_1', name: 'Premium Plan', price: 29.99, category: 'subscription' })}>" ++ nl
        ++ "        Purchase Premium Plan" ++ nl
        ++ "      </button>" ++ nl
        ++ "    </div>" ++ nl
        ++ "  );" ++ nl
        ++ "};"
    | vue =>
        "// DataFast Vue Integration" ++ nl
        ++ "import { ref, onMounted, onUnmounted } from 'vue';" ++ nl
        ++ nl
        ++ (if comments then "// 1. DataFast Composable" else EmptyString) ++ nl
        ++ "export const useDataFast = () => {" ++ nl
        ++ "  const visitorId = ref(null);" ++ nl
        ++ "  const isLoaded = ref(false);" ++ nl
        ++ nl
        ++ "  const trackGoal = (name, metadata = {}) => {" ++ nl
        ++ "    if (window.datafast?.trackGoal) {" ++ nl
        ++ "      window.datafast.trackGoal(name, metadata);" ++ nl
        ++ "    }" ++ nl
        ++ "  };" ++ nl
        ++ nl
        ++ "  const trackPayment = async (amount, currency, transactionId, metadata = {}) => {" ++ nl
        ++ "    try {" ++ nl
        ++ "      const response = await fetch('/api/track-payment', {" ++ nl
        ++ "        method: 'POST'," ++ nl
        ++ "        headers: { 'Content-Type': 'application/json' }," ++ nl
        ++ "        body: JSON.stringify({" ++ nl
        ++ "          amount," ++ nl
        ++ "          currency," ++ nl
        ++ "          transaction_id: transactionId," ++ nl
        ++ "          datafast_visitor_id: visitorId.value," ++ nl
        ++ "          ...metadata" ++ nl
        ++ "        })" ++ nl
        ++ "      });" ++ nl
        ++ "      return response.json();" ++ nl
        ++ "    } catch (error) {" ++ nl
        ++ "      console.error('Payment tracking failed:', error);" ++ nl
        ++ "    }" ++ nl
        ++ "  };" ++ nl
        ++ nl
        ++ "  onMounted(() => {" ++ nl
        ++ "    const handleReady = () => {" ++ nl
        ++ "      visitorId.value = window.datafast?.getVisitorId();" ++ nl
        ++ "      isLoaded.value = true;" ++ nl
        ++ "    };" ++ nl
        ++ nl
        ++ "    if (window.datafast) {" ++ nl
        ++ "      handleReady();" ++ nl
        ++ "    } else {" ++ nl
        ++ "      window.addEventListener('datafast:ready', handleReady);" ++ nl
        ++ "    }" ++ nl
        ++ "  });" ++ nl
        ++ nl
        ++ "  onUnmounted(() => {" ++ nl
        ++ "    window.removeEventListener('datafast:ready', handleReady);" ++ nl
        ++ "  });" ++ nl
        ++ nl
        ++ "  return { visitorId, isLoaded, trackGoal, trackPayment };" ++ nl
        ++ "};" ++ nl
        ++ nl
        ++ (if comments then "// 2. Usage in components" else EmptyString) ++ nl
        ++ "// Example usage in a Vue component" ++ nl
        ++ "<template>" ++ nl
        ++ "  <div>" ++ nl
        ++ "    <button @click=" ++ dq ++ "handlePurchase" ++ dq ++ " :disabled=" ++ dq ++ "!isLoaded" ++ dq ++ ">" ++ nl
        ++ "      Purchase Premium Plan" ++ nl
        ++ "    </button>" ++ nl
        ++ "    <p v-if=" ++ dq ++ "visitorId" ++ dq ++ ">Visitor ID: {{ visitorId }}</p>" ++ nl
        ++ "  </div>" ++ nl
        ++ "</template>" ++ nl
        ++ nl
        ++ "<script setup>" ++ nl
        ++ "import { useDataFast } from '@/composables/useDataFast';" ++ nl
        ++ nl
        ++ "const { visitorId, isLoaded, trackPayment } = useDataFast();" ++ nl
        ++ nl
        ++ "const handlePurchase = async () => {" ++ nl
        ++ "  await trackPayment(29.99, 'USD', 'tx_123', {" ++ nl
        ++ "    product_name: 'Premium Plan'," ++ nl
        ++ "    category: 'subscription'" ++ nl
        ++ "  });" ++ nl
        ++ nl
        ++ "  window.datafast?.trackGoal('purchase_completed', {" ++ nl
        ++ "    amount: 29.99," ++ nl
        ++ "    product: 'premium_plan'" ++ nl
        ++ "  });" ++ nl
        ++ "};" ++ nl
        ++ "</script>"
    | nextjs =>
        "// DataFast Next.js Integration" ++ nl
        ++ nl
        ++ (if comments then "// 1. pages/_app.js or app/layout.js" else EmptyString) ++ nl
        ++ "import Script from 'next/script';" ++ nl
        ++ nl
        ++ "export default function App({ Component, pageProps }) {" ++ nl
        ++ "  return (" ++ nl
        ++ "    <>" ++ nl
        ++ "      <Script" ++ nl
        ++ "        src=" ++ dq ++ "https://datafa.st/js/script.js" ++ dq ++ nl
        ++ "        data-website-id=" ++ dq ++ "YOUR_WEBSITE_ID" ++ dq ++ nl
        ++ "        strategy=" ++ dq ++ "afterInteractive" ++ dq ++ nl
        ++ "      />" ++ nl
        ++ "      <Component {...pageProps} />" ++ nl
        ++ "    </>" ++ nl
        ++ "  );" ++ nl
        ++ "}" ++ nl
        ++ nl
        ++ (if comments then "// 2. API Route for tracking payments" else EmptyString) ++ nl
        ++ "// pages/api/track-payment.js" ++ nl
        ++ "export default async function handler(req, res) {" ++ nl
        ++ "  if (req.method !== 'POST') {" ++ nl
        ++ "    return res.status(405).json({ error: 'Method not allowed' });" ++ nl
        ++ "  }" ++ nl
        ++ nl
        ++ "  try {" ++ nl
        ++ "    const { amount, currency, transaction_id, datafast_visitor_id, ...metadata } = req.body;" ++ nl
        ++ nl
        ++ "    // Call DataFast API" ++ nl
        ++ "    const response = await fetch('https://datafa.st/api/v1/payments', {" ++ nl
        ++ "      method: 'POST'," ++ nl
        ++ "      headers: {" ++ nl
        ++ "        'Authorization': `Bearer ${process.env.DATAFAST_API_KEY}`," ++ nl
        ++ "        'Content-Type': 'application/json'," ++ nl
        ++ "      }," ++ nl
        ++ "      body: JSON.stringify({" ++ nl
        ++ "        amount," ++ nl
        ++ "        currency," ++ nl
        ++ "        transaction_id," ++ nl
        ++ "        datafast_visitor_id," ++ nl
        ++ "        ...metadata" ++ nl
        ++ "      })" ++ nl
        ++ "    });" ++ nl
        ++ nl
        ++ "    const result = await response.json();" ++ nl
        ++ nl
        ++ "    if (!response.ok) {" ++ nl
        ++ "      throw new Error(result.error?.message || 'Payment tracking failed');" ++ nl
        ++ "    }" ++ nl
        ++ nl
        ++ "    res.status(200).json(result);" ++ nl
        ++ "  } catch (error) {" ++ nl
        ++ "    console.error('Payment tracking error:', error);" ++ nl
        ++ "    res.status(500).json({ error: error.message });" ++ nl
        ++ "  }" ++ nl
        ++ "}" ++ nl
        ++ nl
        ++ (if comments then "// 3. Client-side tracking hook" else EmptyString) ++ nl
        ++ "// hooks/useDataFast.js" ++ nl
        ++ "import { useEffect, useState } from 'react';" ++ nl
        ++ nl
        ++ "export const useDataFast = () => {" ++ nl
        ++ "  const [visitorId, setVisitorId] = useState(null);" ++ nl
        ++ nl
        ++ "  useEffect(() => {" ++ nl
        ++ "    const handleReady = () => {" ++ nl
        ++ "      const id = window.datafast?.getVisitorId();" ++ nl
        ++ "      setVisitorId(id);" ++ nl
        ++ "    };" ++ nl
        ++ nl
        ++ "    if (window.datafast) {" ++ nl
        ++ "      handleReady();" ++ nl
        ++ "    } else {" ++ nl
        ++ "      window.addEventListener('datafast:ready', handleReady);" ++ nl
        ++ "    }" ++ nl
        ++ nl
        ++ "    return () => window.removeEventListener('datafast:ready', handleReady);" ++ nl
        ++ "  }, []);" ++ nl
        ++ nl
        ++ "  const trackGoal = (name, metadata = {}) => {" ++ nl
        ++ "    if (window.datafast?.trackGoal) {" ++ nl
        ++ "      window.datafast.trackGoal(name, metadata);" ++ nl
        ++ "    }" ++ nl
        ++ "  };" ++ nl
        ++ nl
        ++ "  const trackPayment = async (amount, currency, transactionId, metadata = {}) => {" ++ nl
        ++ "    try {" ++ nl
        ++ "      const response = await fetch('/api/track-payment', {" ++ nl
        ++ "        method: 'POST'," ++ nl
        ++ "        headers: { 'Content-Type': 'application/json' }," ++ nl
        ++ "        body: JSON.stringify({" ++ nl
        ++ "          amount," ++ nl
        ++ "          currency," ++ nl
        ++ "          transaction_id: transactionId," ++ nl
        ++ "          datafast_visitor_id: visitorId," ++ nl
        ++ "          ...metadata" ++ nl
        ++ "        })" ++ nl
        ++ "      });" ++ nl
        ++ "      return response.json();" ++ nl
        ++ "    } catch (error) {" ++ nl
        ++ "      console.error('Payment tracking failed:', error);" ++ nl
        ++ "    }" ++ nl
        ++ "  };" ++ nl
        ++ nl
        ++ "  return { visitorId, trackGoal, trackPayment };" ++ nl
        ++ "};" ++ nl
        ++ nl
        ++ (if comments then "// 4. Usage in components" else EmptyString) ++ nl
        ++ "// components/PurchaseButton.js" ++ nl
        ++ "import { useDataFast } from '../hooks/useDataFast';" ++ nl
        ++ nl
        ++ "export default function PurchaseButton({ product }) {" ++ nl
        ++ "  const { visitorId, trackPayment } = useDataFast();" ++ nl
        ++ nl
        ++ "  const handlePurchase = async () => {" ++ nl
        ++ "    const result = await trackPayment(" ++ nl
        ++ "      product.price," ++ nl
        ++ "      'USD'," ++ nl
        ++ "      `order_${Date.now()}`," ++ nl
        ++ "      {" ++ nl
        ++ "        product_name: product.name," ++ nl
        ++ "        category: product.category" ++ nl
        ++ "      }" ++ nl
        ++ "    );" ++ nl
        ++ nl
        ++ "    if (result) {" ++ nl
        ++ "      // Handle success" ++ nl
        ++ "      console.log('Payment tracked:', result);" ++ nl
        ++ "    }" ++ nl
        ++ "  };" ++ nl
        ++ nl
        ++ "  return (" ++ nl
        ++ "    <button onClick={handlePurchase}>" ++ nl
        ++ "      Purchase {product.name} - ${product.price}" ++ nl
        ++ "    </button>" ++ nl
        ++ "  );" ++ nl
        ++ "}"
    | angular =>
        "// DataFast Angular Integration" ++ nl
        ++ nl
        ++ (if comments then "// 1. DataFast Service" else EmptyString) ++ nl
        ++ "// services/datafast.service.ts" ++ nl
        ++ "import { Injectable } from '@angular/core';" ++ nl
        ++ "import { HttpClient } from '@angular/common/http';" ++ nl
        ++ "import { Observable, BehaviorSubject } from 'rxjs';" ++ nl
        ++ nl
        ++ "declare global {" ++ nl
        ++ "  interface Window {" ++ nl
        ++ "    datafast: any;" ++ nl
        ++ "  }" ++ nl
        ++ "}" ++ nl
        ++ nl
        ++ "@Injectable({" ++ nl
        ++ "  providedIn: 'root'" ++ nl
        ++ "})" ++ nl
        ++ "export class DataFastService {" ++ nl
        ++ "  private visitorIdSubject = new BehaviorSubject<string | null>(null);" ++ nl
        ++ "  public visitorId$ = this.visitorIdSubject.asObservable();" ++ nl
        ++ nl
        ++ "  constructor(private http: HttpClient) {" ++ nl
        ++ "    this.initializeDataFast();" ++ nl
        ++ "  }" ++ nl
        ++ nl
        ++ "  private initializeDataFast() {" ++ nl
        ++ "    const handleReady = () => {" ++ nl
        ++ "      const visitorId = window.datafast?.getVisitorId();" ++ nl
        ++ "      this.visitorIdSubject.next(visitorId);" ++ nl
        ++ "    };" ++ nl
        ++ nl
        ++ "    if (window.datafast) {" ++ nl
        ++ "      handleReady();" ++ nl
        ++ "    } else {" ++ nl
        ++ "      window.addEventListener('datafast:ready', handleReady);" ++ nl
        ++ "    }" ++ nl
        ++ "  }" ++ nl
        ++ nl
        ++ "  trackGoal(name: string, metadata: any = {}) {" ++ nl
        ++ "    if (window.datafast?.trackGoal) {" ++ nl
        ++ "      window.datafast.trackGoal(name, metadata);" ++ nl
        ++ "    }" ++ nl
        ++ "  }" ++ nl
        ++ nl
        ++ "  trackPayment(amount: number, currency: string, transactionId: string, metadata: any = {}): Observable<any> {" ++ nl
        ++ "    const currentVisitorId = this.visitorIdSubject.value;" ++ nl
        ++ "    return this.http.post('/api/track-payment', {" ++ nl
        ++ "      amount," ++ nl
        ++ "      currency," ++ nl
        ++ "      transaction_id: transactionId," ++ nl
        ++ "      datafast_visitor_id: currentVisitorId," ++ nl
        ++ "      ...metadata" ++ nl
        ++ "    });" ++ nl
        ++ "  }" ++ nl
        ++ "}" ++ nl
        ++ nl
        ++ (if comments then "// 2. Add script to index.html" else EmptyString) ++ nl
        ++ "<!-- index.html -->" ++ nl
        ++ "<script src=" ++ dq ++ "https://datafa.st/js/script.js" ++ dq ++ " data-website-id=" ++ dq ++ "YOUR_WEBSITE_ID" ++ dq ++ "></script>" ++ nl
        ++ nl
        ++ (if comments then "// 3. Usage in components" else EmptyString) ++ nl
        ++ "// purchase.component.ts" ++ nl
        ++ "import { Component } from '@angular/core';" ++ nl
        ++ "import { DataFastService } from '../services/datafast.service';" ++ nl
        ++ nl
        ++ "@Component({" ++ nl
        ++ "  selector: 'app-purchase'," ++ nl
        ++ "  template: `" ++ nl
        ++ "    <div>" ++ nl
        ++ "      <button (click)=" ++ dq ++ "handlePurchase()" ++ dq ++ " [disabled]=" ++ dq ++ "!visitorId" ++ dq ++ ">" ++ nl
        ++ "        Purchase Premium Plan" ++ nl
        ++ "      </button>" ++ nl
        ++ "      <p *ngIf=" ++ dq ++ "visitorId" ++ dq ++ ">Visitor ID: {{ visitorId }}</p>" ++ nl
        ++ "    </div>" ++ nl
        ++ "  `" ++ nl
        ++ "})" ++ nl
        ++ "export class PurchaseComponent {" ++ nl
        ++ "  visitorId: string | null = null;" ++ nl
        ++ nl
        ++ "  constructor(private dataFastService: DataFastService) {}" ++ nl
        ++ nl
        ++ "  ngOnInit() {" ++ nl
        ++ "    this.dataFastService.visitorId$.subscribe(id => {" ++ nl
        ++ "      this.visitorId = id;" ++ nl
        ++ "    });" ++ nl
        ++ "  }" ++ nl
        ++ nl
        ++ "  handlePurchase() {" ++ nl
        ++ "    this.dataFastService.trackPayment(29.99, 'USD', 'tx_123', {" ++ nl
        ++ "      product_name: 'Premium Plan'," ++ nl
        ++ "      category: 'subscription'" ++ nl
        ++ "    }).subscribe({" ++ nl
        ++ "      next: (result) => console.log('Payment tracked:', result)," ++ nl
        ++ "      error: (error) => console.error('Payment tracking failed:', error)" ++ nl
        ++ "    });" ++ nl
        ++ nl
        ++ "    this.dataFastService.trackGoal('purchase_completed', {" ++ nl
        ++ "      amount: 29.99," ++ nl
        ++ "      product: 'premium_plan'" ++ nl
        ++ "    });" ++ nl
        ++ "  }" ++ nl
        ++ "}"
    | nuxt =>
        "// DataFast Nuxt Integration" ++ nl
        ++ nl
        ++ (if comments then "// 1. plugins/datafast.client.js" else EmptyString) ++ nl
        ++ "export default defineNuxtPlugin(() => {" ++ nl
        ++ "  // Add DataFast script" ++ nl
        ++ "  const script = document.createElement('script');" ++ nl
        ++ "  script.src = 'https://datafa.st/js/script.js';" ++ nl
        ++ "  script.setAttribute('data-website-id', 'YOUR_WEBSITE_ID');" ++ nl
        ++ "  document.head.appendChild(script);" ++ nl
        ++ "});" ++ nl
        ++ nl
        ++ (if comments then "// 2. composables/useDataFast.js" else EmptyString) ++ nl
        ++ "export const useDataFast = () => {" ++ nl
        ++ "  const visitorId = ref(null);" ++ nl
        ++ "  const isLoaded = ref(false);" ++ nl
        ++ nl
        ++ "  onMounted(() => {" ++ nl
        ++ "    const handleReady = () => {" ++ nl
        ++ "      visitorId.value = window.datafast?.getVisitorId();" ++ nl
        ++ "      isLoaded.value = true;" ++ nl
        ++ "    };" ++ nl
        ++ nl
        ++ "    if (window.datafast) {" ++ nl
        ++ "      handleReady();" ++ nl
        ++ "    } else {" ++ nl
        ++ "      window.addEventListener('datafast:ready', handleReady);" ++ nl
        ++ "    }" ++ nl
        ++ "  });" ++ nl
        ++ nl
        ++ "  onUnmounted(() => {" ++ nl
        ++ "    window.removeEventListener('datafast:ready', handleReady);" ++ nl
        ++ "  });" ++ nl
        ++ nl
        ++ "  const trackGoal = (name, metadata = {}) => {" ++ nl
        ++ "    if (window.datafast?.trackGoal) {" ++ nl
        ++ "      window.datafast.trackGoal(name, metadata);" ++ nl
        ++ "    }" ++ nl
        ++ "  };" ++ nl
        ++ nl
        ++ "  const trackPayment = async (amount, currency, transactionId, metadata = {}) => {" ++ nl
        ++ "    try {" ++ nl
        ++ "      const response = await $fetch('/api/track-payment', {" ++ nl
        ++ "        method: 'POST'," ++ nl
        ++ "        body: {" ++ nl
        ++ "          amount," ++ nl
        ++ "          currency," ++ nl
        ++ "          transaction_id: transactionId," ++ nl
        ++ "          datafast_visitor_id: visitorId.value," ++ nl
        ++ "          ...metadata" ++ nl
        ++ "        }" ++ nl
        ++ "      });" ++ nl
        ++ "      return response;" ++ nl
        ++ "    } catch (error) {" ++ nl
        ++ "      console.error('Payment tracking failed:', error);" ++ nl
        ++ "    }" ++ nl
        ++ "  };" ++ nl
        ++ nl
        ++ "  return { visitorId, isLoaded, trackGoal, trackPayment };" ++ nl
        ++ "};" ++ nl
        ++ nl
        ++ (if comments then "// 3. API route for payment tracking" else EmptyString) ++ nl
        ++ "// server/api/track-payment.post.js" ++ nl
        ++ "export default defineEventHandler(async (event) => {" ++ nl
        ++ "  const body = await readBody(event);" ++ nl
        ++ nl
        ++ "  try {" ++ nl
        ++ "    const response = await fetch('https://datafa.st/api/v1/payments', {" ++ nl
        ++ "      method: 'POST'," ++ nl
        ++ "      headers: {" ++ nl
        ++ "        'Authorization': `Bearer ${process.env.DATAFAST_API_KEY}`," ++ nl
        ++ "        'Content-Type': 'application/json'," ++ nl
        ++ "      }," ++ nl
        ++ "      body: JSON.stringify(body)" ++ nl
        ++ "    });" ++ nl
        ++ nl
        ++ "    const result = await response.json();" ++ nl
        ++ nl
        ++ "    if (!response.ok) {" ++ nl
        ++ "      throw createError({" ++ nl
        ++ "        statusCode: response.status," ++ nl
        ++ "        statusMessage: result.error?.message || 'Payment tracking failed'" ++ nl
        ++ "      });" ++ nl
        ++ "    }" ++ nl
        ++ nl
        ++ "    return result;" ++ nl
        ++ "  } catch (error) {" ++ nl
        ++ "    throw createError({" ++ nl
        ++ "      statusCode: 500," ++ nl
        ++ "      statusMessage: error.message || 'Internal server error'" ++ nl
        ++ "    });" ++ nl
        ++ "  }" ++ nl
        ++ "});" ++ nl
        ++ nl
        ++ (if comments then "// 4. Usage in components" else EmptyString) ++ nl
        ++ "// components/PurchaseButton.vue" ++ nl
        ++ "<template>" ++ nl
        ++ "  <div>" ++ nl
        ++ "    <button @click=" ++ dq ++ "handlePurchase" ++ dq ++ " :disabled=" ++ dq ++ "!isLoaded" ++ dq ++ ">" ++ nl
        ++ "      Purchase Premium Plan - $29.99" ++ nl
        ++ "    </button>" ++ nl
        ++ "    <p v-if=" ++ dq ++ "visitorId" ++ dq ++ ">Visitor ID: {{ visitorId }}</p>" ++ nl
        ++ "  </div>" ++ nl
        ++ "</template>" ++ nl
        ++ nl
        ++ "<script setup>" ++ nl
        ++ "const { visitorId, isLoaded, trackPayment } = useDataFast();" ++ nl
        ++ nl
        ++ "const handlePurchase = async () => {" ++ nl
        ++ "  const result = await trackPayment(29.99, 'USD', `order_${Date.now()}`, {" ++ nl
        ++ "    product_name: 'Premium Plan'," ++ nl
        ++ "    category: 'subscription'" ++ nl
        ++ "  });" ++ nl
        ++ nl
        ++ "  if (result) {" ++ nl
        ++ "    console.log('Payment tracked:', result);" ++ nl
        ++ "  }" ++ nl
        ++ nl
        ++ "  // Track goal" ++ nl
        ++ "  window.datafast?.trackGoal('purchase_completed', {" ++ nl
        ++ "    amount: 29.99," ++ nl
        ++ "    product: 'premium_plan'" ++ nl
        ++ "  });" ++ nl
        ++ "};" ++ nl
        ++ "</script>"
    end in
  {| content :=
       [{| type := "text";
           text :=
             "Here's the " ++ key framework ++ " implementation code for DataFast tracking:" ++ nl
             ++ nl
             ++ code ++ nl
             ++ nl
             ++ (if comments then "💡 This code includes comprehensive comments explaining each part of the implementation." else EmptyString) |}];
     isError := None |}.

End generate_tracking_code.

Module generate_webhook_handler.

Inductive Provider : Type :=
| stripe | paypal | lemonsqueezy | paddle | custom.

Definition provider_key (x : Provider) : string :=
  match x with
  | stripe => "stripe"
  | paypal => "paypal"
  | lemonsqueezy => "lemonsqueezy"
  | paddle => "paddle"
  | custom => "custom"
  end.

Inductive Language : Type :=
| javascript | typescript | python | php | go.

Definition language_key (x : Language) : string :=
  match x with
  | javascript => "javascript"
  | typescript => "typescript"
  | python => "python"
  | php => "php"
  | go => "go"
  end.

Inductive Feature : Type :=
| payment_tracking | goal_tracking | refund_handling | metadata_extraction.

Definition is_feature (x y : Feature) : bool :=
  match x, y with
  | payment_tracking, payment_tracking
  | goal_tracking, goal_tracking
  | refund_handling, refund_handling
  | metadata_extraction, metadata_extraction => true
  | _, _ => false
  end.

(** [features.includes(x)]. *)
Definition includes (x : Feature) (features : list Feature) : bool :=
  existsb (is_feature x) features.

(** [language] defaults to ["javascript"] and [features] to
    [["payment_tracking"]]. *)
Record Params : Type := {
  provider : Provider;
  language : Language;
  features : list Feature
}.

Definition handler (params : Params) : Envelope :=
  let provider := provider params in
  let language := language params in
  let features := features params in
  let code :=
    match language with
    | javascript | typescript =>
        match provider with
        | stripe =>
            "// Stripe Webhook Handler for DataFast" ++ nl
            ++ "import { create_payment, create_goal } from './datafast-api.js';" ++ nl
            ++ nl
            ++ (if includes payment_tracking features then
                  nl
                  ++ "// Handle successful payments" ++ nl
                  ++ "const handlePaymentSuccess = async (event) => {" ++ nl
                  ++ "  const paymentIntent = event.data.object;" ++ nl
                  ++ nl
                  ++ "  try {" ++ nl
                  ++ "    // Extract visitor ID from metadata (set during checkout)" ++ nl
                  ++ "    const visitorId = paymentIntent.metadata?.datafast_visitor_id;" ++ nl
                  ++ nl
                  ++ "    if (!visitorId) {" ++ nl
                  ++ "      console.log('No DataFast visitor ID found in payment metadata');" ++ nl
                  ++ "      return;" ++ nl
                  ++ "    }" ++ nl
                  ++ nl
                  ++ "    // Track the payment" ++ nl
                  ++ "    await create_payment({" ++ nl
                  ++ "      amount: paymentIntent.amount / 100, // Convert from cents" ++ nl
                  ++ "      currency: paymentIntent.currency.toUpperCase()," ++ nl
                  ++ "      transaction_id: paymentIntent.id," ++ nl
                  ++ "      datafast_visitor_id: visitorId," ++ nl
                  ++ "      email: paymentIntent.receipt_email," ++ nl
                  ++ "      metadata: {" ++ nl
                  ++ "        payment_method: paymentIntent.payment_method_types?.[0] || 'card'," ++ nl
                  ++ "        provider: 'stripe'" ++ nl
                  ++ "      }" ++ nl
                  ++ "    });" ++ nl
                  ++ nl
                  ++ "    console.log(`Payment ${paymentIntent.id} tracked successfully`);" ++ nl
                  ++ "  } catch (error) {" ++ nl
                  ++ "    console.error('Failed to track payment:', error);" ++ nl
                  ++ "  }" ++ nl
                  ++ "};" ++ nl
                else EmptyString) ++ nl
            ++ nl
            ++ (if includes goal_tracking features then
                  nl
                  ++ "// Handle subscription creation (track as goal)" ++ nl
                  ++ "const handleSubscriptionCreated = async (event) => {" ++ nl
                  ++ "  const subscription = event.data.object;" ++ nl
                  ++ nl
                  ++ "  try {" ++ nl
                  ++ "    const visitorId = subscription.metadata?.datafast_visitor_id;" ++ nl
                  ++ nl
                  ++ "    if (!visitorId) {" ++ nl
                  ++ "      console.log('No DataFast visitor ID found in subscription metadata');" ++ nl
                  ++ "      return;" ++ nl
                  ++ "    }" ++ nl
                  ++ nl
                  ++ "    // Create goal for subscription" ++ nl
                  ++ "    await create_goal({" ++ nl
                  ++ "      datafast_visitor_id: visitorId," ++ nl
                  ++ "      name: 'subscription_started'," ++ nl
                  ++ "      metadata: {" ++ nl
                  ++ "        subscription_id: subscription.id," ++ nl
                  ++ "        plan_id: subscription.items.data[0]?.price?.id," ++ nl
                  ++ "        provider: 'stripe'" ++ nl
                  ++ "      }" ++ nl
                  ++ "    });" ++ nl
                  ++ nl
                  ++ "    console.log(`Subscription ${subscription.id} goal created`);" ++ nl
                  ++ "  } catch (error) {" ++ nl
                  ++ "    console.error('Failed to create subscription goal:', error);" ++ nl
                  ++ "  }" ++ nl
                  ++ "};" ++ nl
                else EmptyString) ++ nl
            ++ nl
            ++ (if includes refund_handling features then
                  nl
                  ++ "// Handle refunds" ++ nl
                  ++ "const handleRefund = async (event) => {" ++ nl
                  ++ "  const refund = event.data.object;" ++ nl
                  ++ nl
                  ++ "  try {" ++ nl
                  ++ "    // Find original payment to get visitor ID" ++ nl
                  ++ "    // This would require storing payment mappings or querying Stripe" ++ nl
                  ++ "    const visitorId = await findVisitorIdByPaymentId(refund.payment_intent);" ++ nl
                  ++ nl
                  ++ "    if (!visitorId) {" ++ nl
                  ++ "      console.log('Could not find visitor ID for refund:', refund.id);" ++ nl
                  ++ "      return;" ++ nl
                  ++ "    }" ++ nl
                  ++ nl
                  ++ "    // Track refund as payment with negative amount" ++ nl
                  ++ "    await create_payment({" ++ nl
                  ++ "      amount: -(refund.amount / 100)," ++ nl
                  ++ "      currency: refund.currency.toUpperCase()," ++ nl
                  ++ "      transaction_id: refund.id," ++ nl
                  ++ "      datafast_visitor_id: visitorId," ++ nl
                  ++ "      refunded: true," ++ nl
                  ++ "      metadata: {" ++ nl
                  ++ "        original_payment: refund.payment_intent," ++ nl
                  ++ "        provider: 'stripe'" ++ nl
                  ++ "      }" ++ nl
                  ++ "    });" ++ nl
                  ++ nl
                  ++ "    console.log(`Refund ${refund.id} tracked`);" ++ nl
                  ++ "  } catch (error) {" ++ nl
                  ++ "    console.error('Failed to track refund:', error);" ++ nl
                  ++ "  }" ++ nl
                  ++ "};" ++ nl
                else EmptyString) ++ nl
            ++ nl
            ++ "// Main webhook handler" ++ nl
            ++ "export const handleStripeWebhook = async (req, res) => {" ++ nl
            ++ "  const sig = req.headers['stripe-signature'];" ++ nl
            ++ nl
            ++ "  try {" ++ nl
            ++ "    // Verify webhook signature" ++ nl
            ++ "    const event = stripe.webhooks.constructEvent(req.body, sig, process.env.STRIPE_WEBHOOK_SECRET);" ++ nl
            ++ nl
            ++ "    switch (event.type) {" ++ nl
            ++ "      case 'payment_intent.succeeded':" ++ nl
            ++ "        await handlePaymentSuccess(event);" ++ nl
            ++ "        break;" ++ nl
            ++ "      case 'customer.subscription.created':" ++ nl
            ++ "        await handleSubscriptionCreated(event);" ++ nl
            ++ "        break;" ++ nl
            ++ "      case 'charge.refunded':" ++ nl
            ++ "        await handleRefund(event);" ++ nl
            ++ "        break;" ++ nl
            ++ "    }" ++ nl
            ++ nl
            ++ "    res.json({ received: true });" ++ nl
            ++ "  } catch (error) {" ++ nl
            ++ "    console.error('Webhook error:', error);" ++ nl
            ++ "    res.status(400).send(`Webhook Error: ${error.message}`);" ++ nl
            ++ "  }" ++ nl
            ++ "};" ++ nl
            ++ nl
            ++ "// Express route" ++ nl
            ++ "app.post('/api/webhooks/stripe', express.raw({ type: 'application/json' }), handleStripeWebhook);"
        | lemonsqueezy =>
            "// LemonSqueezy Webhook Handler for DataFast" ++ nl
            ++ "import { create_payment, create_goal } from './datafast-api.js';" ++ nl
            ++ nl
            ++ (if includes payment_tracking features then
                  nl
                  ++ "// Handle successful orders" ++ nl
                  ++ "const handleOrderCreated = async (payload) => {" ++ nl
                  ++ "  const order = payload.data;" ++ nl
                  ++ nl
                  ++ "  try {" ++ nl
                  ++ "    // Extract custom data (visitor ID should be stored here)" ++ nl
                  ++ "    const visitorId = order.attributes.custom_data?.datafast_visitor_id;" ++ nl
                  ++ nl
                  ++ "    if (!visitorId) {" ++ nl
                  ++ "      console.log('No DataFast visitor ID found in order custom data');" ++ nl
                  ++ "      return;" ++ nl
                  ++ "    }" ++ nl
                  ++ nl
                  ++ "    // Track the payment" ++ nl
                  ++ "    await create_payment({" ++ nl
                  ++ "      amount: parseFloat(order.attributes.total)," ++ nl
                  ++ "      currency: order.attributes.currency.toUpperCase()," ++ nl
                  ++ "      transaction_id: order.attributes.identifier," ++ nl
                  ++ "      datafast_visitor_id: visitorId," ++ nl
                  ++ "      email: order.attributes.user_email," ++ nl
                  ++ "      metadata: {" ++ nl
                  ++ "        product_name: order.attributes.first_order_item?.product_name," ++ nl
                  ++ "        provider: 'lemonsqueezy'," ++ nl
                  ++ "        order_id: order.id" ++ nl
                  ++ "      }" ++ nl
                  ++ "    });" ++ nl
                  ++ nl
                  ++ "    console.log(`Order ${order.attributes.identifier} tracked successfully`);" ++ nl
                  ++ "  } catch (error) {" ++ nl
                  ++ "    console.error('Failed to track order:', error);" ++ nl
                  ++ "  }" ++ nl
                  ++ "};" ++ nl
                else EmptyString) ++ nl
            ++ nl
            ++ (if includes goal_tracking features then
                  nl
                  ++ "// Handle subscription creation" ++ nl
                  ++ "const handleSubscriptionCreated = async (payload) => {" ++ nl
                  ++ "  const subscription = payload.data;" ++ nl
                  ++ nl
                  ++ "  try {" ++ nl
                  ++ "    const visitorId = subscription.attributes.custom_data?.datafast_visitor_id;" ++ nl
                  ++ nl
                  ++ "    if (!visitorId) {" ++ nl
                  ++ "      console.log('No DataFast visitor ID found in subscription');" ++ nl
                  ++ "      return;" ++ nl
                  ++ "    }" ++ nl
                  ++ nl
                  ++ "    await create_goal({" ++ nl
                  ++ "      datafast_visitor_id: visitorId," ++ nl
                  ++ "      name: 'subscription_started'," ++ nl
                  ++ "      metadata: {" ++ nl
                  ++ "        subscription_id: subscription.id," ++ nl
                  ++ "        product_name: subscription.attributes.product_name," ++ nl
                  ++ "        provider: 'lemonsqueezy'" ++ nl
                  ++ "      }" ++ nl
                  ++ "    });" ++ nl
                  ++ nl
                  ++ "    console.log(`Subscription ${subscription.id} goal created`);" ++ nl
                  ++ "  } catch (error) {" ++ nl
                  ++ "    console.error('Failed to create subscription goal:', error);" ++ nl
                  ++ "  }" ++ nl
                  ++ "};" ++ nl
                else EmptyString) ++ nl
            ++ nl
            ++ "// Main webhook handler" ++ nl
            ++ "export const handleLemonSqueezyWebhook = async (req, res) => {" ++ nl
            ++ "  try {" ++ nl
            ++ "    const payload = req.body;" ++ nl
            ++ nl
            ++ "    // Verify webhook signature (implement based on LemonSqueezy docs)" ++ nl
            ++ "    // const isValid = verifyWebhookSignature(req, payload);" ++ nl
            ++ "    // if (!isValid) {" ++ nl
            ++ "    //   return res.status(401).json({ error: 'Invalid signature' });" ++ nl
            ++ "    // }" ++ nl
            ++ nl
            ++ "    const eventName = payload.meta?.event_name;" ++ nl
            ++ nl
            ++ "    switch (eventName) {" ++ nl
            ++ "      case 'order_created':" ++ nl
            ++ "        await handleOrderCreated(payload);" ++ nl
            ++ "        break;" ++ nl
            ++ "      case 'subscription_created':" ++ nl
            ++ "        await handleSubscriptionCreated(payload);" ++ nl
            ++ "        break;" ++ nl
            ++ "    }" ++ nl
            ++ nl
            ++ "    res.json({ success: true });" ++ nl
            ++ "  } catch (error) {" ++ nl
            ++ "    console.error('Webhook error:', error);" ++ nl
            ++ "    res.status(400).json({ error: error.message });" ++ nl
            ++ "  }" ++ nl
            ++ "};" ++ nl
            ++ nl
            ++ "// Express route" ++ nl
            ++ "app.post('/api/webhooks/lemonsqueezy', express.json(), handleLemonSqueezyWebhook);"
        | _ =>
            "// Generic Webhook Handler Template" ++ nl
            ++ "import { create_payment, create_goal } from './datafast-api.js';" ++ nl
            ++ nl
            ++ "export const handleGenericWebhook = async (req, res) => {" ++ nl
            ++ "  try {" ++ nl
            ++ "    const payload = req.body;" ++ nl
            ++ nl
            ++ "    // Extract data based on your provider's webhook format" ++ nl
            ++ "    const {" ++ nl
            ++ "      amount," ++ nl
            ++ "      currency," ++ nl
            ++ "      transaction_id," ++ nl
            ++ "      visitor_id," ++ nl
            ++ "      email," ++ nl
            ++ "      event_type," ++ nl
            ++ "      metadata = {}" ++ nl
            ++ "    } = extractWebhookData(payload);" ++ nl
            ++ nl
            ++ "    if (!visitor_id) {" ++ nl
            ++ "      console.log('No visitor ID found in webhook payload');" ++ nl
            ++ "      return res.status(400).json({ error: 'Missing visitor ID' });" ++ nl
            ++ "    }" ++ nl
            ++ nl
            ++ "    if (event_type === 'payment_success' || event_type === 'order_completed') {" ++ nl
            ++ "      await create_payment({" ++ nl
            ++ "        amount: parseFloat(amount)," ++ nl
            ++ "        currency: currency.toUpperCase()," ++ nl
            ++ "        transaction_id: transaction_id," ++ nl
            ++ "        datafast_visitor_id: visitor_id," ++ nl
            ++ "        email: email," ++ nl
            ++ "        metadata: {" ++ nl
            ++ "          ...metadata," ++ nl
            ++ "          provider: 'custom'" ++ nl
            ++ "        }" ++ nl
            ++ "      });" ++ nl
            ++ "    } else if (event_type === 'subscription_created') {" ++ nl
            ++ "      await create_goal({" ++ nl
            ++ "        datafast_visitor_id: visitor_id," ++ nl
            ++ "        name: 'subscription_started'," ++ nl
            ++ "        metadata: {" ++ nl
            ++ "          ...metadata," ++ nl
            ++ "          provider: 'custom'" ++ nl
            ++ "        }" ++ nl
            ++ "      });" ++ nl
            ++ "    }" ++ nl
            ++ nl
            ++ "    res.json({ success: true });" ++ nl
            ++ "  } catch (error) {" ++ nl
            ++ "    console.error('Webhook processing error:', error);" ++ nl
            ++ "    res.status(500).json({ error: 'Internal server error' });" ++ nl
            ++ "  }" ++ nl
            ++ "};" ++ nl
            ++ nl
            ++ "// Helper function to extract data from webhook payload" ++ nl
            ++ "function extractWebhookData(payload) {" ++ nl
            ++ "  // Customize this based on your payment provider's webhook format" ++ nl
            ++ "  return {" ++ nl
            ++ "    amount: payload.amount || payload.total || 0," ++ nl
            ++ "    currency: payload.currency || 'USD'," ++ nl
            ++ "    transaction_id: payload.id || payload.transaction_id," ++ nl
            ++ "    visitor_id: payload.metadata?.datafast_visitor_id || payload.custom_data?.visitor_id," ++ nl
            ++ "    email: payload.customer_email || payload.user_email," ++ nl
            ++ "    event_type: payload.event_type || payload.type," ++ nl
            ++ "    metadata: payload.metadata || {}" ++ nl
            ++ "  };" ++ nl
            ++ "}"
        end
    | _ => EmptyString
    end in
  {| content :=
       [{| type := "text";
           text :=
             "Here's the " ++ provider_key provider ++ " webhook handler in " ++ language_key language ++ ":" ++ nl
             ++ nl
             ++ code ++ nl
             ++ nl
             ++ "💡 This webhook handler will automatically track payments and goals with DataFast when events occur in your payment provider." |}];
     isError := None |}.

End generate_webhook_handler.

Module generate_config_template.

Inductive Environment : Type :=
| development | staging | production.

Definition environment_key (x : Environment) : string :=
  match x with
  | development => "development"
  | staging => "staging"
  | production => "production"
  end.

Definition is_environment (x y : Environment) : bool :=
  match x, y with
  | development, development
  | staging, staging
  | production, production => true
  | _, _ => false
  end.

Inductive Platform : Type :=
| web | mobile | server | lambda.

Definition platform_key (x : Platform) : string :=
  match x with
  | web => "web"
  | mobile => "mobile"
  | server => "server"
  | lambda => "lambda"
  end.

Inductive Feature : Type :=
| tracking | goals | payments | analytics | debugging.

Definition is_feature (x y : Feature) : bool :=
  match x, y with
  | tracking, tracking
  | goals, goals
  | payments, payments
  | analytics, analytics
  | debugging, debugging => true
  | _, _ => false
  end.

(** [features.includes(x)]. *)
Definition includes (x : Feature) (features : list Feature) : bool :=
  existsb (is_feature x) features.

(** [features] defaults to [["tracking", "goals", "payments"]]. *)
Record Params : Type := {
  environment : Environment;
  platform : Platform;
  features : list Feature
}.

Definition handler (params : Params) : Envelope :=
  let environment := environment params in
  let platform := platform params in
  let features := features params in
  let config :=
    match platform with
    | web =>
        "// DataFast Web Configuration - " ++ environment_key environment ++ nl
        ++ nl
        ++ "export const DATAFAST_CONFIG = {" ++ nl
        ++ "  // Core settings" ++ nl
        ++ "  websiteId: '" ++ (if is_environment environment production then "YOUR_PRODUCTION_WEBSITE_ID" else "YOUR_DEV_WEBSITE_ID") ++ "'," ++ nl
        ++ "  apiUrl: 'https://datafa.st/api/v1'," ++ nl
        ++ "  scriptUrl: 'https://datafa.st/js/script.js'," ++ nl
        ++ nl
        ++ "  // Environment settings" ++ nl
        ++ "  environment: '" ++ environment_key environment ++ "'," ++ nl
        ++ "  debug: " ++ string_of_bool (negb (is_environment environment production)) ++ "," ++ nl
        ++ nl
        ++ "  // Feature flags" ++ nl
        ++ "  features: {" ++ nl
        ++ "    tracking: " ++ string_of_bool (includes tracking features) ++ "," ++ nl
        ++ "    goals: " ++ string_of_bool (includes goals features) ++ "," ++ nl
        ++ "    payments: " ++ string_of_bool (includes payments features) ++ "," ++ nl
        ++ "    analytics: " ++ string_of_bool (includes analytics features) ++ "," ++ nl
        ++ "    debugging: " ++ string_of_bool (includes debugging features) ++ "," ++ nl
        ++ "  }," ++ nl
        ++ nl
        ++ "  // Tracking settings" ++ nl
        ++ "  tracking: {" ++ nl
        ++ "    autoTrack: true," ++ nl
        ++ "    trackPageViews: true," ++ nl
        ++ "    trackClicks: false," ++ nl
        ++ "    trackScroll: false," ++ nl
        ++ "    trackTimeOnPage: true," ++ nl
        ++ "  }," ++ nl
        ++ nl
        ++ "  // Goal settings" ++ nl
        ++ "  goals: {" ++ nl
        ++ "    autoTrack: " ++ string_of_bool (includes goals features) ++ "," ++ nl
        ++ "    customGoals: [" ++ nl
        ++ "      'newsletter_signup'," ++ nl
        ++ "      'account_created'," ++ nl
        ++ "      'purchase_completed'," ++ nl
        ++ "      'subscription_started'," ++ nl
        ++ "    ]," ++ nl
        ++ "  }," ++ nl
        ++ nl
        ++ "  // Payment settings" ++ nl
        ++ "  payments: {" ++ nl
        ++ "    autoTrack: " ++ string_of_bool (includes payments features) ++ "," ++ nl
        ++ "    providers: ['stripe', 'paypal', 'lemonsqueezy']," ++ nl
        ++ "    trackRefunds: true," ++ nl
        ++ "  }," ++ nl
        ++ nl
        ++ "  // Analytics settings" ++ nl
        ++ "  analytics: {" ++ nl
        ++ "    enabled: " ++ string_of_bool (includes analytics features) ++ "," ++ nl
        ++ "    trackPerformance: true," ++ nl
        ++ "    trackErrors: " ++ string_of_bool (includes debugging features) ++ "," ++ nl
        ++ "    customEvents: []," ++ nl
        ++ "  }," ++ nl
        ++ nl
        ++ "  // Privacy settings" ++ nl
        ++ "  privacy: {" ++ nl
        ++ "    respectDNT: true," ++ nl
        ++ "    anonymizeIP: false," ++ nl
        ++ "    cookieConsent: false," ++ nl
        ++ "  }," ++ nl
        ++ "};" ++ nl
        ++ nl
        ++ "// Initialize DataFast" ++ nl
        ++ "export const initializeDataFast = () => {" ++ nl
        ++ "  if (typeof window === 'undefined') return;" ++ nl
        ++ nl
        ++ "  // Add script to page" ++ nl
        ++ "  const script = document.createElement('script');" ++ nl
        ++ "  script.src = DATAFAST_CONFIG.scriptUrl;" ++ nl
        ++ "  script.setAttribute('data-website-id', DATAFAST_CONFIG.websiteId);" ++ nl
        ++ "  script.async = true;" ++ nl
        ++ nl
        ++ "  // Add debugging if enabled" ++ nl
        ++ "  if (DATAFAST_CONFIG.debug) {" ++ nl
        ++ "    script.setAttribute('data-debug', 'true');" ++ nl
        ++ "  }" ++ nl
        ++ nl
        ++ "  document.head.appendChild(script);" ++ nl
        ++ nl
        ++ "  // Set up event listeners" ++ nl
        ++ "  window.addEventListener('datafast:ready', () => {" ++ nl
        ++ "    if (DATAFAST_CONFIG.debug) {" ++ nl
        ++ "      console.log('DataFast initialized successfully');" ++ nl
        ++ "    }" ++ nl
        ++ "  });" ++ nl
        ++ nl
        ++ "  window.addEventListener('datafast:error', (event) => {" ++ nl
        ++ "    console.error('DataFast error:', event.detail);" ++ nl
        ++ "  });" ++ nl
        ++ "};" ++ nl
        ++ nl
        ++ "// React hook for DataFast" ++ nl
        ++ "export const useDataFastConfig = () => {" ++ nl
        ++ "  return {" ++ nl
        ++ "    config: DATAFAST_CONFIG," ++ nl
        ++ "    initialize: initializeDataFast," ++ nl
        ++ "  };" ++ nl
        ++ "};"
    | server =>
        "// DataFast Server Configuration - " ++ environment_key environment ++ nl
        ++ nl
        ++ "export const DATAFAST_CONFIG = {" ++ nl
        ++ "  // API settings" ++ nl
        ++ "  apiKey: process.env.DATAFAST_API_KEY || '" ++ (if is_environment environment production then "your_production_api_key" else "your_dev_api_key") ++ "'," ++ nl
        ++ "  baseUrl: 'https://datafa.st/api/v1'," ++ nl
        ++ nl
        ++ "  // Environment" ++ nl
        ++ "  environment: '" ++ environment_key environment ++ "'," ++ nl
        ++ "  debug: " ++ string_of_bool (negb (is_environment environment production)) ++ "," ++ nl
        ++ nl
        ++ "  // Feature flags" ++ nl
        ++ "  features: {" ++ nl
        ++ "    payments: " ++ string_of_bool (includes payments features) ++ "," ++ nl
        ++ "    goals: " ++ string_of_bool (includes goals features) ++ "," ++ nl
        ++ "    analytics: " ++ string_of_bool (includes analytics features) ++ "," ++ nl
        ++ "    webhooks: true," ++ nl
        ++ "  }," ++ nl
        ++ nl
        ++ "  // Webhook settings" ++ nl
        ++ "  webhooks: {" ++ nl
        ++ "    enabled: true," ++ nl
        ++ "    secret: process.env.DATAFAST_WEBHOOK_SECRET || 'your_webhook_secret'," ++ nl
        ++ "    endpoints: {" ++ nl
        ++ "      stripe: '/api/webhooks/stripe'," ++ nl
        ++ "      paypal: '/api/webhooks/paypal'," ++ nl
        ++ "      lemonsqueezy: '/api/webhooks/lemonsqueezy'," ++ nl
        ++ "    }," ++ nl
        ++ "  }," ++ nl
        ++ nl
        ++ "  // Payment settings" ++ nl
        ++ "  payments: {" ++ nl
        ++ "    autoTrack: " ++ string_of_bool (includes payments features) ++ "," ++ nl
        ++ "    providers: ['stripe', 'paypal', 'lemonsqueezy']," ++ nl
        ++ "    trackRefunds: true," ++ nl
        ++ "    validateBeforeTrack: true," ++ nl
        ++ "  }," ++ nl
        ++ nl
        ++ "  // Goal settings" ++ nl
        ++ "  goals: {" ++ nl
        ++ "    autoTrack: " ++ string_of_bool (includes goals features) ++ "," ++ nl
        ++ "    batchSize: 10," ++ nl
        ++ "    retryAttempts: 3," ++ nl
        ++ "  }," ++ nl
        ++ nl
        ++ "  // Analytics settings" ++ nl
        ++ "  analytics: {" ++ nl
        ++ "    enabled: " ++ string_of_bool (includes analytics features) ++ "," ++ nl
        ++ "    cacheTimeout: 300, // 5 minutes" ++ nl
        ++ "    rateLimit: 1000, // requests per hour" ++ nl
        ++ "  }," ++ nl
        ++ nl
        ++ "  // Security settings" ++ nl
        ++ "  security: {" ++ nl
        ++ "    validateApiKey: true," ++ nl
        ++ "    rateLimitEnabled: true," ++ nl
        ++ "    logRequests: " ++ string_of_bool (includes debugging features) ++ "," ++ nl
        ++ "  }," ++ nl
        ++ "};" ++ nl
        ++ nl
        ++ "// DataFast API client" ++ nl
        ++ "export class DataFastAPI {" ++ nl
        ++ "  constructor(config = DATAFAST_CONFIG) {" ++ nl
        ++ "    this.config = config;" ++ nl
        ++ "    this.baseUrl = config.baseUrl;" ++ nl
        ++ "    this.apiKey = config.apiKey;" ++ nl
        ++ "  }" ++ nl
        ++ nl
        ++ "  async request(endpoint, options = {}) {" ++ nl
        ++ "    const url = `${this.baseUrl}${endpoint}`;" ++ nl
        ++ nl
        ++ "    const response = await fetch(url, {" ++ nl
        ++ "      ...options," ++ nl
        ++ "      headers: {" ++ nl
        ++ "        'Authorization': `Bearer ${this.apiKey}`," ++ nl
        ++ "        'Content-Type': 'application/json'," ++ nl
        ++ "        ...options.headers," ++ nl
        ++ "      }," ++ nl
        ++ "    });" ++ nl
        ++ nl
        ++ "    if (!response.ok) {" ++ nl
        ++ "      const error = await response.json().catch(() => ({ error: { message: 'Unknown error' } }));" ++ nl
        ++ "      throw new Error(error.error?.message || `HTTP ${response.status}`);" ++ nl
        ++ "    }" ++ nl
        ++ nl
        ++ "    return response.json();" ++ nl
        ++ "  }" ++ nl
        ++ nl
        ++ "  async createPayment(paymentData) {" ++ nl
        ++ "    return this.request('/payments', {" ++ nl
        ++ "      method: 'POST'," ++ nl
        ++ "      body: JSON.stringify(paymentData)," ++ nl
        ++ "    });" ++ nl
        ++ "  }" ++ nl
        ++ nl
        ++ "  async createGoal(goalData) {" ++ nl
        ++ "    return this.request('/goals', {" ++ nl
        ++ "      method: 'POST'," ++ nl
        ++ "      body: JSON.stringify(goalData)," ++ nl
        ++ "    });" ++ nl
        ++ "  }" ++ nl
        ++ nl
        ++ "  async getVisitorData(visitorId) {" ++ nl
        ++ "    return this.request(`/visitors/${visitorId}`);" ++ nl
        ++ "  }" ++ nl
        ++ "}" ++ nl
        ++ nl
        ++ "// Export singleton instance" ++ nl
        ++ "export const dataFastAPI = new DataFastAPI();" ++ nl
        ++ nl
        ++ "// Environment variables template (.env)" ++ nl
        ++ "export const ENV_TEMPLATE = `" ++ nl
        ++ "# DataFast Configuration" ++ nl
        ++ "DATAFAST_API_KEY=your_datafast_api_key_here" ++ nl
        ++ "DATAFAST_WEBHOOK_SECRET=your_webhook_secret_here" ++ nl
        ++ nl
        ++ "# Payment Provider Webhook Secrets" ++ nl
        ++ "STRIPE_WEBHOOK_SECRET=your_stripe_webhook_secret" ++ nl
        ++ "PAYPAL_WEBHOOK_SECRET=your_paypal_webhook_secret" ++ nl
        ++ "LEMONSQUEEZY_WEBHOOK_SECRET=your_lemonsqueezy_webhook_secret" ++ nl
        ++ "`;"
    | lambda =>
        "// DataFast AWS Lambda Configuration - " ++ environment_key environment ++ nl
        ++ nl
        ++ "export const DATAFAST_CONFIG = {" ++ nl
        ++ "  // API settings" ++ nl
        ++ "  apiKey: process.env.DATAFAST_API_KEY || '" ++ (if is_environment environment production then "your_production_api_key" else "your_dev_api_key") ++ "'," ++ nl
        ++ "  baseUrl: 'https://datafa.st/api/v1'," ++ nl
        ++ nl
        ++ "  // Environment" ++ nl
        ++ "  environment: '" ++ environment_key environment ++ "'," ++ nl
        ++ "  debug: " ++ string_of_bool (negb (is_environment environment production)) ++ "," ++ nl
        ++ nl
        ++ "  // Lambda-specific settings" ++ nl
        ++ "  timeout: 30, // seconds" ++ nl
        ++ "  memory: 256, // MB" ++ nl
        ++ "  concurrency: 5," ++ nl
        ++ nl
        ++ "  // Feature flags" ++ nl
        ++ "  features: {" ++ nl
        ++ "    payments: " ++ string_of_bool (includes payments features) ++ "," ++ nl
        ++ "    goals: " ++ string_of_bool (includes goals features) ++ "," ++ nl
        ++ "    analytics: " ++ string_of_bool (includes analytics features) ++ "," ++ nl
        ++ "    batchProcessing: true," ++ nl
        ++ "  }," ++ nl
        ++ nl
        ++ "  // Batch settings" ++ nl
        ++ "  batch: {" ++ nl
        ++ "    enabled: true," ++ nl
        ++ "    maxBatchSize: 10," ++ nl
        ++ "    flushInterval: 60, // seconds" ++ nl
        ++ "  }," ++ nl
        ++ nl
        ++ "  // Webhook settings" ++ nl
        ++ "  webhooks: {" ++ nl
        ++ "    enabled: true," ++ nl
        ++ "    retryAttempts: 3," ++ nl
        ++ "    backoffMultiplier: 2," ++ nl
        ++ "  }," ++ nl
        ++ "};" ++ nl
        ++ nl
        ++ "// Lambda handler for API Gateway" ++ nl
        ++ "export const createPaymentHandler = async (event) => {" ++ nl
        ++ "  console.log('Payment event:', JSON.stringify(event, null, 2));" ++ nl
        ++ nl
        ++ "  try {" ++ nl
        ++ "    const { amount, currency, transaction_id, datafast_visitor_id, ...metadata } = JSON.parse(event.body);" ++ nl
        ++ nl
        ++ "    const response = await fetch(`${DATAFAST_CONFIG.baseUrl}/payments`, {" ++ nl
        ++ "      method: 'POST'," ++ nl
        ++ "      headers: {" ++ nl
        ++ "        'Authorization': `Bearer ${DATAFAST_CONFIG.apiKey}`," ++ nl
        ++ "        'Content-Type': 'application/json'," ++ nl
        ++ "      }," ++ nl
        ++ "      body: JSON.stringify({" ++ nl
        ++ "        amount: parseFloat(amount)," ++ nl
        ++ "        currency: currency.toUpperCase()," ++ nl
        ++ "        transaction_id," ++ nl
        ++ "        datafast_visitor_id," ++ nl
        ++ "        ...metadata," ++ nl
        ++ "      })," ++ nl
        ++ "    });" ++ nl
        ++ nl
        ++ "    const result = await response.json();" ++ nl
        ++ nl
        ++ "    if (!response.ok) {" ++ nl
        ++ "      throw new Error(result.error?.message || 'Payment tracking failed');" ++ nl
        ++ "    }" ++ nl
        ++ nl
        ++ "    return {" ++ nl
        ++ "      statusCode: 200," ++ nl
        ++ "      headers: {" ++ nl
        ++ "        'Content-Type': 'application/json'," ++ nl
        ++ "        'Access-Control-Allow-Origin': '*'," ++ nl
        ++ "      }," ++ nl
        ++ "      body: JSON.stringify(result)," ++ nl
        ++ "    };" ++ nl
        ++ "  } catch (error) {" ++ nl
        ++ "    console.error('Payment tracking error:', error);" ++ nl
        ++ nl
        ++ "    return {" ++ nl
        ++ "      statusCode: 500," ++ nl
        ++ "      headers: {" ++ nl
        ++ "        'Content-Type': 'application/json'," ++ nl
        ++ "        'Access-Control-Allow-Origin': '*'," ++ nl
        ++ "      }," ++ nl
        ++ "      body: JSON.stringify({ error: error.message })," ++ nl
        ++ "    };" ++ nl
        ++ "  }" ++ nl
        ++ "};" ++ nl
        ++ nl
        ++ "// Lambda handler for SQS batch processing" ++ nl
        ++ "export const batchGoalsHandler = async (event) => {" ++ nl
        ++ "  console.log('Batch goals event:', JSON.stringify(event, null, 2));" ++ nl
        ++ nl
        ++ "  const results = [];" ++ nl
        ++ nl
        ++ "  for (const record of event.Records) {" ++ nl
        ++ "    try {" ++ nl
        ++ "      const goalData = JSON.parse(record.body);" ++ nl
        ++ nl
        ++ "      const response = await fetch(`${DATAFAST_CONFIG.baseUrl}/goals`, {" ++ nl
        ++ "        method: 'POST'," ++ nl
        ++ "        headers: {" ++ nl
        ++ "          'Authorization': `Bearer ${DATAFAST_CONFIG.apiKey}`," ++ nl
        ++ "          'Content-Type': 'application/json'," ++ nl
        ++ "        }," ++ nl
        ++ "        body: JSON.stringify(goalData)," ++ nl
        ++ "      });" ++ nl
        ++ nl
        ++ "      const result = await response.json();" ++ nl
        ++ nl
        ++ "      if (response.ok) {" ++ nl
        ++ "        results.push({ success: true, goal: goalData.name, result });" ++ nl
        ++ "      } else {" ++ nl
        ++ "        results.push({ success: false, goal: goalData.name, error: result.error?.message });" ++ nl
        ++ "      }" ++ nl
        ++ "    } catch (error) {" ++ nl
        ++ "      results.push({ success: false, error: error.message });" ++ nl
        ++ "    }" ++ nl
        ++ "  }" ++ nl
        ++ nl
        ++ "  return {" ++ nl
        ++ "    statusCode: 200," ++ nl
        ++ "    body: JSON.stringify({ processed: results.length, results })," ++ nl
        ++ "  };" ++ nl
        ++ "};" ++ nl
        ++ nl
        ++ "// CloudFormation template snippet" ++ nl
        ++ "export const CLOUDFORMATION_TEMPLATE = {" ++ nl
        ++ "  DataFastPaymentFunction: {" ++ nl
        ++ "    Type: 'AWS::Lambda::Function'," ++ nl
        ++ "    Properties: {" ++ nl
        ++ "      FunctionName: `datafast-payment-tracker-${DATAFAST_CONFIG.environment}`," ++ nl
        ++ "      Runtime: 'nodejs18.x'," ++ nl
        ++ "      Handler: 'index.createPaymentHandler'," ++ nl
        ++ "      MemorySize: DATAFAST_CONFIG.memory," ++ nl
        ++ "      Timeout: DATAFAST_CONFIG.timeout," ++ nl
        ++ "      Environment: {" ++ nl
        ++ "        Variables: {" ++ nl
        ++ "          DATAFAST_API_KEY: process.env.DATAFAST_API_KEY," ++ nl
        ++ "        }," ++ nl
        ++ "      }," ++ nl
        ++ "    }," ++ nl
        ++ "  }," ++ nl
        ++ "  ApiGatewayMethod: {" ++ nl
        ++ "    Type: 'AWS::ApiGateway::Method'," ++ nl
        ++ "    Properties: {" ++ nl
        ++ "      HttpMethod: 'POST'," ++ nl
        ++ "      ResourceId: { Ref: 'ApiGatewayResource' }," ++ nl
        ++ "      RestApiId: { Ref: 'ApiGateway' }," ++ nl
        ++ "      AuthorizationType: 'NONE'," ++ nl
        ++ "      Integration: {" ++ nl
        ++ "        Type: 'AWS_PROXY'," ++ nl
        ++ "        IntegrationHttpMethod: 'POST'," ++ nl
        ++ "        Uri: {" ++ nl
        ++ "          'Fn::Sub': `arn:aws:apigateway:${AWS::Region}:lambda:path/2015-03-31/functions/${DataFastPaymentFunction.Arn}/invocations`," ++ nl
        ++ "        }," ++ nl
        ++ "      }," ++ nl
        ++ "    }," ++ nl
        ++ "  }," ++ nl
        ++ "};"
    | mobile => EmptyString
    end in
  {| content :=
       [{| type := "text";
           text :=
             "Here's the " ++ platform_key platform ++ " configuration template for " ++ environment_key environment ++ ":" ++ nl
             ++ nl
             ++ config ++ nl
             ++ nl
             ++ "💡 This template includes all necessary settings, environment variables, and helper functions for your DataFast integration." |}];
     isError := None |}.

End generate_config_template.

Module generate_debugging_tools.

Inductive Platform : Type :=
| browser | server | mobile.

Definition platform_key (x : Platform) : string :=
  match x with
  | browser => "browser"
  | server => "server"
  | mobile => "mobile"
  end.

Inductive Feature : Type :=
| visitor_tracking | payment_debug | goal_tracking | network_monitoring | error_tracking.

Definition is_feature (x y : Feature) : bool :=
  match x, y with
  | visitor_tracking, visitor_tracking
  | payment_debug, payment_debug
  | goal_tracking, goal_tracking
  | network_monitoring, network_monitoring
  | error_tracking, error_tracking => true
  | _, _ => false
  end.

(** [features.includes(x)]. *)
Definition includes (x : Feature) (features : list Feature) : bool :=
  existsb (is_feature x) features.

(** [features] defaults to [["visitor_tracking", "payment_debug"]]. *)
Record Params : Type := {
  platform : Platform;
  features : list Feature
}.

Definition handler (params : Params) : Envelope :=
  let platform := platform params in
  let features := features params in
  let code :=
    match platform with
    | browser =>
        "// DataFast Browser Debugging Tools" ++ nl
        ++ nl
        ++ "// Debug utility class" ++ nl
        ++ "class DataFastDebugger {" ++ nl
        ++ "  constructor() {" ++ nl
        ++ "    this.logs = [];" ++ nl
        ++ "    this.isEnabled = true;" ++ nl
        ++ "    this.initialize();" ++ nl
        ++ "  }" ++ nl
        ++ nl
        ++ "  initialize() {" ++ nl
        ++ "    if (typeof window === 'undefined') return;" ++ nl
        ++ nl
        ++ "    // Listen for DataFast events" ++ nl
        ++ "    window.addEventListener('datafast:ready', () => {" ++ nl
        ++ "      this.log('DataFast script loaded successfully');" ++ nl
        ++ "      this.logVisitorId();" ++ nl
        ++ "    });" ++ nl
        ++ nl
        ++ "    window.addEventListener('datafast:error', (event) => {" ++ nl
        ++ "      this.error('DataFast error:', event.detail);" ++ nl
        ++ "    });" ++ nl
        ++ nl
        ++ "    // Monitor network requests" ++ nl
        ++ "    if (" ++ string_of_bool (includes network_monitoring features) ++ ") {" ++ nl
        ++ "      this.monitorNetworkRequests();" ++ nl
        ++ "    }" ++ nl
        ++ "  }" ++ nl
        ++ nl
        ++ "  log(message, data = null) {" ++ nl
        ++ "    const entry = {" ++ nl
        ++ "      timestamp: new Date().toISOString()," ++ nl
        ++ "      level: 'info'," ++ nl
        ++ "      message," ++ nl
        ++ "      data," ++ nl
        ++ "    };" ++ nl
        ++ "    this.logs.push(entry);" ++ nl
        ++ "    if (this.isEnabled) {" ++ nl
        ++ "      console.log(`🔍 DataFast: ${message}`, data);" ++ nl
        ++ "    }" ++ nl
        ++ "  }" ++ nl
        ++ nl
        ++ "  error(message, data = null) {" ++ nl
        ++ "    const entry = {" ++ nl
        ++ "      timestamp: new Date().toISOString()," ++ nl
        ++ "      level: 'error'," ++ nl
        ++ "      message," ++ nl
        ++ "      data," ++ nl
        ++ "    };" ++ nl
        ++ "    this.logs.push(entry);" ++ nl
        ++ "    console.error(`❌ DataFast Error: ${message}`, data);" ++ nl
        ++ "  }" ++ nl
        ++ nl
        ++ "  logVisitorId() {" ++ nl
        ++ "    try {" ++ nl
        ++ "      const visitorId = window.datafast?.getVisitorId();" ++ nl
        ++ "      this.log('Visitor ID retrieved', visitorId);" ++ nl
        ++ "      return visitorId;" ++ nl
        ++ "    } catch (error) {" ++ nl
        ++ "      this.error('Failed to get visitor ID', error);" ++ nl
        ++ "      return null;" ++ nl
        ++ "    }" ++ nl
        ++ "  }" ++ nl
        ++ nl
        ++ "  " ++ (if includes visitor_tracking features then
              nl
              ++ "  trackVisitorChanges() {" ++ nl
              ++ "    let lastVisitorId = null;" ++ nl
              ++ nl
              ++ "    const checkVisitorId = () => {" ++ nl
              ++ "      const currentVisitorId = window.datafast?.getVisitorId();" ++ nl
              ++ "      if (currentVisitorId !== lastVisitorId) {" ++ nl
              ++ "        this.log('Visitor ID changed', { from: lastVisitorId, to: currentVisitorId });" ++ nl
              ++ "        lastVisitorId = currentVisitorId;" ++ nl
              ++ "      }" ++ nl
              ++ "    };" ++ nl
              ++ nl
              ++ "    // Check every 5 seconds" ++ nl
              ++ "    setInterval(checkVisitorId, 5000);" ++ nl
              ++ "  }" ++ nl
              ++ "  "
            else EmptyString) ++ nl
        ++ nl
        ++ "  " ++ (if includes payment_debug features then
              nl
              ++ "  debugPaymentTracking(amount, currency, transactionId, visitorId) {" ++ nl
              ++ "    this.log('Payment tracking initiated', {" ++ nl
              ++ "      amount," ++ nl
              ++ "      currency," ++ nl
              ++ "      transactionId," ++ nl
              ++ "      visitorId," ++ nl
              ++ "    });" ++ nl
              ++ nl
              ++ "    // Simulate payment tracking request" ++ nl
              ++ "    const paymentData = {" ++ nl
              ++ "      amount," ++ nl
              ++ "      currency," ++ nl
              ++ "      transaction_id: transactionId," ++ nl
              ++ "      datafast_visitor_id: visitorId," ++ nl
              ++ "    };" ++ nl
              ++ nl
              ++ "    this.log('Payment data prepared', paymentData);" ++ nl
              ++ nl
              ++ "    // In a real implementation, this would make the API call" ++ nl
              ++ "    return paymentData;" ++ nl
              ++ "  }" ++ nl
              ++ "  "
            else EmptyString) ++ nl
        ++ nl
        ++ "  " ++ (if includes goal_tracking features then
              nl
              ++ "  debugGoalTracking(goalName, metadata, visitorId) {" ++ nl
              ++ "    this.log('Goal tracking initiated', {" ++ nl
              ++ "      goalName," ++ nl
              ++ "      metadata," ++ nl
              ++ "      visitorId," ++ nl
              ++ "    });" ++ nl
              ++ nl
              ++ "    const goalData = {" ++ nl
              ++ "      datafast_visitor_id: visitorId," ++ nl
              ++ "      name: goalName," ++ nl
              ++ "      metadata," ++ nl
              ++ "    };" ++ nl
              ++ nl
              ++ "    this.log('Goal data prepared', goalData);" ++ nl
              ++ "    return goalData;" ++ nl
              ++ "  }" ++ nl
              ++ "  "
            else EmptyString) ++ nl
        ++ nl
        ++ "  " ++ (if includes network_monitoring features then
              nl
              ++ "  monitorNetworkRequests() {" ++ nl
              ++ "    // Monitor fetch requests to DataFast" ++ nl
              ++ "    const originalFetch = window.fetch;" ++ nl
              ++ "    window.fetch = async (...args) => {" ++ nl
              ++ "      const [url, options] = args;" ++ nl
              ++ nl
              ++ "      if (url.includes('datafa.st')) {" ++ nl
              ++ "        this.log('DataFast API request', { url, options });" ++ nl
              ++ "      }" ++ nl
              ++ nl
              ++ "      try {" ++ nl
              ++ "        const response = await originalFetch(...args);" ++ nl
              ++ nl
              ++ "        if (url.includes('datafa.st')) {" ++ nl
              ++ "          this.log('DataFast API response', {" ++ nl
              ++ "            url," ++ nl
              ++ "            status: response.status," ++ nl
              ++ "            statusText: response.statusText," ++ nl
              ++ "          });" ++ nl
              ++ "        }" ++ nl
              ++ nl
              ++ "        return response;" ++ nl
              ++ "      } catch (error) {" ++ nl
              ++ "        if (url.includes('datafa.st')) {" ++ nl
              ++ "          this.error('DataFast API request failed', { url, error });" ++ nl
              ++ "        }" ++ nl
              ++ "        throw error;" ++ nl
              ++ "      }" ++ nl
              ++ "    };" ++ nl
              ++ "  }" ++ nl
              ++ "  "
            else EmptyString) ++ nl
        ++ nl
        ++ "  " ++ (if includes error_tracking features then
              nl
              ++ "  trackErrors() {" ++ nl
              ++ "    window.addEventListener('error', (event) => {" ++ nl
              ++ "      if (event.error && event.error.stack) {" ++ nl
              ++ "        this.error('JavaScript error', {" ++ nl
              ++ "          message: event.error.message," ++ nl
              ++ "          stack: event.error.stack," ++ nl
              ++ "          filename: event.filename," ++ nl
              ++ "          lineno: event.lineno," ++ nl
              ++ "        });" ++ nl
              ++ "      }" ++ nl
              ++ "    });" ++ nl
              ++ nl
              ++ "    window.addEventListener('unhandledrejection', (event) => {" ++ nl
              ++ "      this.error('Unhandled promise rejection', event.reason);" ++ nl
              ++ "    });" ++ nl
              ++ "  }" ++ nl
              ++ "  "
            else EmptyString) ++ nl
        ++ nl
        ++ "  // Export logs for debugging" ++ nl
        ++ "  exportLogs() {" ++ nl
        ++ "    return this.logs;" ++ nl
        ++ "  }" ++ nl
        ++ nl
        ++ "  // Clear logs" ++ nl
        ++ "  clearLogs() {" ++ nl
        ++ "    this.logs = [];" ++ nl
        ++ "  }" ++ nl
        ++ nl
        ++ "  // Enable/disable logging" ++ nl
        ++ "  setEnabled(enabled) {" ++ nl
        ++ "    this.isEnabled = enabled;" ++ nl
        ++ "  }" ++ nl
        ++ "}" ++ nl
        ++ nl
        ++ "// Create global instance" ++ nl
        ++ "if (typeof window !== 'undefined') {" ++ nl
        ++ "  window.dataFastDebugger = new DataFastDebugger();" ++ nl
        ++ nl
        ++ "  " ++ (if includes visitor_tracking features then "window.dataFastDebugger.trackVisitorChanges();" else EmptyString) ++ nl
        ++ "  " ++ (if includes error_tracking features then "window.dataFastDebugger.trackErrors();" else EmptyString) ++ nl
        ++ "}" ++ nl
        ++ nl
        ++ "// Debug helper functions" ++ nl
        ++ "window.debugDataFast = {" ++ nl
        ++ "  logVisitorId: () => window.dataFastDebugger?.logVisitorId()," ++ nl
        ++ "  exportLogs: () => window.dataFastDebugger?.exportLogs()," ++ nl
        ++ "  clearLogs: () => window.dataFastDebugger?.clearLogs()," ++ nl
        ++ "  setEnabled: (enabled) => window.dataFastDebugger?.setEnabled(enabled)," ++ nl
        ++ nl
        ++ "  " ++ (if includes payment_debug features then
              nl
              ++ "  testPayment: (amount = 29.99, currency = 'USD', transactionId = 'test_tx_123') => {" ++ nl
              ++ "    const visitorId = window.datafast?.getVisitorId();" ++ nl
              ++ "    return window.dataFastDebugger?.debugPaymentTracking(amount, currency, transactionId, visitorId);" ++ nl
              ++ "  }," ++ nl
              ++ "  "
            else EmptyString) ++ nl
        ++ nl
        ++ "  " ++ (if includes goal_tracking features then
              nl
              ++ "  testGoal: (goalName = 'test_goal', metadata = { test: true }) => {" ++ nl
              ++ "    const visitorId = window.datafast?.getVisitorId();" ++ nl
              ++ "    return window.dataFastDebugger?.debugGoalTracking(goalName, metadata, visitorId);" ++ nl
              ++ "  }," ++ nl
              ++ "  "
            else EmptyString) ++ nl
        ++ "};" ++ nl
        ++ nl
        ++ "// Console commands" ++ nl
        ++ "console.log('🔍 DataFast debugging enabled. Use these commands:');" ++ nl
        ++ "console.log('  debugDataFast.logVisitorId() - Get current visitor ID');" ++ nl
        ++ "console.log('  debugDataFast.exportLogs() - Export debug logs');" ++ nl
        ++ "console.log('  debugDataFast.clearLogs() - Clear debug logs');" ++ nl
        ++ "console.log('  debugDataFast.setEnabled(false) - Disable debug logging');"
    | server =>
        "// DataFast Server Debugging Tools" ++ nl
        ++ nl
        ++ "import { create_payment, create_goal, get_visitor_data } from './datafast-api.js';" ++ nl
        ++ nl
        ++ "// Debug utility class" ++ nl
        ++ "export class DataFastServerDebugger {" ++ nl
        ++ "  constructor(options = {}) {" ++ nl
        ++ "    this.logs = [];" ++ nl
        ++ "    this.isEnabled = options.enabled !== false;" ++ nl
        ++ "    this.logLevel = options.logLevel || 'info';" ++ nl
        ++ "  }" ++ nl
        ++ nl
        ++ "  log(level, message, data = null) {" ++ nl
        ++ "    const entry = {" ++ nl
        ++ "      timestamp: new Date().toISOString()," ++ nl
        ++ "      level," ++ nl
        ++ "      message," ++ nl
        ++ "      data," ++ nl
        ++ "    };" ++ nl
        ++ nl
        ++ "    this.logs.push(entry);" ++ nl
        ++ nl
        ++ "    if (this.isEnabled && this.shouldLog(level)) {" ++ nl
        ++ "      const logMethod = level === 'error' ? console.error : console.log;" ++ nl
        ++ "      logMethod(`🔍 DataFast ${level.toUpperCase()}: ${message}`, data);" ++ nl
        ++ "    }" ++ nl
        ++ "  }" ++ nl
        ++ nl
        ++ "  shouldLog(level) {" ++ nl
        ++ "    const levels = { debug: 0, info: 1, warn: 2, error: 3 };" ++ nl
        ++ "    return levels[level] >= levels[this.logLevel];" ++ nl
        ++ "  }" ++ nl
        ++ nl
        ++ "  // Test API connectivity" ++ nl
        ++ "  async testConnection() {" ++ nl
        ++ "    try {" ++ nl
        ++ "      this.log('info', 'Testing DataFast API connection...');" ++ nl
        ++ nl
        ++ "      // Test with a dummy visitor ID format" ++ nl
        ++ "      const testVisitorId = '00000000-0000-0000-0000-000000000000';" ++ nl
        ++ nl
        ++ "      const startTime = Date.now();" ++ nl
        ++ "      const response = await fetch(`https://datafa.st/api/v1/visitors/${testVisitorId}`, {" ++ nl
        ++ "        method: 'GET'," ++ nl
        ++ "        headers: {" ++ nl
        ++ "          'Authorization': `Bearer ${process.env.DATAFAST_API_KEY || 'test_key'}`," ++ nl
        ++ "          'Content-Type': 'application/json'," ++ nl
        ++ "        }," ++ nl
        ++ "      });" ++ nl
        ++ "      const endTime = Date.now();" ++ nl
        ++ nl
        ++ "      this.log('info', `Connection test completed in ${endTime - startTime}ms`, {" ++ nl
        ++ "        status: response.status," ++ nl
        ++ "        statusText: response.statusText," ++ nl
        ++ "      });" ++ nl
        ++ nl
        ++ "      return {" ++ nl
        ++ "        success: response.status === 401, // 401 means API key auth works but visitor doesn't exist" ++ nl
        ++ "        responseTime: endTime - startTime," ++ nl
        ++ "        status: response.status," ++ nl
        ++ "      };" ++ nl
        ++ "    } catch (error) {" ++ nl
        ++ "      this.log('error', 'Connection test failed', error);" ++ nl
        ++ "      return { success: false, error: error.message };" ++ nl
        ++ "    }" ++ nl
        ++ "  }" ++ nl
        ++ nl
        ++ "  // Debug payment tracking" ++ nl
        ++ "  async debugPaymentTracking(paymentData) {" ++ nl
        ++ "    this.log('info', 'Debug payment tracking', paymentData);" ++ nl
        ++ nl
        ++ "    try {" ++ nl
        ++ "      // Validate payment data" ++ nl
        ++ "      const validation = this.validatePaymentData(paymentData);" ++ nl
        ++ "      if (!validation.valid) {" ++ nl
        ++ "        this.log('error', 'Payment data validation failed', validation.errors);" ++ nl
        ++ "        return { success: false, errors: validation.errors };" ++ nl
        ++ "      }" ++ nl
        ++ nl
        ++ "      // Simulate API call" ++ nl
        ++ "      this.log('info', 'Payment data validated, simulating API call...');" ++ nl
        ++ nl
        ++ "      const result = await create_payment(paymentData);" ++ nl
        ++ "      this.log('info', 'Payment tracking result', result);" ++ nl
        ++ nl
        ++ "      return { success: true, result };" ++ nl
        ++ "    } catch (error) {" ++ nl
        ++ "      this.log('error', 'Payment tracking failed', error);" ++ nl
        ++ "      return { success: false, error: error.message };" ++ nl
        ++ "    }" ++ nl
        ++ "  }" ++ nl
        ++ nl
        ++ "  // Debug goal tracking" ++ nl
        ++ "  async debugGoalTracking(goalData) {" ++ nl
        ++ "    this.log('info', 'Debug goal tracking', goalData);" ++ nl
        ++ nl
        ++ "    try {" ++ nl
        ++ "      const validation = this.validateGoalData(goalData);" ++ nl
        ++ "      if (!validation.valid) {" ++ nl
        ++ "        this.log('error', 'Goal data validation failed', validation.errors);" ++ nl
        ++ "        return { success: false, errors: validation.errors };" ++ nl
        ++ "      }" ++ nl
        ++ nl
        ++ "      const result = await create_goal(goalData);" ++ nl
        ++ "      this.log('info', 'Goal tracking result', result);" ++ nl
        ++ nl
        ++ "      return { success: true, result };" ++ nl
        ++ "    } catch (error) {" ++ nl
        ++ "      this.log('error', 'Goal tracking failed', error);" ++ nl
        ++ "      return { success: false, error: error.message };" ++ nl
        ++ "    }" ++ nl
        ++ "  }" ++ nl
        ++ nl
        ++ "  // Validate payment data" ++ nl
        ++ "  validatePaymentData(data) {" ++ nl
        ++ "    const errors = [];" ++ nl
        ++ nl
        ++ "    if (!data.amount || typeof data.amount !== 'number' || data.amount <= 0) {" ++ nl
        ++ "      errors.push('Invalid amount: must be a positive number');" ++ nl
        ++ "    }" ++ nl
        ++ nl
        ++ "    if (!data.currency || typeof data.currency !== 'string' || data.currency.length !== 3) {" ++ nl
        ++ "      errors.push('Invalid currency: must be a 3-letter currency code');" ++ nl
        ++ "    }" ++ nl
        ++ nl
        ++ "    if (!data.transaction_id || typeof data.transaction_id !== 'string') {" ++ nl
        ++ "      errors.push('Invalid transaction_id: must be a non-empty string');" ++ nl
        ++ "    }" ++ nl
        ++ nl
        ++ "    if (!data.datafast_visitor_id || typeof data.datafast_visitor_id !== 'string') {" ++ nl
        ++ "      errors.push('Invalid datafast_visitor_id: must be a non-empty string');" ++ nl
        ++ "    }" ++ nl
        ++ nl
        ++ "    return {" ++ nl
        ++ "      valid: errors.length === 0," ++ nl
        ++ "      errors," ++ nl
        ++ "    };" ++ nl
        ++ "  }" ++ nl
        ++ nl
        ++ "  // Validate goal data" ++ nl
        ++ "  validateGoalData(data) {" ++ nl
        ++ "    const errors = [];" ++ nl
        ++ nl
        ++ "    if (!data.datafast_visitor_id || typeof data.datafast_visitor_id !== 'string') {" ++ nl
        ++ "      errors.push('Invalid datafast_visitor_id: must be a non-empty string');" ++ nl
        ++ "    }" ++ nl
        ++ nl
        ++ "    if (!data.name || typeof data.name !== 'string' || data.name.length === 0) {" ++ nl
        ++ "      errors.push('Invalid goal name: must be a non-empty string');" ++ nl
        ++ "    }" ++ nl
        ++ nl
        ++ "    if (data.name && data.name.length > 32) {" ++ nl
        ++ "      errors.push('Goal name too long: maximum 32 characters');" ++ nl
        ++ "    }" ++ nl
        ++ nl
        ++ "    if (data.metadata && typeof data.metadata !== 'object') {" ++ nl
        ++ "      errors.push('Invalid metadata: must be an object');" ++ nl
        ++ "    }" ++ nl
        ++ nl
        ++ "    return {" ++ nl
        ++ "      valid: errors.length === 0," ++ nl
        ++ "      errors," ++ nl
        ++ "    };" ++ nl
        ++ "  }" ++ nl
        ++ nl
        ++ "  // Performance monitoring" ++ nl
        ++ "  async monitorPerformance(operation, fn) {" ++ nl
        ++ "    const startTime = Date.now();" ++ nl
        ++ "    this.log('debug', `Starting ${operation}`);" ++ nl
        ++ nl
        ++ "    try {" ++ nl
        ++ "      const result = await fn();" ++ nl
        ++ "      const endTime = Date.now();" ++ nl
        ++ nl
        ++ "      this.log('debug', `Completed ${operation} in ${endTime - startTime}ms`, {" ++ nl
        ++ "        duration: endTime - startTime," ++ nl
        ++ "        success: true," ++ nl
        ++ "      });" ++ nl
        ++ nl
        ++ "      return result;" ++ nl
        ++ "    } catch (error) {" ++ nl
        ++ "      const endTime = Date.now();" ++ nl
        ++ "      this.log('error', `Failed ${operation} in ${endTime - startTime}ms`, {" ++ nl
        ++ "        duration: endTime - startTime," ++ nl
        ++ "        error: error.message," ++ nl
        ++ "      });" ++ nl
        ++ "      throw error;" ++ nl
        ++ "    }" ++ nl
        ++ "  }" ++ nl
        ++ nl
        ++ "  // Export logs" ++ nl
        ++ "  exportLogs() {" ++ nl
        ++ "    return this.logs;" ++ nl
        ++ "  }" ++ nl
        ++ nl
        ++ "  clearLogs() {" ++ nl
        ++ "    this.logs = [];" ++ nl
        ++ "  }" ++ nl
        ++ nl
        ++ "  setLogLevel(level) {" ++ nl
        ++ "    this.logLevel = level;" ++ nl
        ++ "  }" ++ nl
        ++ "}" ++ nl
        ++ nl
        ++ "// Export singleton instance" ++ nl
        ++ "export const debuggerInstance = new DataFastServerDebugger({" ++ nl
        ++ "  enabled: process.env.NODE_ENV !== 'production'," ++ nl
        ++ "  logLevel: process.env.DATAFAST_LOG_LEVEL || 'info'," ++ nl
        ++ "});" ++ nl
        ++ nl
        ++ "// Debug helper functions" ++ nl
        ++ "export const debugDataFast = {" ++ nl
        ++ "  testConnection: () => debuggerInstance.testConnection()," ++ nl
        ++ "  debugPayment: (data) => debuggerInstance.debugPaymentTracking(data)," ++ nl
        ++ "  debugGoal: (data) => debuggerInstance.debugGoalTracking(data)," ++ nl
        ++ "  exportLogs: () => debuggerInstance.exportLogs()," ++ nl
        ++ "  clearLogs: () => debuggerInstance.clearLogs()," ++ nl
        ++ "  validatePayment: (data) => debuggerInstance.validatePaymentData(data)," ++ nl
        ++ "  validateGoal: (data) => debuggerInstance.validateGoalData(data)," ++ nl
        ++ "  monitorPerformance: (op, fn) => debuggerInstance.monitorPerformance(op, fn)," ++ nl
        ++ "};" ++ nl
        ++ nl
        ++ "// Auto-test connection on module load (in development)" ++ nl
        ++ "if (process.env.NODE_ENV === 'development') {" ++ nl
        ++ "  setTimeout(() => {" ++ nl
        ++ "    debuggerInstance.testConnection().then(result => {" ++ nl
        ++ "      if (result.success) {" ++ nl
        ++ "        console.log('✅ DataFast API connection test passed');" ++ nl
        ++ "      } else {" ++ nl
        ++ "        console.log('❌ DataFast API connection test failed:', result);" ++ nl
        ++ "      }" ++ nl
        ++ "    });" ++ nl
        ++ "  }, 1000);" ++ nl
        ++ "}"
    | mobile =>
        "// DataFast Mobile Debugging Tools (React Native)" ++ nl
        ++ nl
        ++ "// DataFastMobileDebugger.js" ++ nl
        ++ "import AsyncStorage from '@react-native-async-storage/async-storage';" ++ nl
        ++ nl
        ++ "export class DataFastMobileDebugger {" ++ nl
        ++ "  constructor() {" ++ nl
        ++ "    this.logs = [];" ++ nl
        ++ "    this.isEnabled = __DEV__; // Only enable in development" ++ nl
        ++ "    this.sessionId = this.generateSessionId();" ++ nl
        ++ "  }" ++ nl
        ++ nl
        ++ "  generateSessionId() {" ++ nl
        ++ "    return `session_${Date.now()}_${Math.random().toString(36).substr(2, 9)}`;" ++ nl
        ++ "  }" ++ nl
        ++ nl
        ++ "  log(level, message, data = null) {" ++ nl
        ++ "    const entry = {" ++ nl
        ++ "      timestamp: new Date().toISOString()," ++ nl
        ++ "      level," ++ nl
        ++ "      message," ++ nl
        ++ "      data," ++ nl
        ++ "      sessionId: this.sessionId," ++ nl
        ++ "      platform: 'mobile'," ++ nl
        ++ "    };" ++ nl
        ++ nl
        ++ "    this.logs.push(entry);" ++ nl
        ++ nl
        ++ "    if (this.isEnabled) {" ++ nl
        ++ "      const logMethod = level === 'error' ? console.error : console.log;" ++ nl
        ++ "      logMethod(`🔍 DataFast ${level.toUpperCase()}: ${message}`, data);" ++ nl
        ++ "    }" ++ nl
        ++ nl
        ++ "    // Persist logs" ++ nl
        ++ "    this.persistLogs();" ++ nl
        ++ "  }" ++ nl
        ++ nl
        ++ "  async persistLogs() {" ++ nl
        ++ "    try {" ++ nl
        ++ "      await AsyncStorage.setItem('datafast_debug_logs', JSON.stringify(this.logs));" ++ nl
        ++ "    } catch (error) {" ++ nl
        ++ "      console.error('Failed to persist debug logs:', error);" ++ nl
        ++ "    }" ++ nl
        ++ "  }" ++ nl
        ++ nl
        ++ "  async loadPersistedLogs() {" ++ nl
        ++ "    try {" ++ nl
        ++ "      const logs = await AsyncStorage.getItem('datafast_debug_logs');" ++ nl
        ++ "      if (logs) {" ++ nl
        ++ "        this.logs = JSON.parse(logs);" ++ nl
        ++ "      }" ++ nl
        ++ "    } catch (error) {" ++ nl
        ++ "      console.error('Failed to load debug logs:', error);" ++ nl
        ++ "    }" ++ nl
        ++ "  }" ++ nl
        ++ nl
        ++ "  // Mobile-specific debugging" ++ nl
        ++ "  debugVisitorId(visitorId) {" ++ nl
        ++ "    this.log('info', 'Visitor ID retrieved', visitorId);" ++ nl
        ++ nl
        ++ "    // Validate UUID format" ++ nl
        ++ "    const uuidRegex = /^[0-9a-f]{8}-[0-9a-f]{4}-[0-9a-f]{4}-[0-9a-f]{4}-[0-9a-f]{12}$/i;" ++ nl
        ++ "    if (!uuidRegex.test(visitorId)) {" ++ nl
        ++ "      this.log('warn', 'Visitor ID does not match expected UUID format', visitorId);" ++ nl
        ++ "    }" ++ nl
        ++ nl
        ++ "    return visitorId;" ++ nl
        ++ "  }" ++ nl
        ++ nl
        ++ "  debugPaymentTracking(paymentData) {" ++ nl
        ++ "    this.log('info', 'Payment tracking initiated', paymentData);" ++ nl
        ++ nl
        ++ "    // Validate payment data for mobile context" ++ nl
        ++ "    const validation = this.validatePaymentData(paymentData);" ++ nl
        ++ "    if (!validation.valid) {" ++ nl
        ++ "      this.log('error', 'Payment data validation failed', validation.errors);" ++ nl
        ++ "      return { success: false, errors: validation.errors };" ++ nl
        ++ "    }" ++ nl
        ++ nl
        ++ "    // Simulate network conditions" ++ nl
        ++ "    this.simulateNetworkConditions(paymentData);" ++ nl
        ++ nl
        ++ "    return { success: true, data: paymentData };" ++ nl
        ++ "  }" ++ nl
        ++ nl
        ++ "  validatePaymentData(data) {" ++ nl
        ++ "    const errors = [];" ++ nl
        ++ nl
        ++ "    if (!data.amount || typeof data.amount !== 'number' || data.amount <= 0) {" ++ nl
        ++ "      errors.push('Invalid amount: must be a positive number');" ++ nl
        ++ "    }" ++ nl
        ++ nl
        ++ "    if (!data.currency || typeof data.currency !== 'string' || data.currency.length !== 3) {" ++ nl
        ++ "      errors.push('Invalid currency: must be a 3-letter currency code');" ++ nl
        ++ "    }" ++ nl
        ++ nl
        ++ "    if (!data.transaction_id || typeof data.transaction_id !== 'string') {" ++ nl
        ++ "      errors.push('Invalid transaction_id: must be a non-empty string');" ++ nl
        ++ "    }" ++ nl
        ++ nl
        ++ "    if (!data.datafast_visitor_id || typeof data.datafast_visitor_id !== 'string') {" ++ nl
        ++ "      errors.push('Invalid datafast_visitor_id: must be a non-empty string');" ++ nl
        ++ "    }" ++ nl
        ++ nl
        ++ "    return {" ++ nl
        ++ "      valid: errors.length === 0," ++ nl
        ++ "      errors," ++ nl
        ++ "    };" ++ nl
        ++ "  }" ++ nl
        ++ nl
        ++ "  simulateNetworkConditions(data) {" ++ nl
        ++ "    // Simulate different network conditions for testing" ++ nl
        ++ "    const conditions = ['fast', 'slow', 'unstable'];" ++ nl
        ++ "    const condition = conditions[Math.floor(Math.random() * conditions.length)];" ++ nl
        ++ nl
        ++ "    this.log('debug', `Simulating ${condition} network condition`);" ++ nl
        ++ nl
        ++ "    if (condition === 'slow') {" ++ nl
        ++ "      // Simulate slow network" ++ nl
        ++ "      this.log('debug', 'Slow network simulation - payment would take longer');" ++ nl
        ++ "    } else if (condition === 'unstable') {" ++ nl
        ++ "      // Simulate network failure" ++ nl
        ++ "      if (Math.random() < 0.1) { // 10% failure rate" ++ nl
        ++ "        this.log('error', 'Network failure simulation - payment would fail');" ++ nl
        ++ "      }" ++ nl
        ++ "    }" ++ nl
        ++ "  }" ++ nl
        ++ nl
        ++ "  debugGoalTracking(goalData) {" ++ nl
        ++ "    this.log('info', 'Goal tracking initiated', goalData);" ++ nl
        ++ nl
        ++ "    const validation = this.validateGoalData(goalData);" ++ nl
        ++ "    if (!validation.valid) {" ++ nl
        ++ "      this.log('error', 'Goal data validation failed', validation.errors);" ++ nl
        ++ "      return { success: false, errors: validation.errors };" ++ nl
        ++ "    }" ++ nl
        ++ nl
        ++ "    return { success: true, data: goalData };" ++ nl
        ++ "  }" ++ nl
        ++ nl
        ++ "  validateGoalData(data) {" ++ nl
        ++ "    const errors = [];" ++ nl
        ++ nl
        ++ "    if (!data.datafast_visitor_id || typeof data.datafast_visitor_id !== 'string') {" ++ nl
        ++ "      errors.push('Invalid datafast_visitor_id: must be a non-empty string');" ++ nl
        ++ "    }" ++ nl
        ++ nl
        ++ "    if (!data.name || typeof data.name !== 'string' || data.name.length === 0) {" ++ nl
        ++ "      errors.push('Invalid goal name: must be a non-empty string');" ++ nl
        ++ "    }" ++ nl
        ++ nl
        ++ "    if (data.name && data.name.length > 32) {" ++ nl
        ++ "      errors.push('Goal name too long: maximum 32 characters');" ++ nl
        ++ "    }" ++ nl
        ++ nl
        ++ "    if (data.metadata && typeof data.metadata !== 'object') {" ++ nl
        ++ "      errors.push('Invalid metadata: must be an object');" ++ nl
        ++ "    }" ++ nl
        ++ nl
        ++ "    return {" ++ nl
        ++ "      valid: errors.length === 0," ++ nl
        ++ "      errors," ++ nl
        ++ "    };" ++ nl
        ++ "  }" ++ nl
        ++ nl
        ++ "  // Monitor app state changes" ++ nl
        ++ "  monitorAppState() {" ++ nl
        ++ "    // This would integrate with React Native's AppState" ++ nl
        ++ "    this.log('debug', 'App state monitoring enabled');" ++ nl
        ++ "  }" ++ nl
        ++ nl
        ++ "  // Debug offline scenarios" ++ nl
        ++ "  debugOfflineMode(data) {" ++ nl
        ++ "    this.log('info', 'Testing offline mode behavior', data);" ++ nl
        ++ "    // Simulate offline storage" ++ nl
        ++ "    this.log('debug', 'Data would be stored locally until connection restored');" ++ nl
        ++ "  }" ++ nl
        ++ nl
        ++ "  // Export logs for debugging" ++ nl
        ++ "  exportLogs() {" ++ nl
        ++ "    return {" ++ nl
        ++ "      sessionId: this.sessionId," ++ nl
        ++ "      logs: this.logs," ++ nl
        ++ "      deviceInfo: {" ++ nl
        ++ "        platform: 'mobile'," ++ nl
        ++ "        timestamp: new Date().toISOString()," ++ nl
        ++ "      }," ++ nl
        ++ "    };" ++ nl
        ++ "  }" ++ nl
        ++ nl
        ++ "  clearLogs() {" ++ nl
        ++ "    this.logs = [];" ++ nl
        ++ "    AsyncStorage.removeItem('datafast_debug_logs');" ++ nl
        ++ "  }" ++ nl
        ++ "}" ++ nl
        ++ nl
        ++ "// Create global instance" ++ nl
        ++ "let debuggerInstance = null;" ++ nl
        ++ nl
        ++ "export const getDataFastDebugger = () => {" ++ nl
        ++ "  if (!debuggerInstance) {" ++ nl
        ++ "    debuggerInstance = new DataFastMobileDebugger();" ++ nl
        ++ "  }" ++ nl
        ++ "  return debuggerInstance;" ++ nl
        ++ "};" ++ nl
        ++ nl
        ++ "// Debug helper functions" ++ nl
        ++ "export const debugDataFast = {" ++ nl
        ++ "  getVisitorId: () => {" ++ nl
        ++ "    // This would integrate with your mobile DataFast SDK" ++ nl
        ++ "    const mockId = `mobile_visitor_${Date.now()}`;" ++ nl
        ++ "    getDataFastDebugger().debugVisitorId(mockId);" ++ nl
        ++ "    return mockId;" ++ nl
        ++ "  }," ++ nl
        ++ nl
        ++ "  testPayment: (data) => getDataFastDebugger().debugPaymentTracking(data)," ++ nl
        ++ "  testGoal: (data) => getDataFastDebugger().debugGoalTracking(data)," ++ nl
        ++ nl
        ++ "  exportLogs: () => getDataFastDebugger().exportLogs()," ++ nl
        ++ "  clearLogs: () => getDataFastDebugger().clearLogs()," ++ nl
        ++ nl
        ++ "  simulateOffline: (data) => getDataFastDebugger().debugOfflineMode(data)," ++ nl
        ++ nl
        ++ "  validatePayment: (data) => getDataFastDebugger().validatePaymentData(data)," ++ nl
        ++ "  validateGoal: (data) => getDataFastDebugger().validateGoalData(data)," ++ nl
        ++ "};" ++ nl
        ++ nl
        ++ "// Console commands for React Native debugging" ++ nl
        ++ "if (__DEV__) {" ++ nl
        ++ "  console.log('🔍 DataFast mobile debugging enabled. Use:');" ++ nl
        ++ "  console.log('  debugDataFast.testPayment({ amount: 29.99, currency: " ++ dq ++ "USD" ++ dq ++ ", transaction_id: " ++ dq ++ "test" ++ dq ++ ", datafast_visitor_id: " ++ dq ++ "test" ++ dq ++ " })');" ++ nl
        ++ "  console.log('  debugDataFast.testGoal({ name: " ++ dq ++ "test_goal" ++ dq ++ ", datafast_visitor_id: " ++ dq ++ "test" ++ dq ++ " })');" ++ nl
        ++ "  console.log('  debugDataFast.exportLogs()');" ++ nl
        ++ "}"
    end in
  {| content :=
       [{| type := "text";
           text :=
             "Here's the debugging tools for " ++ platform_key platform ++ ":" ++ nl
             ++ nl
             ++ code ++ nl
             ++ nl
             ++ "💡 These debugging tools will help you troubleshoot DataFast integration issues, validate data, and monitor performance." |}];
     isError := None |}.

End generate_debugging_tools.

End Analytics.

(** ** The onboarding agent

    Its handlers have no [try]: a rejected [fetch] or a faulting property
    read completes the handler abruptly. *)

Module Setup.

Module create_goal.

Record Params : Type := {
  visitorId : string;
  name : string;
  metadata : option (list (string * string))
}.

Definition request_object (params : Params) : value :=
  literal
    [ prop "datafast_visitor_id" (VStr (visitorId params));
      prop "name" (VStr (name params));
      prop "metadata" (undefined_or record_of (metadata params)) ].

Definition handler (props : Props) (params : Params) : M Envelope :=
  response <- fetch "https://datafa.st/api/v1/goals"
                {| method := "POST";
                   headers := bearer_json (apiKey props);
                   body := Some (JSON_stringify (request_object params)) |} ;;
  if negb (ok response) then
    message <- eval (Analytics.error_message response) ;;
    ret {| content :=
             [{| type := "text";
                 text := "‚ùå **Goal Creation Failed**" ++ nl ++ "Error "
                         ++ string_of_Z (status response) ++ ": " ++ ToString message
                         ++ nl ++ nl ++ "**Common issues:**" ++ nl
                         ++ "- Visitor must have at least one prior pageview" ++ nl
                         ++ "- Goal name must be lowercase, max 32 characters" ++ nl
                         ++ "- Invalid visitor ID" |}];
           isError := Some true |}
  else
    result <- eval (json response) ;;
    event_id <- eval (get result "event_id") ;;
    message <- eval (get result "message") ;;
    ret {| content :=
             [{| type := "text";
                 text := "‚úÖ **Goal " ++ dq ++ name params ++ dq
                         ++ " Created Successfully!**" ++ nl ++ nl ++ "Event ID: "
                         ++ ToString event_id ++ nl ++ "Message: " ++ ToString message
                         ++ nl ++ nl
                         ++ "üéØ This goal will now be tracked in your DataFa.st analytics dashboard." |}];
           isError := None |}.

End create_goal.

Module track_payment.

Record Params : Type := {
  visitorId : string;
  amount : float;
  currency : string;
  transactionId : string;
  email : option string;
  name : option string;
  customerId : option string;
  renewal : option bool;
  refunded : option bool
}.

Definition request_object (params : Params) : value :=
  literal
    [ prop "datafast_visitor_id" (VStr (visitorId params));
      prop "amount" (VNum (amount params));
      prop "currency" (VStr (currency params));
      prop "transaction_id" (VStr (transactionId params));
      prop "email" (undefined_or VStr (email params));
      prop "name" (undefined_or VStr (name params));
      prop "customer_id" (undefined_or VStr (customerId params));
      prop "renewal" (undefined_or VBool (renewal params));
      prop "refunded" (undefined_or VBool (refunded params)) ].

Definition handler (props : Props) (params : Params) : M Envelope :=
  response <- fetch "https://datafa.st/api/v1/payments"
                {| method := "POST";
                   headers := bearer_json (apiKey props);
                   body := Some (JSON_stringify (request_object params)) |} ;;
  if negb (ok response) then
    message <- eval (Analytics.error_message response) ;;
    ret {| content :=
             [{| type := "text";
                 text := "‚ùå **Payment Tracking Failed**" ++ nl ++ "Error "
                         ++ string_of_Z (status response) ++ ": " ++ ToString message
                         ++ nl ++ nl ++ "**Common issues:**" ++ nl
                         ++ "- Invalid visitor ID" ++ nl ++ "- Duplicate transaction ID"
                         ++ nl ++ "- Invalid currency code" ++ nl
                         ++ "- Missing required fields" |}];
           isError := Some true |}
  else
    result <- eval (json response) ;;
    transaction_id <- eval (get result "transaction_id") ;;
    message <- eval (get result "message") ;;
    ret {| content :=
             [{| type := "text";
                 text := "üí∞ **Payment Tracked Successfully!**" ++ nl ++ nl
                         ++ "Transaction ID: " ++ ToString transaction_id ++ nl
                         ++ "Amount: " ++ Number.toString (amount params) ++ " "
                         ++ currency params ++ nl ++ "Message: " ++ ToString message
                         ++ nl ++ nl
                         ++ "üìä This revenue is now attributed to the visitor's traffic source in your DataFa.st dashboard." |}];
           isError := None |}.

End track_payment.

Module get_visitor_data.

Record Params : Type := { visitorId : string }.

Definition identity_section (data : value) : completion string :=
  identity <- get data "identity" ;;
  city <- get identity "city" ;;
  region <- get identity "region" ;;
  country <- get identity "country" ;;
  browser <- get identity "browser" ;;
  device_type <- get identity "device_type" ;;
  os <- get identity "os" ;;
  ret ("**üåç Identity & Location:**" ++ nl
       ++ "‚Ä¢ Location: " ++ ToString city ++ ", " ++ ToString region ++ ", "
          ++ ToString country ++ nl
       ++ "‚Ä¢ Browser: " ++ ToString browser ++ nl
       ++ "‚Ä¢ Device: " ++ ToString device_type ++ nl
       ++ "‚Ä¢ OS: " ++ ToString os ++ nl ++ nl).

Definition activity_section (h : Host) (data : value) : completion string :=
  activity <- get data "activity" ;;
  visit_count <- get activity "visit_count" ;;
  pageview_count <- get activity "pageview_count" ;;
  first_visit <- get activity "first_visit" ;;
  last_visit <- get activity "last_visit" ;;
  current_url <- get activity "current_url" ;;
  let response_text :=
    "**üìä Activity:**" ++ nl
    ++ "‚Ä¢ Visits: " ++ ToString visit_count ++ nl
    ++ "‚Ä¢ Pageviews: " ++ ToString pageview_count ++ nl
    ++ "‚Ä¢ First visit: " ++ ToString first_visit ++ nl
    ++ "‚Ä¢ Last visit: " ++ ToString last_visit ++ nl
    ++ "‚Ä¢ Current URL: " ++ ToString current_url ++ nl in
  goals <- get activity "goals" ;;
  len <- get goals "length" ;;
  if PrimFloat.ltb 0%float (number_of h len) then
    names <- names_joined "data.activity.goals" goals ", " ;;
    ret (response_text ++ "‚Ä¢ Completed goals: " ++ names ++ nl)
  else ret response_text.

(** The recommendation drawn from [conversion_score]. *)
Definition insight (score : float) : string :=
  if PrimFloat.ltb score 30%float then
    "üí° **Recommendation:** Low conversion likelihood - consider showing lead magnets or special offers."
    ++ nl
  else if PrimFloat.ltb 70%float score then
    "üí° **Recommendation:** High conversion potential - create urgency or showcase premium features."
    ++ nl
  else EmptyString.

Definition prediction_section (h : Host) (data : value) : completion string :=
  prediction <- get data "prediction" ;;
  conversion_score <- get prediction "conversion_score" ;;
  conversion_rate <- get prediction "conversion_rate" ;;
  let rate := Analytics.percent h conversion_rate 1 in
  expected_revenue <- get prediction "expected_revenue" ;;
  revenue <- toFixed "data.prediction.expected_revenue" expected_revenue 2 ;;
  confidence <- get prediction "confidence" ;;
  let conf := Analytics.percent h confidence 1 in
  let score := number_of h conversion_score in
  ret (nl ++ "**üéØ Conversion Prediction:**" ++ nl
       ++ "‚Ä¢ Conversion Score: " ++ ToString conversion_score ++ "/100" ++ nl
       ++ "‚Ä¢ Conversion Rate: " ++ rate ++ "%" ++ nl
       ++ "‚Ä¢ Expected Revenue: $" ++ revenue ++ nl
       ++ "‚Ä¢ Confidence: " ++ conf ++ "%" ++ nl ++ nl
       ++ insight score).

Definition handler (props : Props) (params : Params) : M Envelope :=
  response <- fetch ("https://datafa.st/api/v1/visitors/" ++ visitorId params)
                {| method := "GET";
                   headers := bearer_json (apiKey props);
                   body := None |} ;;
  if negb (ok response) then
    message <- eval (Analytics.error_message response) ;;
    ret {| content :=
             [{| type := "text";
                 text := "‚ùå **Visitor Data Retrieval Failed**" ++ nl ++ "Error "
                         ++ string_of_Z (status response) ++ ": " ++ ToString message
                         ++ nl ++ nl ++ "**Common issues:**" ++ nl
                         ++ "- Invalid visitor ID" ++ nl ++ "- Visitor not found" ++ nl
                         ++ "- API key permissions" |}];
           isError := Some true |}
  else
    data <- eval (json response) ;;
    let response_text := "üë§ **Visitor Analytics Data**" ++ nl ++ nl in
    h <- ask host ;;
    identity_part <- eval (identity_section data) ;;
    activity_part <- eval (activity_section h data) ;;
    prediction_part <- eval (prediction_section h data) ;;
    ret {| content :=
             [{| type := "text";
                 text := response_text ++ identity_part ++ activity_part
                         ++ prediction_part |}];
           isError := None |}.

End get_visitor_data.

(** *** The frameworks the onboarding agent knows *)

Inductive FrameworkType : Type :=
| nextjs | vue | react | angular | laravel | django | astro | svelte | nuxt | vanilla.

(** The key of a framework in [frameworks], and the keys in the order
    [Object.entries] lists them. *)
Definition key (framework : FrameworkType) : string :=
  match framework with
  | nextjs => "nextjs"
  | vue => "vue"
  | react => "react"
  | angular => "angular"
  | laravel => "laravel"
  | django => "django"
  | astro => "astro"
  | svelte => "svelte"
  | nuxt => "nuxt"
  | vanilla => "vanilla"
  end.


Record FrameworkConfig : Type := {
  name : string;
  scriptTemplate : string;
  proxyTemplate : option string;
  installInstructions : string
}.

Definition frameworks (framework : FrameworkType) : FrameworkConfig :=
  match framework with
  | nextjs =>
      {| name := "Next.js";
         scriptTemplate :=
           "// Add to your _app.js or layout.js" ++ nl
           ++ "<Script" ++ nl
           ++ "  defer" ++ nl
           ++ "  data-website-id=" ++ dq ++ "{WEBSITE_ID}" ++ dq ++ nl
           ++ "  data-domain=" ++ dq ++ "{DOMAIN}" ++ dq ++ nl
           ++ "  src=" ++ dq ++ "{SCRIPT_SRC}" ++ dq ++ nl
           ++ "/>";
         proxyTemplate :=
           Some ("// next.config.js" ++ nl
                 ++ "module.exports = {" ++ nl
                 ++ "  async rewrites() {" ++ nl
                 ++ "    return [" ++ nl
                 ++ "      {" ++ nl
                 ++ "        source: '/js/script.js'," ++ nl
                 ++ "        destination: 'https://datafa.st/js/script.js'" ++ nl
                 ++ "      }," ++ nl
                 ++ "      {" ++ nl
                 ++ "        source: '/api/events'," ++ nl
                 ++ "        destination: 'https://datafa.st/api/events'" ++ nl
                 ++ "      }" ++ nl
                 ++ "    ]" ++ nl
                 ++ "  }" ++ nl
                 ++ "}");
         installInstructions :=
           "Import Script from " ++ dq ++ "next/script" ++ dq
           ++ " and add the tracking script to your _app.js or root layout." |}
  | vue =>
      {| name := "Vue.js";
         scriptTemplate :=
           "<!-- Add to your index.html or main component -->" ++ nl
           ++ "<script" ++ nl
           ++ "  defer" ++ nl
           ++ "  data-website-id=" ++ dq ++ "{WEBSITE_ID}" ++ dq ++ nl
           ++ "  data-domain=" ++ dq ++ "{DOMAIN}" ++ dq ++ nl
           ++ "  src=" ++ dq ++ "{SCRIPT_SRC}" ++ dq ++ nl
           ++ "></script>";
         proxyTemplate :=
           Some ("// vue.config.js" ++ nl
                 ++ "module.exports = {" ++ nl
                 ++ "  devServer: {" ++ nl
                 ++ "    proxy: {" ++ nl
                 ++ "      '/js/script.js': {" ++ nl
                 ++ "        target: 'https://datafa.st'," ++ nl
                 ++ "        changeOrigin: true" ++ nl
                 ++ "      }," ++ nl
                 ++ "      '/api/events': {" ++ nl
                 ++ "        target: 'https://datafa.st'," ++ nl
                 ++ "        changeOrigin: true" ++ nl
                 ++ "      }" ++ nl
                 ++ "    }" ++ nl
                 ++ "  }" ++ nl
                 ++ "}");
         installInstructions :=
           "Add the script tag to your public/index.html or main App.vue component." |}
  | react =>
      {| name := "React";
         scriptTemplate :=
           "// Add to your index.html or App.js" ++ nl
           ++ "<script" ++ nl
           ++ "  defer" ++ nl
           ++ "  data-website-id=" ++ dq ++ "{WEBSITE_ID}" ++ dq ++ nl
           ++ "  data-domain=" ++ dq ++ "{DOMAIN}" ++ dq ++ nl
           ++ "  src=" ++ dq ++ "{SCRIPT_SRC}" ++ dq ++ nl
           ++ "></script>";
         proxyTemplate := None;
         installInstructions :=
           "Add the script tag to your public/index.html file in the <head> section." |}
  | angular =>
      {| name := "Angular";
         scriptTemplate :=
           "<!-- Add to your index.html -->" ++ nl
           ++ "<script" ++ nl
           ++ "  defer" ++ nl
           ++ "  data-website-id=" ++ dq ++ "{WEBSITE_ID}" ++ dq ++ nl
           ++ "  data-domain=" ++ dq ++ "{DOMAIN}" ++ dq ++ nl
           ++ "  src=" ++ dq ++ "{SCRIPT_SRC}" ++ dq ++ nl
           ++ "></script>";
         proxyTemplate := None;
         installInstructions :=
           "Add the script tag to your src/index.html file in the <head> section." |}
  | laravel =>
      {| name := "Laravel";
         scriptTemplate :=
           "{{-- Add to your blade template --}}" ++ nl
           ++ "<script" ++ nl
           ++ "  defer" ++ nl
           ++ "  data-website-id=" ++ dq ++ "{WEBSITE_ID}" ++ dq ++ nl
           ++ "  data-domain=" ++ dq ++ "{DOMAIN}" ++ dq ++ nl
           ++ "  src=" ++ dq ++ "{SCRIPT_SRC}" ++ dq ++ nl
           ++ "></script>";
         proxyTemplate := None;
         installInstructions :=
           "Add the script tag to your main layout blade template (e.g., app.blade.php)." |}
  | django =>
      {| name := "Django";
         scriptTemplate :=
           "<!-- Add to your base template -->" ++ nl
           ++ "<script" ++ nl
           ++ "  defer" ++ nl
           ++ "  data-website-id=" ++ dq ++ "{WEBSITE_ID}" ++ dq ++ nl
           ++ "  data-domain=" ++ dq ++ "{DOMAIN}" ++ dq ++ nl
           ++ "  src=" ++ dq ++ "{SCRIPT_SRC}" ++ dq ++ nl
           ++ "></script>";
         proxyTemplate := None;
         installInstructions :=
           "Add the script tag to your base.html template in the <head> section." |}
  | astro =>
      {| name := "Astro";
         scriptTemplate :=
           "---" ++ nl
           ++ "// Add to your Layout.astro" ++ nl
           ++ "---" ++ nl
           ++ "<script" ++ nl
           ++ "  defer" ++ nl
           ++ "  data-website-id=" ++ dq ++ "{WEBSITE_ID}" ++ dq ++ nl
           ++ "  data-domain=" ++ dq ++ "{DOMAIN}" ++ dq ++ nl
           ++ "  src=" ++ dq ++ "{SCRIPT_SRC}" ++ dq ++ nl
           ++ "></script>";
         proxyTemplate := None;
         installInstructions :=
           "Add the script tag to your main layout component." |}
  | svelte =>
      {| name := "SvelteKit";
         scriptTemplate :=
           "<!-- Add to your app.html -->" ++ nl
           ++ "<script" ++ nl
           ++ "  defer" ++ nl
           ++ "  data-website-id=" ++ dq ++ "{WEBSITE_ID}" ++ dq ++ nl
           ++ "  data-domain=" ++ dq ++ "{DOMAIN}" ++ dq ++ nl
           ++ "  src=" ++ dq ++ "{SCRIPT_SRC}" ++ dq ++ nl
           ++ "></script>";
         proxyTemplate := None;
         installInstructions :=
           "Add the script tag to your src/app.html file in the <head> section." |}
  | nuxt =>
      {| name := "Nuxt.js";
         scriptTemplate :=
           "// Add to nuxt.config.js" ++ nl
           ++ "export default {" ++ nl
           ++ "  head: {" ++ nl
           ++ "    script: [" ++ nl
           ++ "      {" ++ nl
           ++ "        defer: true," ++ nl
           ++ "        'data-website-id': '{WEBSITE_ID}'," ++ nl
           ++ "        'data-domain': '{DOMAIN}'," ++ nl
           ++ "        src: '{SCRIPT_SRC}'" ++ nl
           ++ "      }" ++ nl
           ++ "    ]" ++ nl
           ++ "  }" ++ nl
           ++ "}";
         proxyTemplate := None;
         installInstructions :=
           "Add the script configuration to your nuxt.config.js file." |}
  | vanilla =>
      {| name := "Vanilla HTML";
         scriptTemplate :=
           "<!-- Add to your HTML -->" ++ nl
           ++ "<script" ++ nl
           ++ "  defer" ++ nl
           ++ "  data-website-id=" ++ dq ++ "{WEBSITE_ID}" ++ dq ++ nl
           ++ "  data-domain=" ++ dq ++ "{DOMAIN}" ++ dq ++ nl
           ++ "  src=" ++ dq ++ "{SCRIPT_SRC}" ++ dq ++ nl
           ++ "></script>";
         proxyTemplate := None;
         installInstructions :=
           "Add the script tag to your HTML file in the <head> section." |}
  end.

(** [framework === 'nextjs' || framework === 'nuxt' ? 'javascript' : 'html']. *)
Definition code_language (framework : FrameworkType) : string :=
  match framework with
  | nextjs | nuxt => "javascript"
  | _ => "html"
  end.

(** [template.replace('{WEBSITE_ID}', websiteId).replace('{DOMAIN}', domain)
    .replace('{SCRIPT_SRC}', scriptSrc)]. *)
Definition fill (template websiteId domain scriptSrc : string) : string :=
  replace (replace (replace template "{WEBSITE_ID}" websiteId) "{DOMAIN}" domain)
    "{SCRIPT_SRC}" scriptSrc.

(** A tool that calls nothing answers at once. *)
Definition answer (response : string) : Envelope :=
  {| content := [{| type := "text"; text := response |}]; isError := None |}.

Module generate_tracking_script.

Record Params : Type := {
  websiteId : string;
  domain : string;
  framework : option FrameworkType;
  useProxy : option bool
}.

Definition handler (params : Params) : Envelope :=
  let useProxy := match useProxy params with Some b => b | None => true end in
  let detectedFramework :=
    match framework params with Some f => f | None => vanilla end in
  let detectedFramework :=
    match framework params with Some _ => detectedFramework | None => vanilla end in
  let config := frameworks detectedFramework in
  let scriptSrc := if useProxy then "/js/script.js" else "https://datafa.st/js/script.js" in
  let script := fill (scriptTemplate config) (websiteId params) (domain params) scriptSrc in
  let response :=
    "üöÄ **DataFa.st Tracking Script for " ++ name config ++ "**" ++ nl
    ++ nl in
  let response :=
    response
    ++ "**Script:**" ++ nl
       ++ "```" ++ code_language detectedFramework ++ nl
       ++ script ++ nl
       ++ "```" ++ nl
       ++ nl in
  let response :=
    response
    ++ "**Installation:** " ++ installInstructions config ++ nl
       ++ nl in
  let proxy := undefined_or VStr (proxyTemplate config) in
  let response :=
    if truthy (and_then (VBool useProxy) proxy) then
      let response :=
        response
        ++ "**Proxy Configuration (Recommended):**" ++ nl
           ++ "```javascript" ++ nl
           ++ ToString proxy ++ nl
           ++ "```" ++ nl
           ++ nl in
      response
      ++ "‚ÑπÔ∏è **Why use proxy?** Proxying through your domain prevents ad blockers from blocking tracking and improves data accuracy." ++ nl
         ++ nl
    else response in
  let response :=
    response
    ++ "‚ö†Ô∏è **Important:** Get your website ID from https://datafa.st/dashboard" ++ nl in
  let response :=
    response
    ++ "üìö **Next steps:** Use the `validate_installation` tool after setup to test tracking." in
  answer response.

End generate_tracking_script.

(** [response += a; response += b; ...]. *)
Definition appended (response : string) (additions : list string) : string :=
  fold_left append additions response.

Module datafast_help.

Inductive Topic : Type :=
| overview | setup | tracking | analytics | troubleshooting | all.

Record Params : Type := { topic : option Topic }.

(** [topic === other]. *)
Definition is_topic (topic other : Topic) : bool :=
  match topic, other with
  | overview, overview | setup, setup | tracking, tracking | analytics, analytics
  | troubleshooting, troubleshooting | all, all => true
  | _, _ => false
  end.

Definition handler (params : Params) : Envelope :=
  let topic := match topic params with Some t => t | None => all end in
  let response :=
    "üöÄ **DataFa.st MCP Help Center**" ++ nl
    ++ nl in
  let response :=
    if is_topic topic all || is_topic topic overview then
      appended response
        [ "## What can this MCP do?" ++ nl
          ++ nl;
          "The DataFa.st MCP helps you integrate analytics and revenue tracking into your applications with zero friction:" ++ nl
          ++ nl;
          "üìä **Generate tracking scripts** for 10+ frameworks (Next.js, React, Vue, etc.)" ++ nl;
          "üõ°Ô∏è **Set up ad blocker protection** with proxy configurations" ++ nl;
          "üéØ **Track custom goals** like signups, downloads, conversions" ++ nl;
          "üí∞ **Attribute revenue** to marketing channels and traffic sources" ++ nl;
          "üìà **Analyze visitor behavior** with AI-powered conversion predictions" ++ nl;
          "‚úÖ **Validate installations** and troubleshoot issues" ++ nl
          ++ nl ]
    else response in
  let response :=
    if is_topic topic all || is_topic topic setup then
      appended response
        [ "## üöÄ Quick Setup Workflow" ++ nl
          ++ nl;
          "**1. Get your Website ID** from https://datafa.st/dashboard" ++ nl
          ++ nl;
          "**2. Generate tracking code:**" ++ nl;
          "```" ++ nl
          ++ "generate_tracking_script(" ++ nl
          ++ "  websiteId: " ++ dq ++ "your-website-id" ++ dq ++ "," ++ nl
          ++ "  domain: " ++ dq ++ "yourdomain.com" ++ dq ++ "," ++ nl
          ++ "  framework: " ++ dq ++ "nextjs" ++ dq ++ ", // or your framework" ++ nl
          ++ "  useProxy: true // recommended" ++ nl
          ++ ")" ++ nl
          ++ "```" ++ nl
          ++ nl;
          "**3. Install the generated code** in your app" ++ nl
          ++ nl;
          "**4. Test installation:**" ++ nl;
          "```" ++ nl
          ++ "validate_installation(" ++ nl
          ++ "  domain: " ++ dq ++ "yourdomain.com" ++ dq ++ "," ++ nl
          ++ "  websiteId: " ++ dq ++ "your-website-id" ++ dq ++ "," ++ nl
          ++ "  useProxy: true" ++ nl
          ++ ")" ++ nl
          ++ "```" ++ nl
          ++ nl ]
    else response in
  let response :=
    if is_topic topic all || is_topic topic tracking then
      appended response
        [ "## üéØ Tracking & Analytics" ++ nl
          ++ nl;
          "**Get your visitor ID:**" ++ nl;
          "- Visit your website with DataFa.st installed" ++ nl;
          "- Open DevTools ‚Üí Application ‚Üí Cookies ‚Üí `datafast_visitor_id`" ++ nl
          ++ nl;
          "**Track goals:**" ++ nl;
          "```" ++ nl
          ++ "create_goal(" ++ nl
          ++ "  visitorId: " ++ dq ++ "your-visitor-id" ++ dq ++ "," ++ nl
          ++ "  name: " ++ dq ++ "newsletter_signup" ++ dq ++ nl
          ++ ")" ++ nl
          ++ "```" ++ nl
          ++ nl;
          "**Track payments:**" ++ nl;
          "```" ++ nl
          ++ "track_payment(" ++ nl
          ++ "  visitorId: " ++ dq ++ "your-visitor-id" ++ dq ++ "," ++ nl
          ++ "  amount: 29.99," ++ nl
          ++ "  currency: " ++ dq ++ "USD" ++ dq ++ "," ++ nl
          ++ "  transactionId: " ++ dq ++ "txn-123" ++ dq ++ nl
          ++ ")" ++ nl
          ++ "```" ++ nl
          ++ nl ]
    else response in
  let response :=
    if is_topic topic all || is_topic topic analytics then
      appended response
        [ "## üìà Analytics & Insights" ++ nl
          ++ nl;
          "**Get visitor analytics:**" ++ nl;
          "```" ++ nl
          ++ "get_visitor_data(visitorId: " ++ dq ++ "your-visitor-id" ++ dq ++ ")" ++ nl
          ++ "```" ++ nl
          ++ nl;
          "This returns:" ++ nl;
          "- üåç Location and device info" ++ nl;
          "- üìä Visit counts and pageviews" ++ nl;
          "- üéØ Completed goals and activities" ++ nl;
          "- ü§ñ AI conversion predictions (0-100 score)" ++ nl;
          "- üí∞ Expected revenue estimates" ++ nl
          ++ nl ]
    else response in
  let response :=
    if is_topic topic all || is_topic topic troubleshooting then
      appended response
        [ "## üîß Common Issues & Solutions" ++ nl
          ++ nl;
          "**No data in dashboard?**" ++ nl;
          "- Wait 5-10 minutes after setup" ++ nl;
          "- Use `validate_installation` tool" ++ nl;
          "- Check browser network tab for requests" ++ nl
          ++ nl;
          "**Can't find visitor ID?**" ++ nl;
          "- Ensure tracking script is installed" ++ nl;
          "- Visit your site first to generate the cookie" ++ nl;
          "- Look in DevTools ‚Üí Application ‚Üí Cookies" ++ nl
          ++ nl;
          "**Ad blockers blocking tracking?**" ++ nl;
          "- Use `useProxy: true` when generating scripts" ++ nl;
          "- Follow the generated proxy configuration" ++ nl
          ++ nl ]
    else response in
  let response :=
    if is_topic topic all then
      appended response
        [ "## üõ†Ô∏è Available Tools" ++ nl
          ++ nl;
          "- **`generate_tracking_script`** - Create framework-specific code" ++ nl;
          "- **`validate_installation`** - Test your setup" ++ nl;
          "- **`create_goal`** - Track conversions" ++ nl;
          "- **`track_payment`** - Revenue attribution" ++ nl;
          "- **`get_visitor_data`** - Analytics insights" ++ nl;
          "- **`datafast_help`** - This help system" ++ nl
          ++ nl;
          "## üìö Resources" ++ nl
          ++ nl;
          "Access setup guides:" ++ nl;
          "- `setup://datafast/onboarding` - General guide" ++ nl;
          "- `setup://datafast/nextjs` - Next.js guide" ++ nl;
          "- `setup://datafast/react` - React guide" ++ nl;
          "- And guides for Vue, Angular, Laravel, Django, etc." ++ nl
          ++ nl;
          "## ü§î What would you like to do?" ++ nl
          ++ nl;
          "**New to DataFa.st?** Start with `generate_tracking_script`" ++ nl;
          "**Already installed?** Try `validate_installation`" ++ nl;
          "**Want to track goals?** Use `create_goal`" ++ nl;
          "**Need analytics data?** Use `get_visitor_data`" ++ nl;
          "**Having issues?** Run `validate_installation` for troubleshooting" ++ nl
          ++ nl;
          "üí° **Tip:** All tools include detailed guidance and error messages to help you succeed!" ]
    else response in
  answer response.

End datafast_help.

Module validate_installation.

Record Params : Type := {
  domain : string;
  websiteId : string;
  useProxy : option bool
}.

Definition handler (params : Params) : Envelope :=
  let domain := domain params in
  let websiteId := websiteId params in
  let useProxy := match useProxy params with Some b => b | None => false end in
  let response :=
    "üîç **DataFa.st Installation Validation for " ++ domain ++ "**" ++ nl
    ++ nl in
  let response :=
    appended response
      [ "**Validation Checklist:**" ++ nl
        ++ nl;
        "‚úÖ **1. Script Integration**" ++ nl;
        "‚Ä¢ Ensure the tracking script is in your website's <head> section" ++ nl;
        "‚Ä¢ Script should include: data-website-id=" ++ dq ++ websiteId ++ dq ++ nl;
        "‚Ä¢ Script should include: data-domain=" ++ dq ++ domain ++ dq ++ nl
        ++ nl ] in
  let response :=
    if useProxy then
      appended response
        [ "‚úÖ **2. Proxy Configuration**" ++ nl;
          "‚Ä¢ Verify proxy routes are configured: /js/script.js ‚Üí https://datafa.st/js/script.js" ++ nl;
          "‚Ä¢ Verify events route: /api/events ‚Üí https://datafa.st/api/events" ++ nl;
          "‚Ä¢ Test proxy by visiting: https://" ++ domain ++ "/js/script.js" ++ nl
          ++ nl ]
    else
      appended response
        [ "‚úÖ **2. Direct Script Loading**" ++ nl;
          "‚Ä¢ Script src should be: https://datafa.st/js/script.js" ++ nl;
          "‚Ä¢ Note: Direct loading may be blocked by ad blockers" ++ nl
          ++ nl ] in
  let response :=
    appended response
      [ "‚úÖ **3. Manual Testing Steps**" ++ nl;
        "‚Ä¢ Open your website in browser" ++ nl;
        "‚Ä¢ Open DevTools ‚Üí Network tab" ++ nl;
        "‚Ä¢ Look for successful requests to "
        ++ (if useProxy then domain ++ "/js/script.js" else "datafa.st/js/script.js") ++ nl;
        "‚Ä¢ Navigate between pages to generate pageview events" ++ nl;
        "‚Ä¢ Check for POST requests to "
        ++ (if useProxy then domain ++ "/api/events" else "datafa.st/api/events") ++ nl
        ++ nl;
        "‚úÖ **4. Dashboard Verification**" ++ nl;
        "‚Ä¢ Visit https://datafa.st/dashboard" ++ nl;
        "‚Ä¢ Check for recent pageviews in real-time" ++ nl;
        "‚Ä¢ Verify visitor count increases" ++ nl
        ++ nl;
        "‚úÖ **5. Get Your Visitor ID for Testing**" ++ nl;
        "‚Ä¢ Open DevTools ‚Üí Application tab ‚Üí Cookies" ++ nl;
        "‚Ä¢ Look for cookie named: `datafast_visitor_id`" ++ nl;
        "‚Ä¢ Copy the visitor ID value (domain-scoped to your site)" ++ nl;
        "‚Ä¢ Use this ID with `get_visitor_data` to test analytics retrieval" ++ nl;
        "‚Ä¢ Example: `get_visitor_data(visitorId: " ++ dq ++ "abc-123-def-456" ++ dq
        ++ ")`" ++ nl
        ++ nl;
        "üö® **Troubleshooting Common Issues:**" ++ nl;
        "‚Ä¢ **No script loading:** Check script placement and syntax" ++ nl;
        "‚Ä¢ **Script blocked:** Enable proxy setup to bypass ad blockers" ++ nl;
        "‚Ä¢ **Wrong website ID:** Double-check ID from dashboard" ++ nl;
        "‚Ä¢ **CORS errors:** Ensure domain matches dashboard settings" ++ nl;
        "‚Ä¢ **No events:** Check browser console for JavaScript errors" ++ nl
        ++ nl;
        "üìä **Next Steps:**" ++ nl;
        "‚Ä¢ Use `create_goal` to track conversions" ++ nl;
        "‚Ä¢ Use `track_payment` for revenue attribution" ++ nl;
        "‚Ä¢ Use `get_visitor_data` to analyze visitor behavior" ++ nl
        ++ nl;
        "üí° **Pro Tip:** Wait 5-10 minutes after installation before checking dashboard data." ] in
  answer response.

End validate_installation.

(** [tips[framework] || '...']. *)
Definition getFrameworkSpecificTips (framework : FrameworkType) : string :=
  let tips :=
    match framework with
    | nextjs =>
        nl
        ++ "- Use `next/script` component for optimal loading" ++ nl
        ++ "- Add to `_app.js` or root layout for all pages" ++ nl
        ++ "- Proxy configuration goes in `next.config.js`" ++ nl
        ++ "- Works with both App Router and Pages Router"
    | vue =>
        nl
        ++ "- Add to `public/index.html` for global tracking" ++ nl
        ++ "- Or use in main component with `v-html`" ++ nl
        ++ "- Proxy config in `vue.config.js` for development" ++ nl
        ++ "- Use environment variables for different domains"
    | react =>
        nl
        ++ "- Add to `public/index.html` in the `<head>` section" ++ nl
        ++ "- For SPA routing, ensure script runs on route changes" ++ nl
        ++ "- Consider using React Helmet for dynamic insertion"
    | angular =>
        nl
        ++ "- Add to `src/index.html` in the `<head>` section" ++ nl
        ++ "- For Angular Universal (SSR), ensure script runs client-side only" ++ nl
        ++ "- Use Angular environment files for different configurations"
    | laravel =>
        nl
        ++ "- Add to main Blade layout (e.g., `app.blade.php`)" ++ nl
        ++ "- Use Laravel's `asset()` helper for local assets" ++ nl
        ++ "- Consider using environment variables for website ID" ++ nl
        ++ "- Works with Livewire and Inertia.js"
    | django =>
        nl
        ++ "- Add to base template (e.g., `base.html`)" ++ nl
        ++ "- Use Django's `static` template tag for local assets" ++ nl
        ++ "- Consider using settings.py for configuration" ++ nl
        ++ "- Works with Django channels and HTMX"
    | astro =>
        nl
        ++ "- Add to Layout component in `<head>` section" ++ nl
        ++ "- Works with both SSG and SSR modes" ++ nl
        ++ "- Use Astro's client-side hydration if needed"
    | svelte =>
        nl
        ++ "- Add to `src/app.html` in the `<head>` section" ++ nl
        ++ "- For SvelteKit, ensure script runs on all routes" ++ nl
        ++ "- Use `$env` for environment-specific configuration"
    | nuxt =>
        nl
        ++ "- Add to `nuxt.config.js` in the `head.script` array" ++ nl
        ++ "- Use `@nuxtjs/google-analytics` pattern for organization" ++ nl
        ++ "- Works with both SSR and SPA modes" ++ nl
        ++ "- Use runtime config for environment variables"
    | vanilla =>
        nl
        ++ "- Add directly to HTML `<head>` section" ++ nl
        ++ "- Ensure script loads on all pages" ++ nl
        ++ "- Use JavaScript to dynamically track events" ++ nl
        ++ "- Consider using a tag manager for easier management"
    end in
  ToString (or_else (VStr tips) (VStr "No specific tips available for this framework.")).

Definition generateFrameworkGuide (framework : FrameworkType) (config : FrameworkConfig) :
    string :=
  "# " ++ name config ++ " + DataFa.st Setup Guide" ++ nl
  ++ nl
  ++ "## Installation Steps" ++ nl
  ++ nl
  ++ "### 1. Get Your Website ID" ++ nl
  ++ "Visit [DataFa.st Dashboard](https://datafa.st/dashboard) and copy your Website ID." ++ nl
  ++ nl
  ++ "### 2. Add Tracking Script" ++ nl
  ++ installInstructions config ++ nl
  ++ nl
  ++ "**Script Template:**" ++ nl
  ++ "```" ++ code_language framework ++ nl
  ++ fill (scriptTemplate config) "your-website-id" "yourdomain.com" "https://datafa.st/js/script.js" ++ nl
  ++ "```" ++ nl
  ++ nl
  ++ "### 3. Proxy Setup (Recommended)" ++ nl
  ++ "Avoid ad blocker issues by proxying through your domain:" ++ nl
  ++ nl
  ++ (let proxy := undefined_or VStr (proxyTemplate config) in if truthy proxy then "```javascript" ++ nl ++ ToString proxy ++ nl ++ "```" else "Manual proxy configuration required for this framework.") ++ nl
  ++ nl
  ++ "### 4. Validation" ++ nl
  ++ "After setup, test your installation:" ++ nl
  ++ "1. Open browser DevTools ‚Üí Network tab" ++ nl
  ++ "2. Visit your website" ++ nl
  ++ "3. Look for requests to datafa.st or your proxy endpoints" ++ nl
  ++ "4. Check DataFa.st dashboard for real-time data" ++ nl
  ++ nl
  ++ "## Goals & Revenue Tracking" ++ nl
  ++ nl
  ++ "### Track Custom Goals" ++ nl
  ++ nl
  ++ "**Get Visitor ID from Browser:**" ++ nl
  ++ "1. Open DevTools ‚Üí Application tab ‚Üí Cookies" ++ nl
  ++ "2. Find `datafast_visitor_id` cookie (domain-scoped)" ++ nl
  ++ "3. Copy the visitor ID value" ++ nl
  ++ nl
  ++ "**JavaScript Example:**" ++ nl
  ++ "```javascript" ++ nl
  ++ "// Get visitor ID from cookies" ++ nl
  ++ "const visitorId = document.cookie" ++ nl
  ++ "  .split('; ')" ++ nl
  ++ "  .find(row => row.startsWith('datafast_visitor_id='))" ++ nl
  ++ "  ?.split('=')[1];" ++ nl
  ++ nl
  ++ "// Track goal via API" ++ nl
  ++ "fetch('/api/datafast-goal', {" ++ nl
  ++ "  method: 'POST'," ++ nl
  ++ "  body: JSON.stringify({" ++ nl
  ++ "    visitorId," ++ nl
  ++ "    name: 'newsletter_signup'," ++ nl
  ++ "    metadata: { source: 'homepage' }" ++ nl
  ++ "  })" ++ nl
  ++ "});" ++ nl
  ++ "```" ++ nl
  ++ nl
  ++ "**Using MCP Tools:**" ++ nl
  ++ "```" ++ nl
  ++ "create_goal(visitorId: " ++ dq ++ "your-visitor-id-from-cookies" ++ dq ++ ", name: "
  ++ dq ++ "newsletter_signup" ++ dq ++ ")" ++ nl
  ++ "```" ++ nl
  ++ nl
  ++ "### Track Revenue" ++ nl
  ++ "```javascript" ++ nl
  ++ "// Track payment for revenue attribution" ++ nl
  ++ "fetch('/api/datafast-payment', {" ++ nl
  ++ "  method: 'POST'," ++ nl
  ++ "  body: JSON.stringify({" ++ nl
  ++ "    visitorId," ++ nl
  ++ "    amount: 29.99," ++ nl
  ++ "    currency: 'USD'," ++ nl
  ++ "    transactionId: 'txn_123'," ++ nl
  ++ "    email: 'customer@example.com'" ++ nl
  ++ "  })" ++ nl
  ++ "});" ++ nl
  ++ "```" ++ nl
  ++ nl
  ++ "## Framework-Specific Tips" ++ nl
  ++ nl
  ++ getFrameworkSpecificTips framework ++ nl
  ++ nl
  ++ "## Troubleshooting" ++ nl
  ++ nl
  ++ "### Common Issues" ++ nl
  ++ "1. **Script not loading**: Check script placement and syntax" ++ nl
  ++ "2. **No data in dashboard**: Wait 5-10 minutes, check network requests" ++ nl
  ++ "3. **Ad blocker interference**: Use proxy setup" ++ nl
  ++ "4. **CORS errors**: Verify domain settings in dashboard" ++ nl
  ++ nl
  ++ "### Support" ++ nl
  ++ "- [DataFa.st Documentation](https://datafa.st/docs)" ++ nl
  ++ "- [Dashboard](https://datafa.st/dashboard)" ++ nl
  ++ "- Check browser console for errors" ++ nl.





End Setup.

(** ** The Worker's entry point

    The same [fetch] stands at the end of [src/index.ts] and of both
    agents' files.  It reads two parts of [new URL(request.url)]: the
    path and the query, here the list of the query's pairs in order
    (what [URLSearchParams] iterates over).  Serving the agent is left
    to the agents library: the reply records the mount point and the
    props the session is given. *)

Module Worker.

Record URL : Type := {
  pathname : string;
  searchParams : list (string * string)
}.

(** [url.searchParams.get(name)]: the first value of that name, or [null]. *)
Fixpoint searchParams_get (name : string) (pairs : list (string * string)) : value :=
  match pairs with
  | [] => VNull
  | (k, v) :: rest => if (k =? name)%string then VStr v else searchParams_get name rest
  end.

Inductive Reply : Type :=
| Respond (body : string) (status : Z)
| serveSSE (path : string) (props : Props)
| serve (path : string) (props : Props).

Definition fetch (url : URL) : Reply :=
  let apiKey := searchParams_get "api_key" (searchParams url) in
  if negb (truthy apiKey) then
    Respond
      "DataFast API key is required. Please provide it as a query parameter: ?api_key=your_api_key"
      401
  else
    let props := {| apiKey := ToString apiKey |} in
    if (pathname url =? "/sse")%string || (pathname url =? "/sse/message")%string then
      serveSSE "/sse" props
    else if (pathname url =? "/mcp")%string then
      serve "/mcp" props
    else Respond "Not found" 404.

End Worker.

(** ** Reading the claims *)

Module Spec.

Definition goals_url : string := "https://datafa.st/api/v1/goals".
Definition payments_url : string := "https://datafa.st/api/v1/payments".
Definition visitor_url (id : string) : string := "https://datafa.st/api/v1/visitors/" ++ id.

(** The outbound calls: a POST of a JSON document, a GET. *)
Definition post (props : Props) (u : string) (doc : value) : Request :=
  {| url := u;
     init := {| method := "POST";
                headers := bearer_json (apiKey props);
                body := Some (JSON_stringify doc) |} |}.

Definition get_from (props : Props) (u : string) : Request :=
  {| url := u;
     init := {| method := "GET"; headers := bearer_json (apiKey props); body := None |} |}.

(** [null] and [undefined]: the values a property cannot be read from. *)
Definition nullish (v : value) : bool :=
  match v with
  | VNull | VUndefined => true
  | _ => false
  end.

(** The spec's [Success{body}]: a response with a 2xx status whose body
    parses as JSON. *)
Definition success (outcome : completion Response) (body : value) : Prop :=
  exists r, outcome = Normal r /\ ok r = true /\ json r = Normal body.


(** The spec's [NetworkError]: no response. *)
Definition network_failure (outcome : completion Response) (t : thrown) : Prop :=
  outcome = Abrupt t.


(** The value of the property [p] of a value that is not nullish. *)
Definition field (v : value) (p : string) : value :=
  match get v p with
  | Normal x => x
  | Abrupt _ => VUndefined
  end.


(** The message of an [HttpError], in the spec's words: [error.message]
    of the body parsed as JSON, else the text of the status line. *)
Definition upstream_message (r : Response) : string :=
  match json r with
  | Normal (VObj fields) =>
      match lookup "error" fields with
      | Some (VObj error) =>
          match lookup "message" error with
          | Some m => if truthy m then ToString m else statusText r
          | None => statusText r
          end
      | _ => statusText r
      end
  | _ => statusText r
  end.



(** A host and scripted worlds for the examples: the [n]-th call gets
    the [n]-th outcome, and a call beyond the script is rejected.  The
    examples convert no string to a number and format no date. *)
Definition sample_host : Host :=
  {| StringToNumber := fun _ => nan;
     toLocaleString := fun _ => "1/1/2024, 12:00:00 AM";
     toLocaleDateString := fun _ => "1/1/2024" |}.

Definition scripted (outcomes : list (completion Response)) : World :=
  {| network := fun log _ =>
       nth (List.length log) outcomes (Abrupt (ThrownError "fetch failed"));
     Date_now := 1700000000000;
     host := sample_host |}.

Definition respond (st : Z) (line : string) (doc : value) : completion Response :=
  Normal {| status := st; statusText := line; json := Normal doc |}.

Definition respond_text (st : Z) (line : string) : completion Response :=
  Normal {| status := st; statusText := line;
            json := Abrupt (ThrownError "Unexpected token < in JSON at position 0") |}.

Definition sample_props : Props := {| apiKey := "df_key" |}.

(** *** Number formats *)



(** *** Request bodies *)

(** A number as [JSON.stringify] writes it: itself, but [null] when it
    is not finite and 0 for a negative zero. *)
Definition json_number (x : float) : value := stringify_number x.


(** An optional string the caller supplied with some content. *)
Definition supplied (o : option string) : bool :=
  match o with
  | Some s => negb (s =? "")%string
  | None => false
  end.

Definition optional (k : string) (o : option string) : object :=
  match o with
  | Some s => if negb (s =? "")%string then [(k, VStr s)] else []
  | None => []
  end.

Definition or_false (o : option bool) : bool :=
  match o with
  | Some b => b
  | None => false
  end.



(** The body of a request, as an object. *)
Definition body_fields (request : Request) : object :=
  match body (init request) with
  | Some (VObj fields) => fields
  | _ => []
  end.

(** *** batch_create_goals *)

Definition goal_call (props : Props) (g : Analytics.batch_create_goals.Goal) : Request :=
  post props goals_url
    (Analytics.goal_object (Analytics.batch_create_goals.datafast_visitor_id g)
       (Analytics.batch_create_goals.name g) (Analytics.batch_create_goals.metadata g)).

(** An item succeeds when its call is answered with a 2xx status and a
    JSON body a property can be read from. *)
Definition item_succeeds (outcome : completion Response) : bool :=
  match outcome with
  | Normal r =>
      ok r && match json r with
              | Normal result => negb (nullish result)
              | Abrupt _ => false
              end
  | Abrupt _ => false
  end.

(** [reported props w log goals results]: the goals were attempted one
    after the other from the log [log], each call seeing the calls before
    it, and [results] holds their outcomes in the same order. *)
Inductive reported (props : Props) (w : World) :
  list Request -> list Analytics.batch_create_goals.Goal ->
  list Analytics.batch_create_goals.Result -> Prop :=
| reported_nil (log : list Request) : reported props w log [] []
| reported_cons (log : list Request) g gs r rs :
    Analytics.batch_create_goals.goal r = Analytics.batch_create_goals.name g ->
    Analytics.batch_create_goals.visitor r
      = Analytics.batch_create_goals.datafast_visitor_id g ->
    Analytics.batch_create_goals.success r
      = item_succeeds (network w log (goal_call props g)) ->
    reported props w (log ++ [goal_call props g]) gs rs ->
    reported props w log (g :: gs) (r :: rs).


End Spec.
Import Spec.

(** ** The claims as the spec states them

    Each definition below reads one sentence of the spec for a single
    invocation, so that it can be tried on a scripted world. *)

Module Stated.

Import Analytics.





(** [create_payment]: the optional fields of the body are those the
    caller supplied. *)
Definition body_follows_caller (w : World) (props : Props)
    (args : create_payment.Params) : Prop :=
  forall request,
    In request (snd (create_payment.tool props args w [])) ->
    (create_payment.renewal args = None -> lookup "renewal" (body_fields request) = None)
    /\ (create_payment.refunded args = None
        -> lookup "refunded" (body_fields request) = None)
    /\ (forall s, create_payment.email args = Some s
                  -> lookup "email" (body_fields request) = Some (VStr s)).





End Stated.

(** ** Sample invocations *)

Module Sample.

Import Analytics.


Definition goal_created : completion Response :=
  respond 200 "OK" (VObj [("message", VStr "Goal created"); ("event_id", VStr "e1")]).

(** The goal call succeeds; the payment call is refused, or gets no
    response at all. *)
Definition payment_refused : World :=
  scripted [goal_created; respond_text 500 "Internal Server Error"].

Definition visitor : validate_visitor.Params :=
  {| validate_visitor.datafast_visitor_id := "visitor-1" |}.
Definition setup_visitor : Setup.get_visitor_data.Params :=
  {| Setup.get_visitor_data.visitorId := "visitor-1" |}.



(** A visitor record of the analytics API, with a low score. *)
Definition prediction : value :=
  VObj [("score", VNum 20%float); ("conversionRate", VNum 0.1234%float);
        ("expectedValue", VNum 29.99%float); ("confidence", VNum 0.856%float)].
Definition record_without_prediction : value :=
  VObj [("status", VStr "success"); ("data", VObj [("visitorId", VStr "visitor-1")])].
Definition no_prediction : World := scripted [respond 200 "OK" record_without_prediction].


(** A payment with the required fields only, but for an empty e-mail. *)
Definition payment : create_payment.Params :=
  {| create_payment.amount := 29.99%float;
     create_payment.currency := "USD";
     create_payment.transaction_id := "txn_1";
     create_payment.datafast_visitor_id := "visitor-1";
     create_payment.email := Some EmptyString;
     create_payment.name := None;
     create_payment.customer_id := None;
     create_payment.renewal := None;
     create_payment.refunded := None;
     create_payment.timestamp := None |}.
Definition payment_recorded : World :=
  scripted [respond 200 "OK" (VObj [("message", VStr "Payment recorded");
                                    ("transaction_id", VStr "txn_1")])].


End Sample.
(** ** Reading the handlers beyond the claims *)

Module Wire.


(** An optional field the caller supplied, whatever its content. *)
Definition present {A : Type} (inj : A -> value) (k : string) (o : option A) : object :=
  match o with
  | Some a => [(k, inj a)]
  | None => []
  end.

(** A response with a 2xx status whose body is not JSON. *)
Definition unreadable (outcome : completion Response) (t : thrown) : Prop :=
  exists r, outcome = Normal r /\ ok r = true /\ json r = Abrupt t.

(** No response, or a 2xx response whose body is not JSON: the lines of
    a handler that throw [t] before any property is read. *)
Definition faults (outcome : completion Response) (t : thrown) : Prop :=
  network_failure outcome t \/ unreadable outcome t.

(** *** Templates *)

(** One of two texts is a prefix of the other. *)
Fixpoint compatible (a b : string) : bool :=
  match a, b with
  | String x a', String y b' => Ascii.eqb x y && compatible a' b'
  | _, _ => true
  end.

(** No occurrence of [pattern] begins inside [s], whatever text follows [s]. *)
Fixpoint clear (pattern s : string) : bool :=
  match s with
  | EmptyString => true
  | String _ rest => negb (compatible pattern s) && clear pattern rest
  end.

(** A text without a dollar sign and without an opening brace: nothing
    in it is read as a replacement pattern or as a placeholder. *)
Definition plain (s : string) : bool :=
  all_chars (fun c => negb (Ascii.eqb c "$" || Ascii.eqb c "{")) s.

(** The four pieces of a script template, around its placeholders. *)
Definition pieces (template : string) : option (string * string * string * string) :=
  match split_at "{WEBSITE_ID}" template with
  | Some (a, rest) =>
      match split_at "{DOMAIN}" rest with
      | Some (b, rest') =>
          match split_at "{SCRIPT_SRC}" rest' with
          | Some (c, d) => Some (a, b, c, d)
          | None => None
          end
      | None => None
      end
  | None => None
  end.

(** The placeholders of a template come once each where [replace]
    looks for them: none begins in a piece before its own. *)
Definition well_formed (a b c : string) : bool :=
  clear "{WEBSITE_ID}" a
  && clear "{DOMAIN}" a && clear "{DOMAIN}" b
  && clear "{SCRIPT_SRC}" a && clear "{SCRIPT_SRC}" b && clear "{SCRIPT_SRC}" c.

(** The address the script is loaded from. *)
Definition script_src (useProxy : option bool) : string :=
  match useProxy with
  | Some false => "https://datafa.st/js/script.js"
  | _ => "/js/script.js"
  end.

Definition chosen (framework : option Setup.FrameworkType) : Setup.FrameworkType :=
  match framework with
  | Some f => f
  | None => Setup.vanilla
  end.

(** *** Lists of features *)

(** The lists obtained from [l] by leaving items out. *)
Fixpoint sublists {A : Type} (l : list A) : list (list A) :=
  match l with
  | [] => [[]]
  | a :: rest => (map (cons a) (sublists rest) ++ sublists rest)%list
  end.

(** The features of [all] that occur in [asked], once each and in the
    order of [all]. *)
Definition canonical {A : Type} (eqb : A -> A -> bool) (all asked : list A) : list A :=
  filter (fun a => existsb (eqb a) asked) all.

(** The features each code-writing tool knows. *)
Definition webhook_features : list Analytics.generate_webhook_handler.Feature :=
  [Analytics.generate_webhook_handler.payment_tracking;
   Analytics.generate_webhook_handler.goal_tracking;
   Analytics.generate_webhook_handler.refund_handling;
   Analytics.generate_webhook_handler.metadata_extraction].

Definition config_features : list Analytics.generate_config_template.Feature :=
  [Analytics.generate_config_template.tracking;
   Analytics.generate_config_template.goals;
   Analytics.generate_config_template.payments;
   Analytics.generate_config_template.analytics;
   Analytics.generate_config_template.debugging].

Definition debugging_features : list Analytics.generate_debugging_tools.Feature :=
  [Analytics.generate_debugging_tools.visitor_tracking;
   Analytics.generate_debugging_tools.payment_debug;
   Analytics.generate_debugging_tools.goal_tracking;
   Analytics.generate_debugging_tools.network_monitoring;
   Analytics.generate_debugging_tools.error_tracking].


(** The checks of a list hold: each pair is a boolean and the value
    expected of it. *)
Definition agree (checks : list (bool * bool)) : bool :=
  forallb (fun check => Bool.eqb (fst check) (snd check)) checks.

End Wire.
Import Wire.

(** * Properties *)

(** ** Text *)

Module TextFacts.

Lemma append_assoc (a b c : string) : (a ++ b) ++ c = a ++ b ++ c.
Proof. induction a as [|x a IH]; cbn; [reflexivity | now rewrite IH]. Qed.

Lemma append_nil_r (a : string) : a ++ EmptyString = a.
Proof. induction a as [|x a IH]; cbn; [reflexivity | now rewrite IH]. Qed.

Lemma starts_with_sound (needle hay : string) :
  starts_with needle hay = true -> exists post, hay = needle ++ post.
Proof.
  revert hay; induction needle as [|a needle IH]; intros hay H.
  - now exists hay.
  - destruct hay as [|b hay]; cbn in H; [discriminate|].
    apply andb_prop in H as [Hab H].
    apply Ascii.eqb_eq in Hab; subst b.
    destruct (IH _ H) as [post ->]. now exists post.
Qed.

Lemma starts_with_complete (needle post : string) :
  starts_with needle (needle ++ post) = true.
Proof.
  induction needle as [|a needle IH]; cbn; [reflexivity|].
  now rewrite Ascii.eqb_refl, IH.
Qed.

Lemma containsb_sound (needle hay : string) :
  containsb needle hay = true -> contains needle hay.
Proof.
  induction hay as [|c hay IH]; cbn.
  - destruct (starts_with needle EmptyString) eqn:E; [|discriminate].
    intros _. destruct (starts_with_sound _ _ E) as [post ->].
    now exists EmptyString, post.
  - destruct (starts_with needle (String c hay)) eqn:E.
    + intros _. destruct (starts_with_sound _ _ E) as [post ->].
      now exists EmptyString, post.
    + intros H. destruct (IH H) as (pre & post & ->).
      now exists (String c pre), post.
Qed.


Lemma contains_here (needle post : string) : contains needle (needle ++ post).
Proof. now exists EmptyString, post. Qed.


Lemma contains_after (needle pre hay : string) :
  contains needle hay -> contains needle (pre ++ hay).
Proof.
  intros (a & b & ->). exists (pre ++ a), b. now rewrite append_assoc.
Qed.

Lemma contains_before (needle hay post : string) :
  contains needle hay -> contains needle (hay ++ post).
Proof.
  intros (a & b & ->). exists a, (b ++ post). now rewrite !append_assoc.
Qed.


Lemma contains_prefix (needle hay post : string) :
  hay = needle ++ post -> contains needle hay.
Proof. intros ->. apply contains_here. Qed.



End TextFacts.
Import TextFacts.

(** Finds a literal marker in a text built by concatenation: it walks
    the segments and looks inside the literal ones. *)
Ltac find_marker :=
  lazymatch goal with
  | |- contains ?n (?a ++ ?b) =>
      first [ lazymatch a with
              | String _ _ =>
                  apply contains_before; apply containsb_sound; vm_compute; reflexivity
              end
            | apply contains_after; find_marker ]
  | |- contains ?n (String _ _) => apply containsb_sound; vm_compute; reflexivity
  end.

(** Finds a phrase made of whole segments of the text. *)
Ltac find_phrase :=
  rewrite ?append_assoc;
  repeat first
    [ solve [ eapply contains_prefix; rewrite ?append_assoc; reflexivity ]
    | apply contains_after ].


(** ** Handlers, step by step *)


Ltac step :=
  unfold try_catch, fetch, eval, ask;
  cbn [bind ret Monad_M Monad_completion fst snd app negb].

(** ** The message of a refused call *)

Lemma error_message_spec (r : Response) :
  nullish (json_or_empty r) = false ->
  exists m, Analytics.error_message r = Normal m /\ ToString m = upstream_message r.
Proof.
  unfold Analytics.error_message, upstream_message, json_or_empty.
  destruct (json r) as [body|t]; cbn [bind ret Monad_completion].
  - destruct body as [| |b|x|s|items|fields]; cbn [nullish]; intros H; try discriminate;
      cbn [get get_opt bind ret Monad_completion or_else truthy];
      try (eexists; split; reflexivity).
    destruct (lookup "error" fields) as [e|]; cbn [get_opt get or_else truthy];
      [|eexists; split; reflexivity].
    destruct e as [| |b|x|s|items|error]; cbn [get_opt get or_else truthy];
      try (eexists; split; reflexivity).
    destruct (lookup "message" error) as [m|]; cbn [or_else truthy];
      [|eexists; split; reflexivity].
    unfold or_else. destruct (truthy m); eexists; split; reflexivity.
  - intros _. cbn. eexists; split; reflexivity.
Qed.

Lemma error_message_null (r : Response) :
  json r = Normal VNull ->
  Analytics.error_message r = Abrupt (cannot_read "null" "error").
Proof. intros H. unfold Analytics.error_message, json_or_empty. now rewrite H. Qed.

Ltac name_call call :=
  step; fold goals_url; fold payments_url;
  change {| url := _; init := _ |} with call.

Ltac refused_with E :=
  eexists; split; [reflexivity|]; split; [reflexivity|];
  let Hn := fresh "Hn" in
  let m := fresh "m" in
  let E' := fresh "E" in
  let Hm := fresh "Hm" in
  intros Hn;
  match type of E with
  | Analytics.error_message ?r = _ =>
      destruct (error_message_spec r Hn) as (m & E' & Hm)
  end;
  rewrite E in E'; inversion E'; subst;
  unfold text_of; cbn [content map text String.concat];
  try rewrite Hm; try reflexivity.

Lemma get_field (v : value) (p : string) :
  nullish v = false -> get v p = Normal (field v p).
Proof. unfold field. destruct v; cbn; intros H; try discriminate; reflexivity. Qed.


(** ** create_revenue_goal *)

Section create_revenue_goal_flow.

Import Analytics Analytics.create_revenue_goal.

Variables (w : World) (props : Props) (params : Params).

Let goal_call : Request := post props goals_url (goal_request params).
Let payment_call : Request :=
  post props payments_url (payment_request params (Date_now w)).

Lemma goal_rejected (t : thrown) :
  network w [] goal_call = Abrupt t ->
  handler props params w [] = (Normal (network_error t), [goal_call]).
Proof.
  intros H. unfold handler. step. fold goals_url.
  change {| url := goals_url; init := _ |} with goal_call.
  now rewrite H.
Qed.

Lemma goal_refused (r : Response) :
  network w [] goal_call = Normal r -> ok r = false ->
  exists env, handler props params w [] = (Normal env, [goal_call])
    /\ isError env = Some true
    /\ (nullish (json_or_empty r) = false ->
        text_of env = ("Error " ++ string_of_Z (status r) ++ ": " ++ upstream_message r)
                      ++ goal_note (status r)).
Proof.
  intros H Hok. unfold handler. step. fold goals_url.
  change {| url := goals_url; init := _ |} with goal_call.
  rewrite H, Hok. step.
  destruct (error_message r) as [m|t] eqn:E; step; refused_with E.
Qed.

Ltac goal_accepted H Hok Hjson :=
  unfold handler; step; fold goals_url; fold payments_url;
  change {| url := goals_url; init := _ |} with goal_call;
  rewrite H, Hok; step; rewrite Hjson; step;
  change {| url := payments_url; init := _ |} with payment_call.

Lemma payment_attempted (r : Response) (goalResult : value) :
  network w [] goal_call = Normal r -> ok r = true -> json r = Normal goalResult ->
  snd (handler props params w []) = [goal_call; payment_call].
Proof.
  intros H Hok Hjson. goal_accepted H Hok Hjson.
  destruct (network w [goal_call] payment_call) as [pr|t]; step; [|reflexivity].
  destruct (ok pr); step.
  - destruct (json pr) as [paymentResult|t]; step; [|reflexivity].
    destruct (get paymentResult "message"); step; [|reflexivity].
    destruct (get goalResult "message"); reflexivity.
  - destruct (get goalResult "message"); reflexivity.
Qed.


Lemma get_readable (v : value) (p : string) :
  nullish v = false -> exists x, get v p = Normal x.
Proof. destruct v; cbn; intros H; try discriminate; eauto. Qed.

Lemma payment_refused (r pr : Response) (goalResult : value) :
  network w [] goal_call = Normal r -> ok r = true -> json r = Normal goalResult ->
  nullish goalResult = false ->
  network w [goal_call] payment_call = Normal pr -> ok pr = false ->
  exists env, handler props params w [] = (Normal env, [goal_call; payment_call])
              /\ isError env = None
              /\ contains "✅ Revenue goal created successfully!" (text_of env)
              /\ contains "⚠️ Goal created but revenue tracking failed" (text_of env).
Proof.
  intros H Hok Hjson Hgoal Hp Hpok. goal_accepted H Hok Hjson.
  rewrite Hp, Hpok. step.
  destruct (get_readable _ "message" Hgoal) as [m ->]. step.
  eexists; split; [reflexivity|]. split; [reflexivity|].
  unfold text_of; cbn [content map text String.concat]. split; find_marker.
Qed.


End create_revenue_goal_flow.

Section batch_create_goals_flow.

Import Analytics Analytics.batch_create_goals.

Variables (w : World) (props : Props).

Lemma attempt_reports (g : Goal) (log : list Request) :
  exists r, attempt props g w log = (Normal r, (log ++ [goal_call props g])%list)
            /\ goal r = name g
            /\ visitor r = datafast_visitor_id g
            /\ success r = item_succeeds (network w log (goal_call props g)).
Proof.
  unfold attempt. step. fold goals_url.
  change {| url := goals_url; init := _ |} with (goal_call props g).
  unfold item_succeeds.
  destruct (network w log (goal_call props g)) as [r|t]; step.
  2:{ eexists; repeat split. }
  destruct (ok r); step.
  - destruct (json r) as [result|t]; step.
    2:{ eexists; repeat split. }
    destruct result; cbn [get nullish negb andb]; step; eexists; repeat split.
  - destruct (error_message r); step; eexists; repeat split.
Qed.

Lemma loop_reports (goals : list Goal) :
  forall (log : list Request) (results : list Result),
  exists rs, loop props goals results w log
             = (Normal (results ++ rs)%list, (log ++ map (goal_call props) goals)%list)
             /\ reported props w log goals rs.
Proof.
  induction goals as [|g gs IH]; intros log results; cbn [loop map].
  - exists []. rewrite !app_nil_r. split; [reflexivity | constructor].
  - step. destruct (attempt_reports g log) as (r & -> & Hg & Hv & Hs).
    destruct (IH (log ++ [goal_call props g])%list (results ++ [r])%list) as (rs & -> & Hrs).
    exists (r :: rs). rewrite <- !app_assoc. split; [reflexivity|].
    now constructor.
Qed.




End batch_create_goals_flow.

(** ** The single-call tools of the analytics agent *)

Section create_payment_flow.

Import Analytics Analytics.create_payment.

Variables (w : World) (props : Props) (params : Params).

Let call : Request := post props payments_url (request_object params).

Lemma create_payment_rejected (t : thrown) :
  network w [] call = Abrupt t ->
  handler props params w [] = (Normal (network_error t), [call]).
Proof. intros H. unfold handler. name_call call. now rewrite H. Qed.



End create_payment_flow.

Section create_goal_flow.

Import Analytics Analytics.create_goal.

Variables (w : World) (props : Props) (params : Params).

Let call : Request :=
  post props goals_url
    (goal_object (datafast_visitor_id params) (name params) (metadata params)).

Lemma create_goal_rejected (t : thrown) :
  network w [] call = Abrupt t ->
  handler props params w [] = (Normal (network_error t), [call]).
Proof. intros H. unfold handler. name_call call. now rewrite H. Qed.



End create_goal_flow.



Section get_visitor_data_flow.

Import Analytics Analytics.get_visitor_data.

Variables (w : World) (props : Props) (params : Params).

Let call : Request := get_from props (visitor_url (datafast_visitor_id params)).

Lemma get_visitor_data_rejected (t : thrown) :
  network w [] call = Abrupt t ->
  handler props params w [] = (Normal (network_error t), [call]).
Proof. intros H. unfold handler. name_call call. now rewrite H. Qed.



Lemma get_visitor_data_null (r : Response) :
  network w [] call = Normal r -> ok r = true -> json r = Normal VNull ->
  handler props params w []
  = (Normal (network_error (cannot_read "null" "status")), [call]).
Proof.
  intros H Hok Hjson. unfold handler. name_call call. rewrite H. step.
  now rewrite Hok, Hjson.
Qed.



(** The handler never completes abruptly, and makes one call. *)
Lemma get_visitor_data_total :
  exists env, handler props params w [] = (Normal env, [call]).
Proof.
  unfold handler. name_call call.
  destruct (network w [] call) as [r|t]; step; [|eauto].
  destruct (ok r); step.
  - destruct (json r) as [result|t]; step; [|eauto].
    destruct (has_data result) as [[b data]|t]; step; [|eauto].
    destruct b; step; [|eauto].
    destruct (visitor_info (host w) data); step; eauto.
  - destruct (error_message r); step; eauto.
Qed.

End get_visitor_data_flow.

Section validate_visitor_flow.

Import Analytics Analytics.validate_visitor.

Variables (w : World) (props : Props) (params : Params).

Let call : Request := get_from props (visitor_url (datafast_visitor_id params)).




End validate_visitor_flow.

Section get_analytics_summary_flow.

Import Analytics Analytics.get_analytics_summary.

Variables (w : World) (props : Props) (params : Params).

Let call : Request := get_from props (visitor_url (datafast_visitor_id params)).



Lemma get_analytics_summary_null (r : Response) :
  network w [] call = Normal r -> ok r = true -> json r = Normal VNull ->
  handler props params w []
  = (Normal (network_error (cannot_read "null" "status")), [call]).
Proof.
  intros H Hok Hjson. unfold handler. name_call call. rewrite H. step.
  now rewrite Hok, Hjson.
Qed.


End get_analytics_summary_flow.

(** ** The tools of the onboarding agent *)

Section setup_create_goal_flow.

Import Setup.create_goal.

Variables (w : World) (props : Props) (params : Params).

Let call : Request := post props goals_url (request_object params).

Lemma setup_create_goal_rejected (t : thrown) :
  network w [] call = Abrupt t -> handler props params w [] = (Abrupt t, [call]).
Proof. intros H. unfold handler. name_call call. now rewrite H. Qed.


End setup_create_goal_flow.

Section setup_track_payment_flow.

Import Setup.track_payment.

Variables (w : World) (props : Props) (params : Params).

Let call : Request := post props payments_url (request_object params).

Lemma track_payment_rejected (t : thrown) :
  network w [] call = Abrupt t -> handler props params w [] = (Abrupt t, [call]).
Proof. intros H. unfold handler. name_call call. now rewrite H. Qed.



End setup_track_payment_flow.

(** ** The prediction block *)

Lemma truthy_readable (v : value) : truthy v = true -> nullish v = false.
Proof. destruct v; cbn; congruence. Qed.

Lemma get_normal (v : value) (p : string) (x : value) :
  get v p = Normal x -> nullish v = false /\ x = field v p.
Proof.
  intros H. unfold field. rewrite H. destruct v; cbn in *; try discriminate; auto.
Qed.

Section analytics_prediction.

Import Analytics Analytics.get_visitor_data.

Variable h : Host.




End analytics_prediction.

Section get_visitor_data_reading.

Import Analytics Analytics.get_visitor_data.

Variables (w : World) (props : Props) (params : Params).

Let call : Request := get_from props (visitor_url (datafast_visitor_id params)).


End get_visitor_data_reading.

Section setup_get_visitor_data_flow.

Import Setup.get_visitor_data.

Variables (w : World) (props : Props) (params : Params).

Let call : Request := get_from props (visitor_url (visitorId params)).

Lemma setup_get_visitor_data_rejected (t : thrown) :
  network w [] call = Abrupt t -> handler props params w [] = (Abrupt t, [call]).
Proof. intros H. unfold handler. name_call call. now rewrite H. Qed.


Lemma prediction_section_parts (h : Host) (data : value) (block : string) :
  prediction_section h data = Normal block ->
  let prediction := field data "prediction" in
  exists revenue,
    nullish prediction = false
    /\ field prediction "expected_revenue" = VNum revenue
    /\ block
       = nl ++ "**üéØ Conversion Prediction:**" ++ nl
         ++ "‚Ä¢ Conversion Score: " ++ ToString (field prediction "conversion_score")
         ++ "/100" ++ nl
         ++ "‚Ä¢ Conversion Rate: "
         ++ Number.toFixed
              (PrimFloat.mul (number_of h (field prediction "conversion_rate")) 100%float) 1
         ++ "%" ++ nl
         ++ "‚Ä¢ Expected Revenue: $" ++ Number.toFixed revenue 2 ++ nl
         ++ "‚Ä¢ Confidence: "
         ++ Number.toFixed
              (PrimFloat.mul (number_of h (field prediction "confidence")) 100%float) 1
         ++ "%" ++ nl ++ nl
         ++ insight (number_of h (field prediction "conversion_score")).
Proof.
  unfold prediction_section.
  destruct (get data "prediction") as [prediction|] eqn:Ep; [|discriminate].
  apply get_normal in Ep as [_ ->]. cbn [bind ret Monad_completion].
  destruct (get (field data "prediction") "conversion_score") as [score|] eqn:Es;
    [|discriminate].
  apply get_normal in Es as [Hr ->]. cbn [bind ret Monad_completion].
  rewrite !(get_field _ _ Hr). cbn [bind ret Monad_completion].
  destruct (field (field data "prediction") "expected_revenue") as [| |b|x|s|items|fields];
    cbn [toFixed bind ret Monad_completion]; try discriminate.
  intros E. inversion E. exists x. repeat split; try reflexivity. exact Hr.
Qed.


(** Without a prediction the handler completes abruptly. *)
Lemma setup_get_visitor_data_needs_prediction (r : Response) (data : value) :
  network w [] call = Normal r -> ok r = true -> json r = Normal data ->
  nullish (field data "prediction") = true ->
  exists t, fst (handler props params w []) = Abrupt t.
Proof.
  intros H Hok Hjson Hp. unfold handler. name_call call. rewrite H. step.
  rewrite Hok, Hjson. step.
  destruct (identity_section data) as [a|]; step; [|eauto].
  destruct (activity_section (host w) data) as [b|]; step; [|eauto].
  destruct (prediction_section (host w) data) as [c|] eqn:E; step; [|eauto].
  apply prediction_section_parts in E as (x & Hr & _). cbn in Hr. congruence.
Qed.

End setup_get_visitor_data_flow.

(** ** Request bodies *)

Section create_payment_body.

Import Analytics Analytics.create_payment.

Variable args : Params.

(** The body [create_payment] posts, after the schema's defaults. *)
Lemma create_payment_body :
  JSON_stringify (request_object (schema args))
  = VObj ([("amount", json_number (amount args));
           ("currency", VStr (currency args));
           ("transaction_id", VStr (transaction_id args));
           ("datafast_visitor_id", VStr (datafast_visitor_id args))]
          ++ optional "email" (email args)
          ++ optional "name" (name args)
          ++ optional "customer_id" (customer_id args)
          ++ [("renewal", VBool (or_false (renewal args)));
              ("refunded", VBool (or_false (refunded args)))]
          ++ optional "timestamp" (timestamp args))%list.
Proof.
  destruct args as [a c t v e n cid ren ref ts]. unfold json_number.
  destruct e as [[|? ?]|], n as [[|? ?]|], cid as [[|? ?]|], ts as [[|? ?]|];
    reflexivity.
Qed.

End create_payment_body.

Lemma create_payment_calls_once (w : World) (props : Props)
    (params : Analytics.create_payment.Params) :
  exists env,
    Analytics.create_payment.handler props params w []
    = (Normal env, [post props payments_url (Analytics.create_payment.request_object params)]).
Proof.
  unfold Analytics.create_payment.handler.
  name_call (post props payments_url (Analytics.create_payment.request_object params)).
  destruct (network w [] _) as [r|t]; step; [|eauto].
  destruct (ok r); step.
  - destruct (json r) as [result|t]; step; [|eauto].
    destruct (get result "message"); step; [|eauto].
    destruct (get result "transaction_id"); step; eauto.
  - destruct (Analytics.error_message r); step; eauto.
Qed.

Section object_facts.

Lemma lookup_put_same (k : string) (v : value) (o : object) :
  lookup k (put k v o) = Some v.
Proof.
  induction o as [|[k' v'] o IH]; cbn.
  - now rewrite String.eqb_refl.
  - destruct (k' =? k)%string eqn:E; cbn; rewrite ?E; [|exact IH].
    now rewrite String.eqb_refl.
Qed.

Lemma lookup_put_other (k k' : string) (v : value) (o : object) :
  (k' =? k)%string = false -> lookup k (put k' v o) = lookup k o.
Proof.
  intros Hk. induction o as [|[k0 v0] o IH]; cbn.
  - now rewrite Hk.
  - destruct (k0 =? k')%string eqn:E; cbn.
    + apply String.eqb_eq in E; subst k0. now rewrite Hk.
    + destruct (k0 =? k)%string; [reflexivity | exact IH].
Qed.




End object_facts.

Section create_revenue_goal_bodies.

Import Analytics Analytics.create_revenue_goal.

Variable params : Params.



Variables (w : World) (props : Props).

(** The log of an invocation: the goal call, then at most the payment call. *)
Lemma create_revenue_goal_log :
  let goal_call := post props goals_url (goal_request params) in
  let payment_call := post props payments_url (payment_request params (Date_now w)) in
  snd (handler props params w []) = [goal_call]
  \/ snd (handler props params w []) = [goal_call; payment_call].
Proof.
  intros goal_call payment_call.
  destruct (network w [] goal_call) as [r|t] eqn:H.
  - destruct (ok r) eqn:Hok.
    + destruct (json r) as [goalResult|t] eqn:Hjson.
      * right. exact (payment_attempted w props params r goalResult H Hok Hjson).
      * left. unfold handler. step. fold goals_url.
        change {| url := goals_url; init := _ |} with goal_call.
        rewrite H. step. rewrite Hok. step. now rewrite Hjson.
    + left. destruct (goal_refused w props params r H Hok) as (env & -> & _).
      reflexivity.
  - left. now rewrite (goal_rejected w props params t H).
Qed.

End create_revenue_goal_bodies.

(** ** Number formats *)

Section digit_strings.









Lemma digits_fuel_length (fuel : nat) :
  forall n acc, (String.length acc <= String.length (digits_fuel fuel n acc))%nat.
Proof.
  induction fuel as [|fuel IH]; intros n acc; cbn [digits_fuel]; [lia|].
  destruct (n <? 10); [cbn; lia|].
  etransitivity; [|apply IH]. cbn; lia.
Qed.


Lemma digits_not_empty (n : Z) : (1 <= String.length (digits n))%nat.
Proof.
  unfold digits. cbn [digits_fuel]. destruct (n <? 10); [cbn; lia|].
  etransitivity; [|apply digits_fuel_length]. cbn; lia.
Qed.

End digit_strings.




Section analytics_summary_prediction.

Import Analytics Analytics.get_analytics_summary.

Variable h : Host.



End analytics_summary_prediction.

Section get_analytics_summary_reading.

Import Analytics Analytics.get_analytics_summary.

Variables (w : World) (props : Props) (params : Params).

Let call : Request := get_from props (visitor_url (datafast_visitor_id params)).



End get_analytics_summary_reading.

(** * The claims *)

(** ** C1 *)




(** ** C2 *)


(** ** C3 *)




(** ** C4 *)




(** ** C5 *)

(** C5 (as amended).  Every [create_payment] invocation makes exactly
    one call, a POST to the payments endpoint, whose body holds, in this
    order: the four required fields; [email], [name] and [customer_id],
    each only when the caller gave it a non-empty value; [renewal] and
    [refunded], [false] when the caller left them out; [timestamp], only
    when the caller gave it a non-empty value.  A field left out is
    absent as a key: no key of the body holds [undefined], and only a
    non-finite [amount] is written as [null]. *)
Theorem create_payment_body_fields
    (w : World) (props : Props) (args : Analytics.create_payment.Params) :
  exists env request,
    Analytics.create_payment.tool props args w [] = (Normal env, [request])
    /\ url request = payments_url
    /\ method (init request) = "POST"
    /\ body (init request)
       = Some (VObj ([("amount", json_number (Analytics.create_payment.amount args));
                      ("currency", VStr (Analytics.create_payment.currency args));
                      ("transaction_id", VStr (Analytics.create_payment.transaction_id args));
                      ("datafast_visitor_id",
                       VStr (Analytics.create_payment.datafast_visitor_id args))]
                     ++ optional "email" (Analytics.create_payment.email args)
                     ++ optional "name" (Analytics.create_payment.name args)
                     ++ optional "customer_id" (Analytics.create_payment.customer_id args)
                     ++ [("renewal",
                          VBool (or_false (Analytics.create_payment.renewal args)));
                         ("refunded",
                          VBool (or_false (Analytics.create_payment.refunded args)))]
                     ++ optional "timestamp" (Analytics.create_payment.timestamp args))%list).
Proof.
  unfold Analytics.create_payment.tool.
  destruct (create_payment_calls_once w props (Analytics.create_payment.schema args))
    as (env & ->).
  do 2 eexists. split; [reflexivity|]. split; [reflexivity|]. split; [reflexivity|].
  cbn [body init post]. now rewrite create_payment_body.
Qed.

(** C5 fails as stated: called with the required fields and an empty
    e-mail, [create_payment] posts [renewal] and [refunded], which the
    caller left out, and leaves out [email], which the caller gave. *)
Lemma create_payment_body_differs_from_call :
  ~ Stated.body_follows_caller Sample.payment_recorded sample_props Sample.payment.
Proof.
  intros H.
  destruct (H (post sample_props payments_url
                 (Analytics.create_payment.request_object
                    (Analytics.create_payment.schema Sample.payment)))) as (Hr & _).
  - left. reflexivity.
  - specialize (Hr eq_refl). vm_compute in Hr. discriminate.
Qed.

(** ** C10 *)

(** C10.  In the body [create_payment] posts, each of [email], [name],
    [customer_id] and [timestamp] is present exactly when the caller gave
    it a non-empty (truthy) value, so an empty string is left out like a
    missing one; [renewal] and [refunded] are always present, with the
    caller's value or the schema's default [false]. *)
Theorem create_payment_optional_fields
    (w : World) (props : Props) (args : Analytics.create_payment.Params) :
  exists request,
    snd (Analytics.create_payment.tool props args w []) = [request]
    /\ (forall k o,
          In (k, o) [("email", Analytics.create_payment.email args);
                     ("name", Analytics.create_payment.name args);
                     ("customer_id", Analytics.create_payment.customer_id args);
                     ("timestamp", Analytics.create_payment.timestamp args)] ->
          lookup k (body_fields request)
          = match o with
            | Some s => if (s =? "")%string then None else Some (VStr s)
            | None => None
            end)
    /\ lookup "renewal" (body_fields request)
       = Some (VBool (or_false (Analytics.create_payment.renewal args)))
    /\ lookup "refunded" (body_fields request)
       = Some (VBool (or_false (Analytics.create_payment.refunded args))).
Proof.
  unfold Analytics.create_payment.tool.
  destruct (create_payment_calls_once w props (Analytics.create_payment.schema args))
    as (env & ->).
  eexists. split; [reflexivity|].
  unfold body_fields. cbn [body init post]. rewrite create_payment_body.
  destruct args as [a c t v e n cid ren ref ts]. cbn [Analytics.create_payment.email
    Analytics.create_payment.name Analytics.create_payment.customer_id
    Analytics.create_payment.timestamp Analytics.create_payment.renewal
    Analytics.create_payment.refunded Analytics.create_payment.amount
    Analytics.create_payment.currency Analytics.create_payment.transaction_id
    Analytics.create_payment.datafast_visitor_id].
  split; [|split].
  - intros k o Hin. cbn [In] in Hin.
    destruct Hin as [E|[E|[E|[E|[]]]]]; inversion E; subst k o; clear E;
      destruct e as [[|? ?]|], n as [[|? ?]|], cid as [[|? ?]|], ts as [[|? ?]|];
      reflexivity.
  - destruct e as [[|? ?]|], n as [[|? ?]|], cid as [[|? ?]|], ts as [[|? ?]|];
      reflexivity.
  - destruct e as [[|? ?]|], n as [[|? ?]|], cid as [[|? ?]|], ts as [[|? ?]|];
      reflexivity.
Qed.

(** ** C6 *)



(** ** C7 *)




(** ** C8 *)




(** ** C9 *)




(** * Beyond the claims *)

(** ** The calls a tool makes, whatever it is answered *)

Section analytics_calls.

Variables (w : World) (props : Props).

Lemma create_goal_total (params : Analytics.create_goal.Params) :
  exists env,
    Analytics.create_goal.handler props params w []
    = (Normal env,
       [post props goals_url
          (Analytics.goal_object (Analytics.create_goal.datafast_visitor_id params)
             (Analytics.create_goal.name params) (Analytics.create_goal.metadata params))]).
Proof.
  unfold Analytics.create_goal.handler.
  name_call (post props goals_url
               (Analytics.goal_object (Analytics.create_goal.datafast_visitor_id params)
                  (Analytics.create_goal.name params)
                  (Analytics.create_goal.metadata params))).
  destruct (network w [] _) as [r|t]; step; [|eauto].
  destruct (ok r); step.
  - destruct (json r) as [result|t]; step; [|eauto].
    destruct (get result "message"); step; [|eauto].
    destruct (get result "event_id"); step; eauto.
  - destruct (Analytics.error_message r); step; eauto.
Qed.

Lemma validate_visitor_total (params : Analytics.validate_visitor.Params) :
  exists env,
    Analytics.validate_visitor.handler props params w []
    = (Normal env,
       [get_from props (visitor_url (Analytics.validate_visitor.datafast_visitor_id params))]).
Proof.
  unfold Analytics.validate_visitor.handler.
  name_call (get_from props
               (visitor_url (Analytics.validate_visitor.datafast_visitor_id params))).
  destruct (network w [] _) as [r|t]; step; [|eauto].
  destruct (ok r); step.
  - destruct (json r) as [result|t]; step; [|eauto].
    destruct (Analytics.has_data result) as [[b data]|t]; step; [|eauto].
    destruct b; step; eauto.
  - destruct (status r =? 400); step; [eauto|].
    destruct (status r =? 404); step; [eauto|].
    destruct (Analytics.error_message r); step; eauto.
Qed.

Lemma get_analytics_summary_total (params : Analytics.get_analytics_summary.Params) :
  exists env,
    Analytics.get_analytics_summary.handler props params w []
    = (Normal env,
       [get_from props
          (visitor_url (Analytics.get_analytics_summary.datafast_visitor_id params))]).
Proof.
  unfold Analytics.get_analytics_summary.handler.
  name_call (get_from props
               (visitor_url (Analytics.get_analytics_summary.datafast_visitor_id params))).
  destruct (network w [] _) as [r|t]; step; [|eauto].
  destruct (ok r); step.
  - destruct (json r) as [result|t]; step; [|eauto].
    destruct (Analytics.has_data result) as [[b data]|t]; step; [|eauto].
    destruct b; step; [|eauto].
    destruct (Analytics.get_analytics_summary.summary_of _ _ data); step; eauto.
  - destruct (Analytics.error_message r); step; eauto.
Qed.

Lemma create_revenue_goal_total (params : Analytics.create_revenue_goal.Params) :
  exists env, fst (Analytics.create_revenue_goal.handler props params w []) = Normal env.
Proof.
  unfold Analytics.create_revenue_goal.handler. step.
  destruct (network w [] _) as [r|t]; step; [|eauto].
  destruct (ok r); step.
  - destruct (json r) as [goalResult|t]; step; [|eauto].
    destruct (network w _ _) as [pr|t]; step; [|eauto].
    destruct (ok pr); step.
    + destruct (json pr) as [paymentResult|t]; step; [|eauto].
      destruct (get paymentResult "message"); step; [|eauto].
      destruct (get goalResult "message"); step; eauto.
    + destruct (get goalResult "message"); step; eauto.
  - destruct (Analytics.error_message r); step; eauto.
Qed.

Lemma batch_create_goals_total (goals : list Analytics.batch_create_goals.Goal) :
  exists env,
    Analytics.batch_create_goals.handler props
      {| Analytics.batch_create_goals.goals := goals |} w []
    = (Normal env, map (goal_call props) goals).
Proof.
  unfold Analytics.batch_create_goals.handler. step.
  cbn [Analytics.batch_create_goals.goals].
  destruct (loop_reports w props goals [] []) as (results & -> & _). eauto.
Qed.

End analytics_calls.

Section setup_calls.

Variables (w : World) (props : Props).

Lemma setup_create_goal_log (params : Setup.create_goal.Params) :
  snd (Setup.create_goal.handler props params w [])
  = [post props goals_url (Setup.create_goal.request_object params)].
Proof.
  unfold Setup.create_goal.handler.
  name_call (post props goals_url (Setup.create_goal.request_object params)).
  destruct (network w [] _) as [r|t]; step; [|reflexivity].
  destruct (ok r); step.
  - destruct (json r) as [result|t]; step; [|reflexivity].
    destruct (get result "event_id"); step; [|reflexivity].
    destruct (get result "message"); step; reflexivity.
  - destruct (Analytics.error_message r); step; reflexivity.
Qed.

Lemma track_payment_log (params : Setup.track_payment.Params) :
  snd (Setup.track_payment.handler props params w [])
  = [post props payments_url (Setup.track_payment.request_object params)].
Proof.
  unfold Setup.track_payment.handler.
  name_call (post props payments_url (Setup.track_payment.request_object params)).
  destruct (network w [] _) as [r|t]; step; [|reflexivity].
  destruct (ok r); step.
  - destruct (json r) as [result|t]; step; [|reflexivity].
    destruct (get result "transaction_id"); step; [|reflexivity].
    destruct (get result "message"); step; reflexivity.
  - destruct (Analytics.error_message r); step; reflexivity.
Qed.

Lemma setup_get_visitor_data_log (params : Setup.get_visitor_data.Params) :
  snd (Setup.get_visitor_data.handler props params w [])
  = [get_from props (visitor_url (Setup.get_visitor_data.visitorId params))].
Proof.
  unfold Setup.get_visitor_data.handler.
  name_call (get_from props (visitor_url (Setup.get_visitor_data.visitorId params))).
  destruct (network w [] _) as [r|t]; step; [|reflexivity].
  destruct (ok r); step.
  - destruct (json r) as [data|t]; step; [|reflexivity].
    destruct (Setup.get_visitor_data.identity_section data); step; [|reflexivity].
    destruct (Setup.get_visitor_data.activity_section _ data); step; [|reflexivity].
    destruct (Setup.get_visitor_data.prediction_section _ data); step; reflexivity.
  - destruct (Analytics.error_message r); step; reflexivity.
Qed.

End setup_calls.



(** X1.  No tool of the analytics agent ever throws: whatever the
    network answers, the handler returns an envelope.  The five
    single-call tools make exactly one call, to their endpoint;
    [batch_create_goals] makes one goal call per item;
    [create_revenue_goal] makes the goal call and at most the payment
    call. *)
Theorem analytics_tools_always_answer (w : World) (props : Props) :
  (forall params,
     exists env,
       Analytics.create_payment.handler props params w []
       = (Normal env,
          [post props payments_url (Analytics.create_payment.request_object params)]))
  /\ (forall params,
        exists env,
          Analytics.create_goal.handler props params w []
          = (Normal env,
             [post props goals_url
                (Analytics.goal_object (Analytics.create_goal.datafast_visitor_id params)
                   (Analytics.create_goal.name params)
                   (Analytics.create_goal.metadata params))]))
  /\ (forall params,
        exists env,
          Analytics.get_visitor_data.handler props params w []
          = (Normal env,
             [get_from props
                (visitor_url (Analytics.get_visitor_data.datafast_visitor_id params))]))
  /\ (forall params,
        exists env,
          Analytics.validate_visitor.handler props params w []
          = (Normal env,
             [get_from props
                (visitor_url (Analytics.validate_visitor.datafast_visitor_id params))]))
  /\ (forall params,
        exists env,
          Analytics.get_analytics_summary.handler props params w []
          = (Normal env,
             [get_from props
                (visitor_url (Analytics.get_analytics_summary.datafast_visitor_id params))]))
  /\ (forall goals,
        exists env,
          Analytics.batch_create_goals.handler props
            {| Analytics.batch_create_goals.goals := goals |} w []
          = (Normal env, map (goal_call props) goals))
  /\ (forall params,
        let goal_call :=
          post props goals_url (Analytics.create_revenue_goal.goal_request params) in
        let payment_call :=
          post props payments_url
            (Analytics.create_revenue_goal.payment_request params (Date_now w)) in
        let result := Analytics.create_revenue_goal.handler props params w [] in
        (exists env, fst result = Normal env)
        /\ (snd result = [goal_call] \/ snd result = [goal_call; payment_call])).
Proof.
  repeat match goal with |- _ /\ _ => split end; intros params.
  - apply create_payment_calls_once.
  - apply create_goal_total.
  - apply get_visitor_data_total.
  - apply validate_visitor_total.
  - apply get_analytics_summary_total.
  - apply batch_create_goals_total.
  - split; [apply create_revenue_goal_total | apply create_revenue_goal_log].
Qed.

(** X2.  The tools of the onboarding agent have no [try]: each makes
    exactly one call, and when that call gets no response, or a 2xx
    response whose body is not JSON, the handler throws what the call
    threw instead of returning an envelope. *)
Theorem onboarding_tools_throw (w : World) (props : Props) (t : thrown) :
  (forall params,
     let call := post props goals_url (Setup.create_goal.request_object params) in
     let result := Setup.create_goal.handler props params w [] in
     snd result = [call] /\ (faults (network w [] call) t -> fst result = Abrupt t))
  /\ (forall params,
        let call := post props payments_url (Setup.track_payment.request_object params) in
        let result := Setup.track_payment.handler props params w [] in
        snd result = [call] /\ (faults (network w [] call) t -> fst result = Abrupt t))
  /\ (forall params,
        let call :=
          get_from props (visitor_url (Setup.get_visitor_data.visitorId params)) in
        let result := Setup.get_visitor_data.handler props params w [] in
        snd result = [call] /\ (faults (network w [] call) t -> fst result = Abrupt t)).
Proof.
  repeat match goal with |- _ /\ _ => split end; intros params call result;
    (split;
     [ first [ apply setup_create_goal_log | apply track_payment_log
             | apply setup_get_visitor_data_log ]
     | intros [H|(r & H & Hok & Hjson)]; unfold result ]).
  - now rewrite (setup_create_goal_rejected w props params t H).
  - unfold Setup.create_goal.handler. name_call call. rewrite H. step.
    rewrite Hok. step. now rewrite Hjson.
  - now rewrite (track_payment_rejected w props params t H).
  - unfold Setup.track_payment.handler. name_call call. rewrite H. step.
    rewrite Hok. step. now rewrite Hjson.
  - now rewrite (setup_get_visitor_data_rejected w props params t H).
  - unfold Setup.get_visitor_data.handler. name_call call. rewrite H. step.
    rewrite Hok. step. now rewrite Hjson.
Qed.


(** ** What the two agents put on the wire *)

Lemma stringify_record (m : list (string * string)) :
  JSON_stringify (record_of m) = record_of m.
Proof.
  unfold record_of. cbn [JSON_stringify]. f_equal.
  induction m as [|[k v] m IH]; cbn [map stringify_fields fst snd]; [reflexivity|].
  now rewrite IH.
Qed.

Lemma goal_bodies_agree (visitor name : string) (metadata : option (list (string * string))) :
  JSON_stringify (Analytics.goal_object visitor name metadata)
  = JSON_stringify
      (Setup.create_goal.request_object
         {| Setup.create_goal.visitorId := visitor;
            Setup.create_goal.name := name;
            Setup.create_goal.metadata := metadata |}).
Proof.
  destruct metadata as [m|]; reflexivity.
Qed.

(** X4.  [create_goal] of the analytics agent, each item of its
    [batch_create_goals] and [create_goal] of the onboarding agent put
    the same request on the wire for the same visitor, name and
    metadata: a POST to the goals endpoint whose body holds
    [datafast_visitor_id], [name] and, only when the caller gave some,
    [metadata] (an empty metadata object is sent as it is). *)
Theorem create_goal_requests_agree (w : World) (props : Props)
    (visitor name : string) (metadata : option (list (string * string))) :
  let call :=
    {| url := "https://datafa.st/api/v1/goals";
       init := {| method := "POST";
                  headers := bearer_json (apiKey props);
                  body := Some (VObj ([("datafast_visitor_id", VStr visitor);
                                       ("name", VStr name)]
                                      ++ present record_of "metadata" metadata)) |} |} in
  snd (Analytics.create_goal.handler props
         {| Analytics.create_goal.datafast_visitor_id := visitor;
            Analytics.create_goal.name := name;
            Analytics.create_goal.metadata := metadata |} w []) = [call]
  /\ snd (Analytics.batch_create_goals.handler props
            {| Analytics.batch_create_goals.goals :=
                 [{| Analytics.batch_create_goals.datafast_visitor_id := visitor;
                     Analytics.batch_create_goals.name := name;
                     Analytics.batch_create_goals.metadata := metadata |}] |} w []) = [call]
  /\ snd (Setup.create_goal.handler props
            {| Setup.create_goal.visitorId := visitor;
               Setup.create_goal.name := name;
               Setup.create_goal.metadata := metadata |} w []) = [call].
Proof.
  intros call.
  assert (Hbody : JSON_stringify (Analytics.goal_object visitor name metadata)
                  = VObj ([("datafast_visitor_id", VStr visitor); ("name", VStr name)]
                          ++ present record_of "metadata" metadata)).
  { destruct metadata as [m|]; [|reflexivity].
    unfold Analytics.goal_object, literal, prop, spread, and_then, undefined_or.
    cbn [truthy record_of own_properties fold_left put String.eqb Ascii.eqb Bool.eqb
         fst snd].
    cbn [JSON_stringify stringify_fields present app].
    change (VObj (map (fun kv => (fst kv, VStr (snd kv))) m)) with (record_of m).
    pose proof (stringify_record m) as Hm. cbn [JSON_stringify] in Hm.
    unfold record_of in *. now rewrite Hm. }
  split; [|split].
  - destruct (create_goal_total w props
                {| Analytics.create_goal.datafast_visitor_id := visitor;
                   Analytics.create_goal.name := name;
                   Analytics.create_goal.metadata := metadata |}) as (env & ->).
    cbn [snd Analytics.create_goal.datafast_visitor_id Analytics.create_goal.name
         Analytics.create_goal.metadata].
    unfold post, goals_url. now rewrite Hbody.
  - destruct (batch_create_goals_total w props
                [{| Analytics.batch_create_goals.datafast_visitor_id := visitor;
                    Analytics.batch_create_goals.name := name;
                    Analytics.batch_create_goals.metadata := metadata |}]) as (env & ->).
    cbn [snd map]. unfold goal_call, post, goals_url.
    cbn [Analytics.batch_create_goals.datafast_visitor_id
         Analytics.batch_create_goals.name Analytics.batch_create_goals.metadata].
    now rewrite Hbody.
  - rewrite setup_create_goal_log. unfold post, goals_url.
    now rewrite <- goal_bodies_agree, Hbody.
Qed.

(** X5.  [track_payment] of the onboarding agent posts the four
    required fields and, of [email], [name], [customer_id], [renewal] and
    [refunded], exactly those the caller supplied, an empty string
    included: a field is left out only when the caller gave none, and no
    default is filled in. *)
Theorem track_payment_body_follows_caller (w : World) (props : Props)
    (params : Setup.track_payment.Params) :
  snd (Setup.track_payment.handler props params w [])
  = [{| url := "https://datafa.st/api/v1/payments";
        init :=
          {| method := "POST";
             headers := bearer_json (apiKey props);
             body :=
               Some (VObj
                       ([("datafast_visitor_id", VStr (Setup.track_payment.visitorId params));
                         ("amount", json_number (Setup.track_payment.amount params));
                         ("currency", VStr (Setup.track_payment.currency params));
                         ("transaction_id",
                          VStr (Setup.track_payment.transactionId params))]
                        ++ present VStr "email" (Setup.track_payment.email params)
                        ++ present VStr "name" (Setup.track_payment.name params)
                        ++ present VStr "customer_id"
                             (Setup.track_payment.customerId params)
                        ++ present VBool "renewal" (Setup.track_payment.renewal params)
                        ++ present VBool "refunded"
                             (Setup.track_payment.refunded params))) |} |}].
Proof.
  rewrite track_payment_log. unfold post, payments_url. do 4 f_equal.
  destruct params as [v a c t e n cid ren ref]. unfold json_number.
  destruct e, n, cid, ren, ref; reflexivity.
Qed.

(** ** Failures *)



Section analytics_faults.

Variables (w : World) (props : Props) (t : thrown).

Ltac unreadable_body call H Hok Hjson :=
  name_call call; rewrite H; step; rewrite Hok; step; now rewrite Hjson.

Lemma create_payment_faults (params : Analytics.create_payment.Params) :
  let call := post props payments_url (Analytics.create_payment.request_object params) in
  faults (network w [] call) t ->
  Analytics.create_payment.handler props params w []
  = (Normal (Analytics.network_error t), [call]).
Proof.
  intros call [H|(r & H & Hok & Hjson)].
  - exact (create_payment_rejected w props params t H).
  - unfold Analytics.create_payment.handler. unreadable_body call H Hok Hjson.
Qed.

Lemma create_goal_faults (params : Analytics.create_goal.Params) :
  let call :=
    post props goals_url
      (Analytics.goal_object (Analytics.create_goal.datafast_visitor_id params)
         (Analytics.create_goal.name params) (Analytics.create_goal.metadata params)) in
  faults (network w [] call) t ->
  Analytics.create_goal.handler props params w []
  = (Normal (Analytics.network_error t), [call]).
Proof.
  intros call [H|(r & H & Hok & Hjson)].
  - exact (create_goal_rejected w props params t H).
  - unfold Analytics.create_goal.handler. unreadable_body call H Hok Hjson.
Qed.

Lemma get_visitor_data_faults (params : Analytics.get_visitor_data.Params) :
  let call :=
    get_from props (visitor_url (Analytics.get_visitor_data.datafast_visitor_id params)) in
  faults (network w [] call) t ->
  Analytics.get_visitor_data.handler props params w []
  = (Normal (Analytics.network_error t), [call]).
Proof.
  intros call [H|(r & H & Hok & Hjson)].
  - exact (get_visitor_data_rejected w props params t H).
  - unfold Analytics.get_visitor_data.handler. unreadable_body call H Hok Hjson.
Qed.

Lemma get_analytics_summary_faults (params : Analytics.get_analytics_summary.Params) :
  let call :=
    get_from props
      (visitor_url (Analytics.get_analytics_summary.datafast_visitor_id params)) in
  faults (network w [] call) t ->
  Analytics.get_analytics_summary.handler props params w []
  = (Normal (Analytics.network_error t), [call]).
Proof.
  intros call [H|(r & H & Hok & Hjson)];
    unfold Analytics.get_analytics_summary.handler.
  - name_call call. now rewrite H.
  - unreadable_body call H Hok Hjson.
Qed.

Lemma validate_visitor_faults (params : Analytics.validate_visitor.Params) :
  let id := Analytics.validate_visitor.datafast_visitor_id params in
  let call := get_from props (visitor_url id) in
  faults (network w [] call) t ->
  Analytics.validate_visitor.handler props params w []
  = (Normal
       {| content :=
            [{| type := "text";
                text := "Network error validating visitor " ++ dq ++ id ++ dq ++ ": "
                        ++ message_or t "Unknown error occurred" |}];
          isError := Some true |}, [call]).
Proof.
  intros id call [H|(r & H & Hok & Hjson)]; unfold Analytics.validate_visitor.handler.
  - name_call call. now rewrite H.
  - unreadable_body call H Hok Hjson.
Qed.

Lemma create_revenue_goal_faults (params : Analytics.create_revenue_goal.Params) :
  let call := post props goals_url (Analytics.create_revenue_goal.goal_request params) in
  faults (network w [] call) t ->
  Analytics.create_revenue_goal.handler props params w []
  = (Normal (Analytics.network_error t), [call]).
Proof.
  intros call [H|(r & H & Hok & Hjson)].
  - exact (goal_rejected w props params t H).
  - unfold Analytics.create_revenue_goal.handler. step. fold goals_url.
    change {| url := goals_url; init := _ |} with call.
    rewrite H, Hok. step. now rewrite Hjson.
Qed.

End analytics_faults.

(** X7.  In the analytics agent the one [catch] of a handler answers
    every fault alike.  When the call gets no response, or a 2xx
    response whose body is not JSON, the envelope is marked as an error
    and its text is "Network error: " followed by the message of what
    was thrown, or by "Unknown error occurred" when that is not an
    [Error]; [validate_visitor] words it "Network error validating
    visitor", with the visitor id.  So a body that fails to parse is
    reported as a network error too. *)
Theorem faults_are_network_errors (w : World) (props : Props) (t : thrown) :
  let answer (prefix : string) : Envelope :=
    {| content :=
         [{| type := "text";
             text := prefix ++ match t with
                               | ThrownError m => m
                               | ThrownOther _ => "Unknown error occurred"
                               end |}];
       isError := Some true |} in
  (forall params,
     let call :=
       post props payments_url (Analytics.create_payment.request_object params) in
     faults (network w [] call) t ->
     Analytics.create_payment.handler props params w []
     = (Normal (answer "Network error: "), [call]))
  /\ (forall params,
        let call :=
          post props goals_url
            (Analytics.goal_object (Analytics.create_goal.datafast_visitor_id params)
               (Analytics.create_goal.name params)
               (Analytics.create_goal.metadata params)) in
        faults (network w [] call) t ->
        Analytics.create_goal.handler props params w []
        = (Normal (answer "Network error: "), [call]))
  /\ (forall params,
        let call :=
          get_from props
            (visitor_url (Analytics.get_visitor_data.datafast_visitor_id params)) in
        faults (network w [] call) t ->
        Analytics.get_visitor_data.handler props params w []
        = (Normal (answer "Network error: "), [call]))
  /\ (forall params,
        let call :=
          get_from props
            (visitor_url (Analytics.get_analytics_summary.datafast_visitor_id params)) in
        faults (network w [] call) t ->
        Analytics.get_analytics_summary.handler props params w []
        = (Normal (answer "Network error: "), [call]))
  /\ (forall params,
        let call :=
          post props goals_url (Analytics.create_revenue_goal.goal_request params) in
        faults (network w [] call) t ->
        Analytics.create_revenue_goal.handler props params w []
        = (Normal (answer "Network error: "), [call]))
  /\ (forall params,
        let id := Analytics.validate_visitor.datafast_visitor_id params in
        let call := get_from props (visitor_url id) in
        faults (network w [] call) t ->
        Analytics.validate_visitor.handler props params w []
        = (Normal (answer ("Network error validating visitor " ++ dq ++ id ++ dq ++ ": ")),
           [call])).
Proof.
  intros answer.
  assert (Ha : answer "Network error: " = Analytics.network_error t) by reflexivity.
  rewrite Ha.
  repeat match goal with |- _ /\ _ => split end; intros params.
  - apply create_payment_faults.
  - apply create_goal_faults.
  - apply get_visitor_data_faults.
  - apply get_analytics_summary_faults.
  - apply create_revenue_goal_faults.
  - intros id call H. rewrite (validate_visitor_faults w props t params H).
    unfold answer. now rewrite !append_assoc.
Qed.

(** A payment answered with a 200 and an HTML page. *)
Lemma faults_are_network_errors_witness :
  fst (Analytics.create_payment.handler sample_props Sample.payment
         (scripted [respond_text 200 "OK"]) [])
  = Normal
      {| content :=
           [{| type := "text";
               text := "Network error: Unexpected token < in JSON at position 0" |}];
         isError := Some true |}.
Proof.
  destruct (faults_are_network_errors (scripted [respond_text 200 "OK"]) sample_props
              (ThrownError "Unexpected token < in JSON at position 0")) as (H & _).
  rewrite (H Sample.payment); [reflexivity|].
  right. eexists. repeat split; reflexivity.
Defined.

(** The onboarding agent, answered with no response at all. *)
Lemma onboarding_tools_throw_witness :
  Setup.get_visitor_data.handler sample_props Sample.setup_visitor (scripted []) []
  = (Abrupt (ThrownError "fetch failed"),
     [get_from sample_props (visitor_url "visitor-1")]).
Proof.
  destruct (onboarding_tools_throw (scripted []) sample_props (ThrownError "fetch failed"))
    as (_ & _ & H).
  destruct (H Sample.setup_visitor) as [Hlog Hthrow].
  apply injective_projections; cbn [fst snd]; [|exact Hlog].
  apply Hthrow. left. reflexivity.
Defined.

(** ** get_analytics_summary without the prediction *)

Section summary_without_prediction.

Import Analytics Analytics.get_analytics_summary.

Variable h : Host.

Lemma get_put_other (k k' : string) (v : value) (fields : object) :
  (k' =? k)%string = false ->
  get (VObj (put k' v fields)) k = get (VObj fields) k.
Proof. intros Hk. cbn [get]. now rewrite (lookup_put_other k k' v fields Hk). Qed.

Lemma summary_of_ignores (fields : object) (p q : value) :
  summary_of h false (VObj (put "prediction" p fields))
  = summary_of h false (VObj (put "prediction" q fields)).
Proof.
  unfold summary_of.
  rewrite !(get_put_other "visitorId" "prediction") by reflexivity.
  rewrite !(get_put_other "activity" "prediction") by reflexivity.
  rewrite !(get_put_other "identity" "prediction") by reflexivity.
  cbn [get]. rewrite !lookup_put_same.
  cbn [bind ret Monad_completion and_then truthy].
  reflexivity.
Qed.

Lemma summary_of_absent (visitor : value) :
  truthy visitor = true ->
  truthy (field visitor "prediction") = false ->
  summary_of h true visitor = summary_of h false visitor.
Proof.
  intros Ht Hp. pose proof (truthy_readable _ Ht) as Hr.
  unfold summary_of. rewrite !(get_field _ _ Hr). cbn [bind ret Monad_completion].
  destruct (if truthy (field visitor "activity") then _ else _) as [a|]; [|reflexivity].
  cbn [bind ret Monad_completion and_then truthy]. now rewrite Hp.
Qed.

End summary_without_prediction.

(** X8.  [get_analytics_summary] with [include_prediction = false]
    never reads the prediction: the summary of a visitor record is the
    same whatever its [prediction] holds, even one that cannot be
    rendered.  With [include_prediction = true], a record whose
    prediction is missing or falsy gets the same summary as with
    [false]. *)
Theorem summary_leaves_prediction_out (h : Host) :
  (forall (fields : object) (p q : value),
     Analytics.get_analytics_summary.summary_of h false (VObj (put "prediction" p fields))
     = Analytics.get_analytics_summary.summary_of h false
         (VObj (put "prediction" q fields)))
  /\ (forall visitor,
        truthy visitor = true ->
        truthy (field visitor "prediction") = false ->
        Analytics.get_analytics_summary.summary_of h true visitor
        = Analytics.get_analytics_summary.summary_of h false visitor).
Proof.
  split.
  - apply summary_of_ignores.
  - apply summary_of_absent.
Qed.

(** A record without a prediction. *)
Lemma summary_leaves_prediction_out_witness :
  Analytics.get_analytics_summary.summary_of sample_host true
    (VObj [("visitorId", VStr "visitor-1")])
  = Analytics.get_analytics_summary.summary_of sample_host false
      (VObj [("visitorId", VStr "visitor-1")]).
Proof.
  exact (proj2 (summary_leaves_prediction_out sample_host)
           (VObj [("visitorId", VStr "visitor-1")]) eq_refl eq_refl).
Defined.

(** ** Replacing a placeholder *)

Section replace_facts.

Lemma drop_app (p s : string) : drop (String.length p) (p ++ s) = s.
Proof. induction p as [|c p IH]; cbn; [reflexivity | exact IH]. Qed.

Lemma compatible_app (pattern s t : string) :
  compatible pattern (s ++ t) = true -> compatible pattern s = true.
Proof.
  revert s. induction pattern as [|x pattern IH]; intros s; [reflexivity|].
  destruct s as [|y s]; cbn; [reflexivity|].
  intros H. apply andb_prop in H as [-> H]. cbn. eauto.
Qed.

Lemma starts_with_compatible (pattern s : string) :
  starts_with pattern s = true -> compatible pattern s = true.
Proof.
  revert s. induction pattern as [|x pattern IH]; intros s; [reflexivity|].
  destruct s as [|y s]; cbn; [reflexivity|].
  intros H. apply andb_prop in H as [-> H]. cbn. eauto.
Qed.

Lemma clear_app (pattern x y : string) :
  clear pattern x = true -> clear pattern y = true -> clear pattern (x ++ y) = true.
Proof.
  intros Hx Hy. induction x as [|c x IH]; [exact Hy|].
  cbn [append clear] in *. apply andb_prop in Hx as [Hc Hx].
  rewrite (IH Hx), andb_true_r.
  destruct (compatible pattern (String c (x ++ y))) eqn:E; [|reflexivity].
  change (String c (x ++ y)) with (String c x ++ y) in E.
  apply compatible_app in E. now rewrite E in Hc.
Qed.

(** A text without the first character of the pattern. *)
Lemma clear_without (c : ascii) (pattern s : string) :
  all_chars (fun a => negb (Ascii.eqb a c)) s = true ->
  clear (String c pattern) s = true.
Proof.
  induction s as [|a s IH]; [reflexivity|].
  cbn [all_chars clear compatible]. intros H. apply andb_prop in H as [Ha H].
  rewrite (IH H), andb_true_r. rewrite Ascii.eqb_sym.
  now destruct (Ascii.eqb a c).
Qed.

Lemma split_at_eq (pattern s : string) :
  split_at pattern s
  = if starts_with pattern s then Some (EmptyString, drop (String.length pattern) s)
    else
      match s with
      | EmptyString => None
      | String c rest =>
          match split_at pattern rest with
          | Some (before, after) => Some (String c before, after)
          | None => None
          end
      end.
Proof. destruct s; reflexivity. Qed.

Lemma split_at_clear (pattern before after : string) :
  clear pattern before = true ->
  split_at pattern (before ++ pattern ++ after) = Some (before, after).
Proof.
  induction before as [|c before IH]; intros H.
  - cbn [append]. rewrite split_at_eq, starts_with_complete, drop_app. reflexivity.
  - cbn [clear] in H. apply andb_prop in H as [Hc H].
    cbn [append]. rewrite split_at_eq.
    destruct (starts_with pattern (String c (before ++ pattern ++ after))) eqn:E.
    + apply starts_with_compatible in E.
      change (String c (before ++ pattern ++ after))
        with (String c before ++ pattern ++ after) in E.
      apply compatible_app in E. now rewrite E in Hc.
    + now rewrite (IH H).
Qed.

Lemma split_at_sound (pattern s before after : string) :
  split_at pattern s = Some (before, after) -> s = before ++ pattern ++ after.
Proof.
  revert before. induction s as [|c s IH]; intros before; rewrite split_at_eq.
  - destruct (starts_with pattern EmptyString) eqn:E; [|discriminate].
    intros H. inversion H; subst. destruct pattern; [reflexivity | discriminate].
  - destruct (starts_with pattern (String c s)) eqn:E.
    + intros H. inversion H; subst. cbn [append].
      destruct (starts_with_sound _ _ E) as [post Hp]. rewrite Hp.
      now rewrite drop_app.
    + destruct (split_at pattern s) as [[b a]|]; [|discriminate].
      intros H. inversion H; subst. cbn [append]. f_equal. now apply IH.
Qed.

(** A replacement without a dollar sign stands for itself. *)
Lemma GetSubstitution_plain (matched before after s : string) :
  all_chars (fun c => negb (Ascii.eqb c "$")) s = true ->
  GetSubstitution matched before after s = s.
Proof.
  induction s as [|c s IH]; [reflexivity|].
  cbn [all_chars]. intros H. apply andb_prop in H as [Hc H].
  destruct (Ascii.eqb_spec c "$") as [->|Hne]; [discriminate|].
  assert (E : GetSubstitution matched before after (String c s)
              = String c (GetSubstitution matched before after s)).
  { destruct c as [[] [] [] [] [] [] [] []]; try reflexivity. now contradiction Hne. }
  now rewrite E, IH.
Qed.

Lemma GetSubstitution_app (matched before after x s : string) :
  all_chars (fun c => negb (Ascii.eqb c "$")) x = true ->
  GetSubstitution matched before after (x ++ s)
  = x ++ GetSubstitution matched before after s.
Proof.
  induction x as [|c x IH]; [reflexivity|].
  cbn [all_chars]. intros H. apply andb_prop in H as [Hc H].
  destruct (Ascii.eqb_spec c "$") as [->|Hne]; [discriminate|].
  cbn [append].
  assert (E : forall r, GetSubstitution matched before after (String c r)
                        = String c (GetSubstitution matched before after r)).
  { intros r. destruct c as [[] [] [] [] [] [] [] []]; try reflexivity.
    now contradiction Hne. }
  now rewrite E, IH.
Qed.

Lemma replace_clear (pattern before after replacement : string) :
  clear pattern before = true ->
  replace (before ++ pattern ++ after) pattern replacement
  = before ++ GetSubstitution pattern before after replacement ++ after.
Proof. intros H. unfold replace. now rewrite (split_at_clear _ _ _ H). Qed.

Lemma plain_no_dollar (s : string) :
  plain s = true -> all_chars (fun c => negb (Ascii.eqb c "$")) s = true.
Proof.
  unfold plain. induction s as [|c s IH]; [reflexivity|].
  cbn [all_chars]. intros H. apply andb_prop in H as [Hc H].
  rewrite (IH H), andb_true_r. now destruct (Ascii.eqb c "$").
Qed.

Lemma plain_no_brace (s : string) :
  plain s = true -> all_chars (fun c => negb (Ascii.eqb c "{")) s = true.
Proof.
  unfold plain. induction s as [|c s IH]; [reflexivity|].
  cbn [all_chars]. intros H. apply andb_prop in H as [Hc H].
  rewrite (IH H), andb_true_r.
  destruct (Ascii.eqb c "{"); [|reflexivity]. now rewrite orb_true_r in Hc.
Qed.

End replace_facts.

(** ** generate_tracking_script *)

Section fill_facts.

Variables a b c d : string.

Hypothesis Hwf : well_formed a b c = true.

Let template : string := a ++ "{WEBSITE_ID}" ++ b ++ "{DOMAIN}" ++ c ++ "{SCRIPT_SRC}" ++ d.

(** The three replacements, each at its own placeholder, as long as what
    was put in before brings no later placeholder with it. *)
Lemma fill_pieces (websiteId domain scriptSrc : string) :
  let w :=
    GetSubstitution "{WEBSITE_ID}" a (b ++ "{DOMAIN}" ++ c ++ "{SCRIPT_SRC}" ++ d)
      websiteId in
  let dm := GetSubstitution "{DOMAIN}" (a ++ w ++ b) (c ++ "{SCRIPT_SRC}" ++ d) domain in
  let src := GetSubstitution "{SCRIPT_SRC}" (a ++ w ++ b ++ dm ++ c) d scriptSrc in
  clear "{DOMAIN}" w = true -> clear "{SCRIPT_SRC}" w = true ->
  clear "{SCRIPT_SRC}" dm = true ->
  Setup.fill template websiteId domain scriptSrc
  = a ++ w ++ b ++ dm ++ c ++ src ++ d.
Proof.
  intros w dm src Hw1 Hw2 Hd.
  unfold well_formed in Hwf.
  repeat match type of Hwf with
         | _ && _ = true => apply andb_prop in Hwf as [Hwf ?]
         end.
  unfold Setup.fill, template.
  rewrite (replace_clear "{WEBSITE_ID}" a) by assumption. fold w.
  replace (a ++ w ++ b ++ "{DOMAIN}" ++ c ++ "{SCRIPT_SRC}" ++ d)
    with ((a ++ w ++ b) ++ "{DOMAIN}" ++ c ++ "{SCRIPT_SRC}" ++ d)
    by now rewrite !append_assoc.
  rewrite (replace_clear "{DOMAIN}" (a ++ w ++ b)) by (repeat apply clear_app; assumption).
  fold dm.
  replace ((a ++ w ++ b) ++ dm ++ c ++ "{SCRIPT_SRC}" ++ d)
    with ((a ++ w ++ b ++ dm ++ c) ++ "{SCRIPT_SRC}" ++ d)
    by now rewrite !append_assoc.
  rewrite (replace_clear "{SCRIPT_SRC}" (a ++ w ++ b ++ dm ++ c))
    by (repeat apply clear_app; assumption).
  fold src. now rewrite !append_assoc.
Qed.

Lemma fill_plain (websiteId domain scriptSrc : string) :
  plain websiteId = true -> plain domain = true -> plain scriptSrc = true ->
  Setup.fill template websiteId domain scriptSrc
  = a ++ websiteId ++ b ++ domain ++ c ++ scriptSrc ++ d.
Proof.
  intros Hw Hd Hs.
  pose proof (fill_pieces websiteId domain scriptSrc) as H. cbn zeta in H.
  rewrite !(GetSubstitution_plain _ _ _ _ (plain_no_dollar _ Hw)) in H.
  rewrite !(GetSubstitution_plain _ _ _ _ (plain_no_dollar _ Hd)) in H.
  rewrite !(GetSubstitution_plain _ _ _ _ (plain_no_dollar _ Hs)) in H.
  apply H; apply clear_without; now apply plain_no_brace.
Qed.

End fill_facts.

Lemma pieces_sound (template a b c d : string) :
  pieces template = Some (a, b, c, d) ->
  template = a ++ "{WEBSITE_ID}" ++ b ++ "{DOMAIN}" ++ c ++ "{SCRIPT_SRC}" ++ d.
Proof.
  unfold pieces.
  destruct (split_at "{WEBSITE_ID}" template) as [[a' r]|] eqn:E1; [|discriminate].
  destruct (split_at "{DOMAIN}" r) as [[b' r']|] eqn:E2; [|discriminate].
  destruct (split_at "{SCRIPT_SRC}" r') as [[c' d']|] eqn:E3; [|discriminate].
  intros H. inversion H; subst.
  apply split_at_sound in E1, E2, E3. now subst.
Qed.

(** Every script template holds its three placeholders, in this order
    and once each. *)
Lemma templates_well_formed (framework : Setup.FrameworkType) :
  exists a b c d,
    pieces (Setup.scriptTemplate (Setup.frameworks framework)) = Some (a, b, c, d)
    /\ well_formed a b c = true.
Proof.
  destruct framework; vm_compute; do 4 eexists; split; reflexivity.
Qed.

Lemma plain_script_src (useProxy : option bool) : plain (script_src useProxy) = true.
Proof. destruct useProxy as [[]|]; reflexivity. Qed.

Lemma proxy_template_not_empty (framework : Setup.FrameworkType) (proxy : string) :
  Setup.proxyTemplate (Setup.frameworks framework) = Some proxy ->
  negb (proxy =? EmptyString)%string = true.
Proof.
  destruct framework; cbn [Setup.frameworks Setup.proxyTemplate]; intros H;
    try discriminate; inversion H; reflexivity.
Qed.

Section generate_tracking_script_text.

Variable params : Setup.generate_tracking_script.Params.

Let framework : Setup.FrameworkType :=
  chosen (Setup.generate_tracking_script.framework params).
Let config : Setup.FrameworkConfig := Setup.frameworks framework.

(** The answer, given what the three replacements make of the template. *)
Lemma tracking_script_text (script : string) :
  Setup.fill (Setup.scriptTemplate config)
    (Setup.generate_tracking_script.websiteId params)
    (Setup.generate_tracking_script.domain params)
    (script_src (Setup.generate_tracking_script.useProxy params)) = script ->
  text_of (Setup.generate_tracking_script.handler params)
  = "üöÄ **DataFa.st Tracking Script for " ++ Setup.name config ++ "**" ++ nl
    ++ nl
    ++ "**Script:**" ++ nl
       ++ "```" ++ Setup.code_language framework ++ nl
       ++ script ++ nl
       ++ "```" ++ nl
       ++ nl
    ++ "**Installation:** " ++ Setup.installInstructions config ++ nl
       ++ nl
    ++ match Setup.proxyTemplate config, Setup.generate_tracking_script.useProxy params with
       | Some proxy, (None | Some true) =>
           "**Proxy Configuration (Recommended):**" ++ nl
           ++ "```javascript" ++ nl
           ++ proxy ++ nl
           ++ "```" ++ nl
           ++ nl
           ++ "‚ÑπÔ∏è **Why use proxy?** Proxying through your domain prevents ad blockers from blocking tracking and improves data accuracy." ++ nl
              ++ nl
       | _, _ => EmptyString
       end
    ++ "‚ö†Ô∏è **Important:** Get your website ID from https://datafa.st/dashboard" ++ nl
    ++ "üìö **Next steps:** Use the `validate_installation` tool after setup to test tracking.".
Proof.
  intros Hs. unfold config, framework in *.
  unfold Setup.generate_tracking_script.handler, Setup.answer, text_of.
  cbn [content map text String.concat].
  destruct params as [w dm f use]; cbn [Setup.generate_tracking_script.websiteId
    Setup.generate_tracking_script.domain Setup.generate_tracking_script.framework
    Setup.generate_tracking_script.useProxy chosen] in *.
  assert (Hf : match f with Some _ => match f with Some f0 => f0 | None => Setup.vanilla end
                          | None => Setup.vanilla end = chosen f) by now destruct f.
  rewrite Hf.
  assert (Hsrc : (if match use with Some b => b | None => true end
                  then "/js/script.js" else "https://datafa.st/js/script.js")
                 = script_src use) by now destruct use as [[]|].
  rewrite Hsrc, Hs. clear Hs Hf Hsrc.
  destruct (Setup.proxyTemplate (Setup.frameworks (chosen f))) as [proxy|] eqn:Ep;
    destruct use as [[]|]; cbn [undefined_or and_then truthy ToString];
    rewrite ?(proxy_template_not_empty _ _ Ep); cbv iota;
    rewrite ?append_assoc, ?append_nil_r; reflexivity.
Qed.

End generate_tracking_script_text.

(** X9.  [generate_tracking_script], for a website id and a domain
    that hold no dollar sign and no opening brace: the answer is the
    heading with the framework's name, the script template of the
    framework (Vanilla HTML when none is given) in a code fence, with its
    three placeholders replaced by the website id, the domain and the
    script address, the installation note, the proxy configuration when
    the framework has one and [useProxy] is not [false], and the two
    closing lines.  The script address is /js/script.js unless
    [useProxy] is [false]. *)
Theorem tracking_script_answer (params : Setup.generate_tracking_script.Params) :
  let websiteId := Setup.generate_tracking_script.websiteId params in
  let domain := Setup.generate_tracking_script.domain params in
  let useProxy := Setup.generate_tracking_script.useProxy params in
  let framework := chosen (Setup.generate_tracking_script.framework params) in
  let config := Setup.frameworks framework in
  plain websiteId = true -> plain domain = true ->
  exists a b c d,
    Setup.scriptTemplate config
    = a ++ "{WEBSITE_ID}" ++ b ++ "{DOMAIN}" ++ c ++ "{SCRIPT_SRC}" ++ d
    /\ Setup.generate_tracking_script.handler params
       = {| content :=
            [{| type := "text";
                text :=
                  "üöÄ **DataFa.st Tracking Script for " ++ Setup.name config ++ "**" ++ nl
                  ++ nl
                  ++ "**Script:**" ++ nl
                     ++ "```" ++ Setup.code_language framework ++ nl
                     ++ (a ++ websiteId ++ b ++ domain ++ c ++ script_src useProxy ++ d) ++ nl
                     ++ "```" ++ nl
                     ++ nl
                  ++ "**Installation:** " ++ Setup.installInstructions config ++ nl
                     ++ nl
                  ++ match Setup.proxyTemplate config, useProxy with
                     | Some proxy, (None | Some true) =>
                         "**Proxy Configuration (Recommended):**" ++ nl
                         ++ "```javascript" ++ nl
                         ++ proxy ++ nl
                         ++ "```" ++ nl
                         ++ nl
                         ++ "‚ÑπÔ∏è **Why use proxy?** Proxying through your domain prevents ad blockers from blocking tracking and improves data accuracy." ++ nl
                            ++ nl
                     | _, _ => EmptyString
                     end
                  ++ "‚ö†Ô∏è **Important:** Get your website ID from https://datafa.st/dashboard" ++ nl
                  ++ "üìö **Next steps:** Use the `validate_installation` tool after setup to test tracking." |}];
          isError := None |}.
Proof.
  intros websiteId domain useProxy framework config Hw Hd.
  destruct (templates_well_formed framework) as (a & b & c & d & Hp & Hwf).
  apply pieces_sound in Hp. exists a, b, c, d. split; [exact Hp|].
  assert (Hfill : Setup.fill (Setup.scriptTemplate config) websiteId domain
                    (script_src useProxy) = a ++ websiteId ++ b ++ domain ++ c ++ script_src useProxy ++ d).
  { unfold config. rewrite Hp. apply (fill_plain a b c d Hwf); auto using plain_script_src. }
  pose proof (tracking_script_text params _ Hfill) as Ht. cbv zeta in Ht.
  assert (Hh : Setup.generate_tracking_script.handler params
               = Setup.answer (text_of (Setup.generate_tracking_script.handler params)))
    by reflexivity.
  rewrite Hh, Ht. reflexivity.
Qed.

(** The script for Next.js, by default. *)
Lemma tracking_script_answer_witness :
  let params :=
    {| Setup.generate_tracking_script.websiteId := "site-1";
       Setup.generate_tracking_script.domain := "example.com";
       Setup.generate_tracking_script.framework := Some Setup.nextjs;
       Setup.generate_tracking_script.useProxy := None |} in
  let config := Setup.frameworks Setup.nextjs in
  exists a b c d : string,
    Setup.scriptTemplate config
    = a ++ "{WEBSITE_ID}" ++ b ++ "{DOMAIN}" ++ c ++ "{SCRIPT_SRC}" ++ d
    /\ text_of (Setup.generate_tracking_script.handler params)
       = text_of
           {| content :=
                [{| type := "text";
                    text :=
                      "üöÄ **DataFa.st Tracking Script for " ++ Setup.name config ++ "**" ++ nl
                      ++ nl
                      ++ "**Script:**" ++ nl
                         ++ "```" ++ Setup.code_language Setup.nextjs ++ nl
                         ++ (a ++ "site-1" ++ b ++ "example.com" ++ c ++ "/js/script.js" ++ d) ++ nl
                         ++ "```" ++ nl
                         ++ nl
                      ++ "**Installation:** " ++ Setup.installInstructions config ++ nl
                         ++ nl
                      ++ match Setup.proxyTemplate config, @None bool with
                         | Some proxy, (None | Some true) =>
                             "**Proxy Configuration (Recommended):**" ++ nl
                             ++ "```javascript" ++ nl
                             ++ proxy ++ nl
                             ++ "```" ++ nl
                             ++ nl
                             ++ "‚ÑπÔ∏è **Why use proxy?** Proxying through your domain prevents ad blockers from blocking tracking and improves data accuracy." ++ nl
                                ++ nl
                         | _, _ => EmptyString
                         end
                      ++ "‚ö†Ô∏è **Important:** Get your website ID from https://datafa.st/dashboard" ++ nl
                      ++ "üìö **Next steps:** Use the `validate_installation` tool after setup to test tracking." |}];
              isError := None |}.
Proof.
  intros params config.
  destruct (tracking_script_answer params eq_refl eq_refl) as (a & b & c & d & Ht & Hh).
  exists a, b, c, d. split; [exact Ht|]. now rewrite Hh.
Defined.

Section tracking_script_patterns.

Variables (x y domain : string) (framework : option Setup.FrameworkType)
  (useProxy : option bool).

Hypotheses (Hx : plain x = true) (Hy : plain y = true) (Hd : plain domain = true).

Variables a b c d : string.

Hypothesis Hwf : well_formed a b c = true.

Let template : string := a ++ "{WEBSITE_ID}" ++ b ++ "{DOMAIN}" ++ c ++ "{SCRIPT_SRC}" ++ d.

(** What [replace] makes of a website id [x ++ pattern ++ y], when the
    pattern is read as [meaning]. *)
Lemma fill_pattern (pattern meaning : string) :
  (forall before after,
     GetSubstitution "{WEBSITE_ID}" before after (pattern ++ y) = meaning ++ y) ->
  clear "{DOMAIN}" meaning = true -> clear "{SCRIPT_SRC}" meaning = true ->
  Setup.fill template (x ++ pattern ++ y) domain (script_src useProxy)
  = a ++ (x ++ meaning ++ y) ++ b ++ domain ++ c ++ script_src useProxy ++ d.
Proof.
  intros Hm H1 H2.
  pose proof (fill_pieces a b c d Hwf (x ++ pattern ++ y) domain (script_src useProxy)) as H.
  cbv zeta in H.
  rewrite (GetSubstitution_app _ _ _ x _ (plain_no_dollar _ Hx)), Hm in H.
  rewrite (GetSubstitution_plain _ _ _ domain (plain_no_dollar _ Hd)) in H.
  rewrite (GetSubstitution_plain _ _ _ _ (plain_no_dollar _ (plain_script_src useProxy))) in H.
  apply H.
  - repeat apply clear_app; try assumption; apply clear_without; now apply plain_no_brace.
  - repeat apply clear_app; try assumption; apply clear_without; now apply plain_no_brace.
  - apply clear_without. now apply plain_no_brace.
Qed.

End tracking_script_patterns.

(** X10.  [generate_tracking_script] hands the website id to
    [String.prototype.replace] as a replacement, so a dollar sign in it
    is read as a pattern.  Around texts [x] and [y] without dollar signs
    and braces: [$$] in the website id comes out as a single [$], and
    [$&] comes out as the placeholder [{WEBSITE_ID}] itself. *)
Theorem tracking_script_dollar_patterns (x y domain : string)
    (framework : option Setup.FrameworkType) (useProxy : option bool) :
  plain x = true -> plain y = true -> plain domain = true ->
  let answer (websiteId : string) : string :=
    text_of (Setup.generate_tracking_script.handler
               {| Setup.generate_tracking_script.websiteId := websiteId;
            Setup.generate_tracking_script.domain := domain;
            Setup.generate_tracking_script.framework := framework;
            Setup.generate_tracking_script.useProxy := useProxy |}) in
  let fenced (script : string) : string :=
    "```" ++ Setup.code_language (chosen framework) ++ nl ++ script ++ nl ++ "```" in
  exists a b c d,
    Setup.scriptTemplate (Setup.frameworks (chosen framework))
    = a ++ "{WEBSITE_ID}" ++ b ++ "{DOMAIN}" ++ c ++ "{SCRIPT_SRC}" ++ d
    /\ contains
         (fenced (a ++ (x ++ "$" ++ y) ++ b ++ domain ++ c ++ script_src useProxy ++ d))
         (answer (x ++ "$$" ++ y))
    /\ contains
         (fenced (a ++ (x ++ "{WEBSITE_ID}" ++ y) ++ b ++ domain ++ c
                  ++ script_src useProxy ++ d))
         (answer (x ++ "$&" ++ y)).
Proof.
  intros Hx Hy Hd answer fenced.
  destruct (templates_well_formed (chosen framework)) as (a & b & c & d & Hp & Hwf).
  apply pieces_sound in Hp. exists a, b, c, d. split; [exact Hp|].
  assert (Hplain : forall before after,
            GetSubstitution "{WEBSITE_ID}" before after y = y).
  { intros. apply GetSubstitution_plain. now apply plain_no_dollar. }
  split; unfold answer, fenced.
  - rewrite (tracking_script_text _ (a ++ (x ++ "$" ++ y) ++ b ++ domain ++ c
                                     ++ script_src useProxy ++ d)).
    + find_phrase.
    + cbn [Setup.generate_tracking_script.websiteId Setup.generate_tracking_script.domain
           Setup.generate_tracking_script.framework
           Setup.generate_tracking_script.useProxy].
      rewrite Hp. apply (fill_pattern x y domain useProxy Hx Hy Hd a b c d Hwf "$$" "$");
        [|reflexivity|reflexivity].
      intros before after. cbn [append GetSubstitution]. now rewrite Hplain.
  - rewrite (tracking_script_text _ (a ++ (x ++ "{WEBSITE_ID}" ++ y) ++ b ++ domain ++ c
                                     ++ script_src useProxy ++ d)).
    + find_phrase.
    + cbn [Setup.generate_tracking_script.websiteId Setup.generate_tracking_script.domain
           Setup.generate_tracking_script.framework
           Setup.generate_tracking_script.useProxy].
      rewrite Hp.
      apply (fill_pattern x y domain useProxy Hx Hy Hd a b c d Hwf "$&" "{WEBSITE_ID}");
        [|reflexivity|reflexivity].
      intros before after. cbn [append GetSubstitution]. now rewrite Hplain.
Qed.

(** A website id with dollar signs, in the Vanilla HTML script. *)
Lemma tracking_script_dollar_patterns_witness :
  let answer (websiteId : string) : string :=
    text_of (Setup.generate_tracking_script.handler
               {| Setup.generate_tracking_script.websiteId := websiteId;
                  Setup.generate_tracking_script.domain := "example.com";
                  Setup.generate_tracking_script.framework := None;
                  Setup.generate_tracking_script.useProxy := None |}) in
  let fenced (script : string) : string := "```html" ++ nl ++ script ++ nl ++ "```" in
  exists a b c d : string,
    Setup.scriptTemplate (Setup.frameworks Setup.vanilla)
    = a ++ "{WEBSITE_ID}" ++ b ++ "{DOMAIN}" ++ c ++ "{SCRIPT_SRC}" ++ d
    /\ contains (fenced (a ++ ("US" ++ "$" ++ "1") ++ b ++ "example.com" ++ c
                         ++ "/js/script.js" ++ d))
         (answer ("US" ++ "$$" ++ "1"))
    /\ contains (fenced (a ++ ("US" ++ "{WEBSITE_ID}" ++ "1") ++ b ++ "example.com" ++ c
                         ++ "/js/script.js" ++ d))
         (answer ("US" ++ "$&" ++ "1")).
Proof.
  exact (tracking_script_dollar_patterns "US" "1" "example.com" None None
           eq_refl eq_refl eq_refl).
Defined.



(** ** The Worker's entry point *)

Lemma searchParams_get_in (name : string) (pairs : list (string * string)) (v : string) :
  Worker.searchParams_get name pairs = VStr v -> In (name, v) pairs.
Proof.
  induction pairs as [|[k x] pairs IH]; cbn; [discriminate|].
  destruct (String.eqb_spec k name) as [->|_].
  - intros H. inversion H; subst. now left.
  - intros H. right. now apply IH.
Qed.

Lemma searchParams_get_cases (name : string) (pairs : list (string * string)) :
  Worker.searchParams_get name pairs = VNull
  \/ exists v, Worker.searchParams_get name pairs = VStr v.
Proof.
  induction pairs as [|[k x] pairs IH]; cbn; [now left|].
  destruct (k =? name)%string; [right; eauto | exact IH].
Qed.

Lemma fetch_cases (url : Worker.URL) :
  let first := Worker.searchParams_get "api_key" (Worker.searchParams url) in
  let path := Worker.pathname url in
  ((first = VNull \/ first = VStr EmptyString)
   /\ Worker.fetch url
      = Worker.Respond
          "DataFast API key is required. Please provide it as a query parameter: ?api_key=your_api_key"
          401)
  \/ (exists key,
        first = VStr key /\ key <> EmptyString
        /\ Worker.fetch url
           = if (path =? "/sse")%string || (path =? "/sse/message")%string
             then Worker.serveSSE "/sse" {| apiKey := key |}
             else if (path =? "/mcp")%string
                  then Worker.serve "/mcp" {| apiKey := key |}
                  else Worker.Respond "Not found" 404).
Proof.
  cbv zeta. unfold Worker.fetch.
  destruct (searchParams_get_cases "api_key" (Worker.searchParams url)) as [->|[v ->]].
  - left. split; [now left | reflexivity].
  - destruct (String.eqb_spec v EmptyString) as [->|Hne].
    + left. split; [now right | reflexivity].
    + right. exists v. split; [reflexivity|]. split; [exact Hne|].
      cbn [truthy ToString]. destruct (String.eqb_spec v EmptyString); [contradiction|].
      reflexivity.
Qed.

(** X12.  The Worker's [fetch] answers 401 exactly when the URL has no
    [api_key] parameter or its first [api_key] is empty, whatever the
    path: it serves nothing without a key, and an unknown path without a
    key gets 401, not 404.  With a key, /sse and /sse/message are served
    over SSE, mounted at /sse, /mcp is served at /mcp, and any other
    path gets 404 "Not found"; the session's props hold the first
    [api_key] value of the URL. *)
Theorem entry_point_requires_key (url : Worker.URL) :
  let first := Worker.searchParams_get "api_key" (Worker.searchParams url) in
  let path := Worker.pathname url in
  ((first = VNull \/ first = VStr EmptyString)
   <-> exists body, Worker.fetch url = Worker.Respond body 401)
  /\ (forall key, first = VStr key -> key <> EmptyString ->
        In ("api_key", key) (Worker.searchParams url)
        /\ Worker.fetch url
           = if (path =? "/sse")%string || (path =? "/sse/message")%string
             then Worker.serveSSE "/sse" {| apiKey := key |}
             else if (path =? "/mcp")%string
                  then Worker.serve "/mcp" {| apiKey := key |}
                  else Worker.Respond "Not found" 404)
  /\ (forall mount props,
        Worker.fetch url = Worker.serveSSE mount props
        \/ Worker.fetch url = Worker.serve mount props ->
        apiKey props <> EmptyString
        /\ first = VStr (apiKey props)).
Proof.
  intros first path.
  destruct (fetch_cases url) as [[Hnone Hf]|(key & Hk & Hne & Hf)];
    fold first path in Hf; rewrite Hf.
  - fold first in Hnone. split; [|split].
    + split; [eauto | intros _; exact Hnone].
    + intros key Hk Hne. destruct Hnone as [Hn|Hn]; rewrite Hn in Hk; [discriminate|].
      inversion Hk; subst. contradiction.
    + intros mount props [H|H]; discriminate.
  - fold first in Hk. split; [|split].
    + split.
      * intros [H|H]; rewrite H in Hk; [discriminate|]. inversion Hk; subst. contradiction.
      * intros [body H].
        destruct ((path =? "/sse")%string || (path =? "/sse/message")%string);
          [discriminate|]. destruct (path =? "/mcp")%string; discriminate.
    + intros key' Hk' _. rewrite Hk in Hk'. inversion Hk'; subst key'.
      split; [|reflexivity]. now apply searchParams_get_in.
    + intros mount props H.
      destruct ((path =? "/sse")%string || (path =? "/sse/message")%string).
      { destruct H as [H|H]; inversion H; subst. cbn. now split. }
      destruct (path =? "/mcp")%string.
      { destruct H as [H|H]; inversion H; subst. cbn. now split. }
      destruct H; discriminate.
Qed.

(** A request for /mcp whose first key is empty: 401, though a second
    key follows. *)
Lemma entry_point_requires_key_witness :
  exists body,
    Worker.fetch {| Worker.pathname := "/mcp";
                    Worker.searchParams := [("api_key", EmptyString); ("api_key", "df_key")] |}
    = Worker.Respond body 401.
Proof.
  apply (proj1 (proj1 (entry_point_requires_key
                         {| Worker.pathname := "/mcp";
                            Worker.searchParams :=
                              [("api_key", EmptyString); ("api_key", "df_key")] |}))).
  now right.
Defined.

(** ** The help of the onboarding agent *)

(** X13.  [datafast_help]: leaving the topic out is asking for [all];
    the help on any topic opens with the heading, and what follows the
    heading is part of the full help, word for word; the list of tools
    and resources comes with [all] only. *)
Theorem help_topics_compose :
  let help (topic : option Setup.datafast_help.Topic) : string :=
    text_of (Setup.datafast_help.handler {| Setup.datafast_help.topic := topic |}) in
  let heading : string :=
    "üöÄ **DataFa.st MCP Help Center**" ++ nl
    ++ nl in
  help None = help (Some Setup.datafast_help.all)
  /\ forall topic,
       exists section,
         help (Some topic) = heading ++ section
         /\ contains section (help None)
         /\ (containsb "Available Tools" section = true
             <-> topic = Setup.datafast_help.all).
Proof.
  intros help heading. split; [reflexivity|].
  intros topic. exists (drop (String.length heading) (help (Some topic))).
  split; [|split].
  - destruct topic; vm_compute; reflexivity.
  - apply containsb_sound. destruct topic; vm_compute; reflexivity.
  - destruct topic; vm_compute; split; intros H; try reflexivity; discriminate.
Qed.

(** ** Proxy or not: what the two tools take for granted *)

(** Finds a phrase that begins with the end of a literal segment [p] and
    goes on with whole segments. *)
Ltac find_from p :=
  lazymatch goal with
  | |- contains (p ++ _) (?a ++ ?b) =>
      first [ lazymatch a with String _ _ => idtac end;
              let n := eval vm_compute in (String.length a - String.length p)%nat in
              let pre := eval vm_compute in (substring 0 n a) in
              replace a with (pre ++ p) by (vm_compute; reflexivity);
              rewrite (append_assoc pre p);
              apply contains_after; eapply contains_prefix;
              rewrite ?append_assoc; reflexivity
            | apply contains_after; find_from p ]
  end.

(** X14.  Left without [useProxy], the two tools of the onboarding
    agent assume opposite set-ups.  [generate_tracking_script] answers
    as for [useProxy = true]: for a plain website id and domain, its
    script is loaded from /js/script.js, the proxied address.
    [validate_installation] answers as for [useProxy = false]: its
    checklist names the website id and the domain it was given and says
    that the script address should be https://datafa.st/js/script.js. *)
Theorem proxy_defaults_disagree (websiteId domain : string)
    (framework : option Setup.FrameworkType) :
  let generate (useProxy : option bool) : Envelope :=
    Setup.generate_tracking_script.handler
      {| Setup.generate_tracking_script.websiteId := websiteId;
         Setup.generate_tracking_script.domain := domain;
         Setup.generate_tracking_script.framework := framework;
         Setup.generate_tracking_script.useProxy := useProxy |} in
  let validate (useProxy : option bool) : Envelope :=
    Setup.validate_installation.handler
      {| Setup.validate_installation.domain := domain;
         Setup.validate_installation.websiteId := websiteId;
         Setup.validate_installation.useProxy := useProxy |} in
  plain websiteId = true -> plain domain = true ->
  generate None = generate (Some true)
  /\ validate None = validate (Some false)
  /\ (exists a b c d,
        Setup.scriptTemplate (Setup.frameworks (chosen framework))
        = a ++ "{WEBSITE_ID}" ++ b ++ "{DOMAIN}" ++ c ++ "{SCRIPT_SRC}" ++ d
        /\ contains (a ++ websiteId ++ b ++ domain ++ c ++ "/js/script.js" ++ d)
             (text_of (generate None)))
  /\ contains "Script src should be: https://datafa.st/js/script.js"
       (text_of (validate None))
  /\ contains ("Script should include: data-website-id=" ++ dq ++ websiteId ++ dq)
       (text_of (validate None))
  /\ contains ("Script should include: data-domain=" ++ dq ++ domain ++ dq)
       (text_of (validate None)).
Proof.
  intros generate validate Hw Hd.
  split; [reflexivity|]. split; [reflexivity|]. split.
  - destruct (templates_well_formed (chosen framework)) as (a & b & c & d & Hp & Hwf).
    apply pieces_sound in Hp. exists a, b, c, d. split; [exact Hp|].
    unfold generate.
    rewrite (tracking_script_text _ (a ++ websiteId ++ b ++ domain ++ c
                                     ++ script_src None ++ d)).
    + cbn [script_src]. find_phrase.
    + cbn [Setup.generate_tracking_script.websiteId Setup.generate_tracking_script.domain
           Setup.generate_tracking_script.framework
           Setup.generate_tracking_script.useProxy].
      rewrite Hp. apply (fill_plain a b c d Hwf); auto.
  - remember (text_of (validate None)) as checklist eqn:Hc.
    unfold validate, Setup.validate_installation.handler, Setup.answer, text_of in Hc.
    cbn [content map text String.concat Setup.appended fold_left
         Setup.validate_installation.useProxy Setup.validate_installation.domain
         Setup.validate_installation.websiteId] in Hc.
    rewrite !append_assoc in Hc. subst checklist.
    split; [find_marker|].
    split; [find_from "Script should include: data-website-id="
           | find_from "Script should include: data-domain="].
Qed.

(** A site set up with the defaults of both tools. *)
Lemma proxy_defaults_disagree_witness :
  contains "Script src should be: https://datafa.st/js/script.js"
    (text_of (Setup.validate_installation.handler
                {| Setup.validate_installation.domain := "example.com";
                   Setup.validate_installation.websiteId := "site-1";
                   Setup.validate_installation.useProxy := None |})).
Proof.
  exact (proj1 (proj2 (proj2 (proj2 (proxy_defaults_disagree "site-1" "example.com" None
                                       eq_refl eq_refl))))).
Defined.

(** ** The guides of the onboarding agent *)



(** Finds a phrase made of whole segments of a text, both nested to the
    right: it looks for the first segment of the phrase. *)
Ltac find_segments :=
  lazymatch goal with
  | |- contains (?p ++ _) (?a ++ ?b) =>
      first [ constr_eq p a; eapply contains_prefix; rewrite ?append_assoc; reflexivity
            | apply contains_after; find_segments ]
  end.

(** X16.  Every framework guide is complete.  Its script is the
    framework's template with the placeholders filled in by
    [your-website-id], [yourdomain.com] and the direct address
    https://datafa.st/js/script.js, and no placeholder is left anywhere
    in the guide.  The proxy section shows the framework's proxy
    template when it has one (Next.js and Vue.js) and says that a manual
    configuration is required otherwise.  Every framework has tips of its
    own: the fallback for missing tips is never shown. *)
Theorem framework_guides_are_complete (framework : Setup.FrameworkType) :
  let config := Setup.frameworks framework in
  let guide := Setup.generateFrameworkGuide framework config in
  (exists a b c d,
     Setup.scriptTemplate config
     = a ++ "{WEBSITE_ID}" ++ b ++ "{DOMAIN}" ++ c ++ "{SCRIPT_SRC}" ++ d
     /\ contains
          ("```" ++ Setup.code_language framework ++ nl
           ++ a ++ "your-website-id" ++ b ++ "yourdomain.com" ++ c
           ++ "https://datafa.st/js/script.js" ++ d ++ nl ++ "```")
          guide)
  /\ containsb "{WEBSITE_ID}" guide = false
  /\ containsb "{DOMAIN}" guide = false
  /\ containsb "{SCRIPT_SRC}" guide = false
  /\ match Setup.proxyTemplate config with
     | Some proxy =>
         contains ("```javascript" ++ nl ++ proxy ++ nl ++ "```") guide
         /\ containsb "Manual proxy configuration required" guide = false
         /\ (framework = Setup.nextjs \/ framework = Setup.vue)
     | None =>
         containsb "Manual proxy configuration required for this framework." guide = true
         /\ framework <> Setup.nextjs /\ framework <> Setup.vue
     end
  /\ Setup.getFrameworkSpecificTips framework <> EmptyString
  /\ contains (Setup.getFrameworkSpecificTips framework) guide
  /\ containsb "No specific tips available" guide = false.
Proof.
  intros config guide.
  split.
  { destruct (templates_well_formed framework) as (a & b & c & d & Hp & Hwf).
    pose proof (pieces_sound _ _ _ _ _ Hp) as Ht. exists a, b, c, d. split; [exact Ht|].
    unfold guide, Setup.generateFrameworkGuide, config. rewrite Ht.
    rewrite (fill_plain a b c d Hwf) by reflexivity.
    rewrite ?append_assoc. find_segments. }
  unfold guide, config.
  destruct framework; cbn [Setup.frameworks Setup.proxyTemplate];
    (split; [vm_compute; reflexivity|]);
    (split; [vm_compute; reflexivity|]);
    (split; [vm_compute; reflexivity|]);
    (split;
     [ first [ split; [apply containsb_sound; vm_compute; reflexivity|];
               split; [vm_compute; reflexivity|]; auto
             | split; [vm_compute; reflexivity|]; split; discriminate ] |]);
    (split; [vm_compute; discriminate|]);
    (split; [apply containsb_sound; vm_compute; reflexivity|]);
    vm_compute; reflexivity.
Qed.

(** ** Lists of features *)

Section feature_lists.

Variables (A : Type) (eqb : A -> A -> bool) (all : list A).

Hypothesis eqb_eq : forall a b, eqb a b = true <-> a = b.
Hypothesis complete : forall a, In a all.

Lemma filter_sublist (p : A -> bool) (l : list A) : In (filter p l) (sublists l).
Proof.
  induction l as [|a l IH]; cbn; [now left|].
  apply in_or_app. destruct (p a); [left; now apply in_map | now right].
Qed.

Lemma canonical_sublist (asked : list A) : In (canonical eqb all asked) (sublists all).
Proof. apply filter_sublist. Qed.

(** A list of features and its canonical form include the same features. *)
Lemma canonical_includes (asked : list A) (a : A) :
  existsb (eqb a) (canonical eqb all asked) = existsb (eqb a) asked.
Proof.
  unfold canonical.
  destruct (existsb (eqb a) asked) eqn:E.
  - apply existsb_exists. exists a. split; [|now apply eqb_eq].
    apply filter_In. split; [apply complete|].
    apply existsb_exists in E as (b & Hb & Hab). apply eqb_eq in Hab. subst b.
    apply existsb_exists. exists a. split; [exact Hb | now apply eqb_eq].
  - destruct (existsb (eqb a) (filter _ all)) eqn:E'; [|reflexivity].
    apply existsb_exists in E' as (b & Hb & Hab). apply eqb_eq in Hab. subst b.
    apply filter_In in Hb as [_ Hb]. now rewrite E in Hb.
Qed.

End feature_lists.

(** ** The tools that write code *)

(** X17.  [generate_tracking_code] writes code for each of its six
    frameworks: the answer names the framework and the code opens with
    its title comment.  [include_comments] decides two things only: the
    numbered step comments of the code and the closing tip are there
    exactly when it is [true].  The [features] asked for change nothing
    in the answer. *)
Theorem tracking_code_comments (params : Analytics.generate_tracking_code.Params) :
  let framework := Analytics.generate_tracking_code.framework params in
  let comments := Analytics.generate_tracking_code.include_comments params in
  let answer := Analytics.generate_tracking_code.handler params in
  starts_with
    ("Here's the " ++ Analytics.generate_tracking_code.key framework
     ++ " implementation code for DataFast tracking:" ++ nl ++ nl ++ "// DataFast ")
    (text_of answer) = true
  /\ containsb "// 1. " (text_of answer) = comments
  /\ containsb "// 2. " (text_of answer) = comments
  /\ containsb "💡 This code includes comprehensive comments explaining each part of the implementation."
       (text_of answer) = comments
  /\ isError answer = None
  /\ forall features,
       Analytics.generate_tracking_code.handler
         {| Analytics.generate_tracking_code.framework := framework;
            Analytics.generate_tracking_code.features := features;
            Analytics.generate_tracking_code.include_comments := comments |}
       = answer.
Proof.
  destruct params as [framework features comments].
  destruct framework, comments; vm_compute; repeat split.
Qed.

(** X18.  [generate_webhook_handler] has code for JavaScript and
    TypeScript only.  For Python, PHP and Go, which its schema accepts,
    the answer announces a handler and holds none: between the heading
    and the closing note there is nothing but blank lines.  For
    JavaScript and TypeScript the code is the Stripe handler, the
    LemonSqueezy handler or, for PayPal, Paddle and a custom provider
    alike, the generic template. *)
Theorem webhook_handler_languages (params : Analytics.generate_webhook_handler.Params) :
  let provider := Analytics.generate_webhook_handler.provider params in
  let language := Analytics.generate_webhook_handler.language params in
  let text := text_of (Analytics.generate_webhook_handler.handler params) in
  let heading :=
    "Here's the " ++ Analytics.generate_webhook_handler.provider_key provider
    ++ " webhook handler in " ++ Analytics.generate_webhook_handler.language_key language
    ++ ":" ++ nl ++ nl in
  match language with
  | Analytics.generate_webhook_handler.javascript
  | Analytics.generate_webhook_handler.typescript =>
      starts_with
        (heading
         ++ match provider with
            | Analytics.generate_webhook_handler.stripe =>
                "// Stripe Webhook Handler for DataFast"
            | Analytics.generate_webhook_handler.lemonsqueezy =>
                "// LemonSqueezy Webhook Handler for DataFast"
            | _ => "// Generic Webhook Handler Template"
            end ++ nl) text = true
  | _ =>
      text
      = heading ++ nl ++ nl
        ++ "💡 This webhook handler will automatically track payments and goals with DataFast when events occur in your payment provider."
  end.
Proof.
  destruct params as [provider language features].
  destruct language, provider; vm_compute; reflexivity.
Qed.


Section webhook_dispatch.

Import Analytics.generate_webhook_handler.

Lemma webhook_feature_eq (a b : Feature) : is_feature a b = true <-> a = b.
Proof. destruct a, b; cbn; split; intros H; try reflexivity; discriminate. Qed.

Lemma webhook_features_complete (a : Feature) : In a webhook_features.
Proof. destruct a; cbn; tauto. Qed.

(** The code depends on the features through [includes] only. *)
Lemma webhook_handler_canonical (p : Provider) (l : Language) (fs : list Feature) :
  handler {| provider := p; language := l; features := fs |}
  = handler {| provider := p; language := l;
               features := canonical is_feature webhook_features fs |}.
Proof.
  unfold handler, includes.
  cbn [Analytics.generate_webhook_handler.provider
       Analytics.generate_webhook_handler.language
       Analytics.generate_webhook_handler.features].
  rewrite !(canonical_includes Feature is_feature webhook_features webhook_feature_eq
              webhook_features_complete fs).
  reflexivity.
Qed.

Let code (p : Provider) (l : Language) (fs : list Feature) : string :=
  text_of (handler {| provider := p; language := l; features := fs |}).

Lemma webhook_dispatch_checked :
  forallb
    (fun l =>
       forallb
         (fun fs =>
            agree [(containsb "await handlePaymentSuccess(event);" (code stripe l fs), true);
                    (containsb "await handleSubscriptionCreated(event);" (code stripe l fs), true);
                    (containsb "await handleRefund(event);" (code stripe l fs), true);
                    (containsb "const handlePaymentSuccess = " (code stripe l fs), (includes payment_tracking fs));
                    (containsb "const handleSubscriptionCreated = " (code stripe l fs), (includes goal_tracking fs));
                    (containsb "const handleRefund = " (code stripe l fs), (includes refund_handling fs))]
            && agree [(containsb "await handleOrderCreated(payload);" (code lemonsqueezy l fs), true);
                       (containsb "await handleSubscriptionCreated(payload);" (code lemonsqueezy l fs), true);
                       (containsb "const handleOrderCreated = " (code lemonsqueezy l fs), (includes payment_tracking fs));
                       (containsb "const handleSubscriptionCreated = " (code lemonsqueezy l fs), (includes goal_tracking fs))])
         (sublists webhook_features))
    [javascript; typescript] = true.
Proof. vm_compute. reflexivity. Qed.

End webhook_dispatch.

(** Breaks a list of checks that agree into its equations. *)
Ltac checks_hold H :=
  unfold agree in H; cbn [forallb fst snd] in H;
  repeat match type of H with
         | (_ && _)%bool = true =>
             let H1 := fresh in apply andb_prop in H as [H1 H]; apply Bool.eqb_prop in H1
         end.

(** X19.  The Stripe and LemonSqueezy handlers [generate_webhook_handler]
    writes always dispatch to every event handler, but define each one
    only when its feature was asked for.  The Stripe code calls
    [handlePaymentSuccess], [handleSubscriptionCreated] and
    [handleRefund] whatever the features, and defines them exactly with
    [payment_tracking], [goal_tracking] and [refund_handling]; the
    LemonSqueezy code calls [handleOrderCreated] and
    [handleSubscriptionCreated] and defines them exactly with
    [payment_tracking] and [goal_tracking].  With the default features
    the code calls functions it does not define. *)
Theorem webhook_handlers_called_not_defined
    (language : Analytics.generate_webhook_handler.Language)
    (features : list Analytics.generate_webhook_handler.Feature) :
  language = Analytics.generate_webhook_handler.javascript
  \/ language = Analytics.generate_webhook_handler.typescript ->
  let code (provider : Analytics.generate_webhook_handler.Provider) : string :=
    text_of (Analytics.generate_webhook_handler.handler
               {| Analytics.generate_webhook_handler.provider := provider;
                  Analytics.generate_webhook_handler.language := language;
                  Analytics.generate_webhook_handler.features := features |}) in
  let asked (feature : Analytics.generate_webhook_handler.Feature) : bool :=
    Analytics.generate_webhook_handler.includes feature features in
  let stripe := code Analytics.generate_webhook_handler.stripe in
  let lemonsqueezy := code Analytics.generate_webhook_handler.lemonsqueezy in
  (containsb "await handlePaymentSuccess(event);" stripe
      = true
   /\ containsb "await handleSubscriptionCreated(event);" stripe
      = true
   /\ containsb "await handleRefund(event);" stripe
      = true
   /\ containsb "const handlePaymentSuccess = " stripe
      = asked Analytics.generate_webhook_handler.payment_tracking
   /\ containsb "const handleSubscriptionCreated = " stripe
      = asked Analytics.generate_webhook_handler.goal_tracking
   /\ containsb "const handleRefund = " stripe
      = asked Analytics.generate_webhook_handler.refund_handling)
  /\ (containsb "await handleOrderCreated(payload);" lemonsqueezy
         = true
      /\ containsb "await handleSubscriptionCreated(payload);" lemonsqueezy
         = true
      /\ containsb "const handleOrderCreated = " lemonsqueezy
         = asked Analytics.generate_webhook_handler.payment_tracking
      /\ containsb "const handleSubscriptionCreated = " lemonsqueezy
         = asked Analytics.generate_webhook_handler.goal_tracking).
Proof.
  intros Hl code asked stripe lemonsqueezy.
  unfold stripe, lemonsqueezy, code, asked, Analytics.generate_webhook_handler.includes.
  rewrite !(webhook_handler_canonical _ language features).
  rewrite <- !(canonical_includes _ Analytics.generate_webhook_handler.is_feature
                 webhook_features webhook_feature_eq webhook_features_complete features).
  pose proof webhook_dispatch_checked as H. cbv zeta in H.
  rewrite forallb_forall in H.
  assert (Hin : In language [Analytics.generate_webhook_handler.javascript;
                             Analytics.generate_webhook_handler.typescript]).
  { destruct Hl as [-> | ->]; cbn; tauto. }
  specialize (H language Hin). rewrite forallb_forall in H.
  specialize (H _ (canonical_sublist _ Analytics.generate_webhook_handler.is_feature
                     webhook_features features)).
  apply andb_prop in H as [Hs Hm].
  unfold Analytics.generate_webhook_handler.includes in Hs, Hm.
  checks_hold Hs. checks_hold Hm. repeat split; assumption.
Qed.

(** The Stripe handler in JavaScript with the default features: refunds
    are dispatched to a function that is not there. *)
Lemma webhook_handlers_called_not_defined_witness :
  let code :=
    text_of (Analytics.generate_webhook_handler.handler
               {| Analytics.generate_webhook_handler.provider :=
                    Analytics.generate_webhook_handler.stripe;
                  Analytics.generate_webhook_handler.language :=
                    Analytics.generate_webhook_handler.javascript;
                  Analytics.generate_webhook_handler.features :=
                    [Analytics.generate_webhook_handler.payment_tracking] |}) in
  containsb "await handleRefund(event);" code = true
  /\ containsb "const handleRefund = " code = false.
Proof.
  destruct (webhook_handlers_called_not_defined
              Analytics.generate_webhook_handler.javascript
              [Analytics.generate_webhook_handler.payment_tracking] (or_introl eq_refl))
    as [(_ & _ & Hcall & _ & _ & Hdef) _].
  split; [exact Hcall | exact Hdef].
Defined.

Section config_flags.

Import Analytics.generate_config_template.

Lemma config_feature_eq (a b : Feature) : is_feature a b = true <-> a = b.
Proof. destruct a, b; cbn; split; intros H; try reflexivity; discriminate. Qed.

Lemma config_features_complete (a : Feature) : In a config_features.
Proof. destruct a; cbn; tauto. Qed.

Lemma config_template_canonical (e : Environment) (p : Platform) (fs : list Feature) :
  handler {| environment := e; platform := p; features := fs |}
  = handler {| environment := e; platform := p;
               features := canonical is_feature config_features fs |}.
Proof.
  unfold handler, includes.
  cbn [Analytics.generate_config_template.environment
       Analytics.generate_config_template.platform
       Analytics.generate_config_template.features].
  rewrite !(canonical_includes Feature is_feature config_features config_feature_eq
              config_features_complete fs).
  reflexivity.
Qed.

Lemma config_flags_checked :
  forallb
    (fun e =>
       forallb
         (fun fs =>
            containsb
              ("  features: {" ++ nl
        ++ "    tracking: " ++ Analytics.string_of_bool (includes tracking fs) ++ "," ++ nl
        ++ "    goals: " ++ Analytics.string_of_bool (includes goals fs) ++ "," ++ nl
        ++ "    payments: " ++ Analytics.string_of_bool (includes payments fs) ++ "," ++ nl
        ++ "    analytics: " ++ Analytics.string_of_bool (includes analytics fs) ++ "," ++ nl
        ++ "    debugging: " ++ Analytics.string_of_bool (includes debugging fs) ++ "," ++ nl)
              (text_of (handler {| environment := e; platform := web; features := fs |})))
         (sublists config_features))
    [development; staging; production] = true.
Proof. vm_compute. reflexivity. Qed.

End config_flags.

(** X20.  [generate_config_template] has a template for the web, the
    server and AWS Lambda.  For the mobile platform, which its schema
    accepts, the answer holds no configuration at all.  In the three
    templates the environment is written as given, [debug] is [false] in
    production and [true] otherwise, and staging gets the placeholders of
    development: the production website id or API key is named for
    production only.  The web template switches each of its five
    features on exactly when it was asked for. *)
Theorem config_template_settings (params : Analytics.generate_config_template.Params) :
  let environment := Analytics.generate_config_template.environment params in
  let platform := Analytics.generate_config_template.platform params in
  let asked (feature : Analytics.generate_config_template.Feature) : bool :=
    Analytics.generate_config_template.includes feature
      (Analytics.generate_config_template.features params) in
  let text := text_of (Analytics.generate_config_template.handler params) in
  let name := Analytics.generate_config_template.environment_key environment in
  let production :=
    match environment with
    | Analytics.generate_config_template.production => true
    | _ => false
    end in
  let heading :=
    "Here's the " ++ Analytics.generate_config_template.platform_key platform
    ++ " configuration template for " ++ name ++ ":" ++ nl ++ nl in
  starts_with heading text = true
  /\ match platform with
     | Analytics.generate_config_template.mobile =>
         text
         = heading ++ nl ++ nl
           ++ "💡 This template includes all necessary settings, environment variables, and helper functions for your DataFast integration."
     | Analytics.generate_config_template.web =>
         containsb ("// DataFast Web Configuration - " ++ name ++ nl) text = true
         /\ containsb
              ("  websiteId: '"
               ++ (if production then "YOUR_PRODUCTION_WEBSITE_ID" else "YOUR_DEV_WEBSITE_ID")
               ++ "'," ++ nl) text = true
         /\ containsb ("  environment: '" ++ name ++ "'," ++ nl) text = true
         /\ containsb ("  debug: " ++ (if production then "false" else "true") ++ "," ++ nl)
              text = true
         /\ containsb
              ("  features: {" ++ nl
        ++ "    tracking: " ++ Analytics.string_of_bool (asked Analytics.generate_config_template.tracking) ++ "," ++ nl
        ++ "    goals: " ++ Analytics.string_of_bool (asked Analytics.generate_config_template.goals) ++ "," ++ nl
        ++ "    payments: " ++ Analytics.string_of_bool (asked Analytics.generate_config_template.payments) ++ "," ++ nl
        ++ "    analytics: " ++ Analytics.string_of_bool (asked Analytics.generate_config_template.analytics) ++ "," ++ nl
        ++ "    debugging: " ++ Analytics.string_of_bool (asked Analytics.generate_config_template.debugging) ++ "," ++ nl)
              text = true
     | _ =>
         containsb
           ("  apiKey: process.env.DATAFAST_API_KEY || '"
            ++ (if production then "your_production_api_key" else "your_dev_api_key")
            ++ "'," ++ nl) text = true
         /\ containsb ("  environment: '" ++ name ++ "'," ++ nl) text = true
         /\ containsb ("  debug: " ++ (if production then "false" else "true") ++ "," ++ nl)
              text = true
     end.
Proof.
  destruct params as [environment platform features].
  cbv zeta.
  cbn [Analytics.generate_config_template.environment
       Analytics.generate_config_template.platform
       Analytics.generate_config_template.features].
  split; [destruct platform, environment; vm_compute; reflexivity|].
  destruct platform.
  - repeat split; try (destruct environment; vm_compute; reflexivity).
    rewrite (config_template_canonical environment _ features).
    unfold Analytics.generate_config_template.includes.
    rewrite <- !(canonical_includes _ Analytics.generate_config_template.is_feature
                   config_features config_feature_eq config_features_complete features).
    pose proof config_flags_checked as H. rewrite forallb_forall in H.
    assert (Hin : In environment [Analytics.generate_config_template.development;
                                  Analytics.generate_config_template.staging;
                                  Analytics.generate_config_template.production]).
    { destruct environment; cbn; tauto. }
    specialize (H environment Hin). rewrite forallb_forall in H.
    exact (H _ (canonical_sublist _ Analytics.generate_config_template.is_feature
                  config_features features)).
  - destruct environment; vm_compute; reflexivity.
  - destruct environment; vm_compute; repeat split.
  - destruct environment; vm_compute; repeat split.
Qed.

Section browser_debugger.

Import Analytics.generate_debugging_tools.

Lemma debugging_feature_eq (a b : Feature) : is_feature a b = true <-> a = b.
Proof. destruct a, b; cbn; split; intros H; try reflexivity; discriminate. Qed.

Lemma debugging_features_complete (a : Feature) : In a debugging_features.
Proof. destruct a; cbn; tauto. Qed.

Lemma debugging_tools_canonical (p : Platform) (fs : list Feature) :
  handler {| platform := p; features := fs |}
  = handler {| platform := p; features := canonical is_feature debugging_features fs |}.
Proof.
  unfold handler, includes.
  cbn [Analytics.generate_debugging_tools.platform
       Analytics.generate_debugging_tools.features].
  rewrite !(canonical_includes Feature is_feature debugging_features debugging_feature_eq
              debugging_features_complete fs).
  reflexivity.
Qed.

Let code (fs : list Feature) : string :=
  text_of (handler {| platform := browser; features := fs |}).

Lemma browser_debugger_checked :
  forallb
    (fun fs =>
       agree [(containsb "trackVisitorChanges" (code fs), (includes visitor_tracking fs));
              (containsb "debugPaymentTracking" (code fs), (includes payment_debug fs));
              (containsb "testPayment" (code fs), (includes payment_debug fs));
              (containsb "debugGoalTracking" (code fs), (includes goal_tracking fs));
              (containsb "testGoal" (code fs), (includes goal_tracking fs));
              (containsb "trackErrors" (code fs), (includes error_tracking fs));
              (containsb "  monitorNetworkRequests() {" (code fs), (includes network_monitoring fs))]
       && containsb
            ("    if (" ++ Analytics.string_of_bool (includes network_monitoring fs) ++ ") {" ++ nl
        ++ "      this.monitorNetworkRequests();" ++ nl)
            (code fs))
    (sublists debugging_features) = true.
Proof. vm_compute. reflexivity. Qed.

End browser_debugger.

(** X21.  The browser tools [generate_debugging_tools] writes hold
    together whatever the features.  Each optional method
    ([trackVisitorChanges], [debugPaymentTracking], [debugGoalTracking],
    [trackErrors]) and each helper that calls one ([testPayment],
    [testGoal]) is named in the code exactly when its feature was asked
    for, so nothing calls a method that is not there.
    [monitorNetworkRequests] is defined exactly with
    [network_monitoring]; its call is always written, under an [if]
    whose condition is the feature's flag.  For the server and mobile
    platforms the features change nothing. *)
Theorem debugging_tools_hold_together
    (features : list Analytics.generate_debugging_tools.Feature) :
  let tools (platform : Analytics.generate_debugging_tools.Platform)
      (features : list Analytics.generate_debugging_tools.Feature) : Envelope :=
    Analytics.generate_debugging_tools.handler
      {| Analytics.generate_debugging_tools.platform := platform;
         Analytics.generate_debugging_tools.features := features |} in
  let asked (feature : Analytics.generate_debugging_tools.Feature) : bool :=
    Analytics.generate_debugging_tools.includes feature features in
  let code := text_of (tools Analytics.generate_debugging_tools.browser features) in
  containsb "trackVisitorChanges" code
     = asked Analytics.generate_debugging_tools.visitor_tracking
  /\ containsb "debugPaymentTracking" code
     = asked Analytics.generate_debugging_tools.payment_debug
  /\ containsb "testPayment" code
     = asked Analytics.generate_debugging_tools.payment_debug
  /\ containsb "debugGoalTracking" code
     = asked Analytics.generate_debugging_tools.goal_tracking
  /\ containsb "testGoal" code
     = asked Analytics.generate_debugging_tools.goal_tracking
  /\ containsb "trackErrors" code
     = asked Analytics.generate_debugging_tools.error_tracking
  /\ containsb "  monitorNetworkRequests() {" code
     = asked Analytics.generate_debugging_tools.network_monitoring
  /\ containsb
       ("    if (" ++ Analytics.string_of_bool (asked Analytics.generate_debugging_tools.network_monitoring) ++ ") {" ++ nl
        ++ "      this.monitorNetworkRequests();" ++ nl)
       code = true
  /\ tools Analytics.generate_debugging_tools.server features
     = tools Analytics.generate_debugging_tools.server []
  /\ tools Analytics.generate_debugging_tools.mobile features
     = tools Analytics.generate_debugging_tools.mobile [].
Proof.
  intros tools asked code.
  unfold code, asked, tools, Analytics.generate_debugging_tools.includes.
  rewrite (debugging_tools_canonical Analytics.generate_debugging_tools.browser features).
  rewrite <- !(canonical_includes _ Analytics.generate_debugging_tools.is_feature
                 debugging_features debugging_feature_eq debugging_features_complete
                 features).
  pose proof browser_debugger_checked as H. cbv zeta in H.
  rewrite forallb_forall in H.
  specialize (H _ (canonical_sublist _ Analytics.generate_debugging_tools.is_feature
                     debugging_features features)).
  apply andb_prop in H as [H Hguard].
  unfold Analytics.generate_debugging_tools.includes in H, Hguard.
  checks_hold H. repeat split; assumption.
Qed.

(** ** A visitor record with an incomplete identity *)

Section incomplete_identity.

Import Analytics.







End incomplete_identity.


